(** * Renderer-side navigation bookkeeping, message dispatch and test-shell
      start-up: a shallow embedding of

      - chrome/renderer/render_view.cc
      - webkit/tools/test_shell/drag_delegate.cc
      - webkit/tools/test_shell/test_shell_main.cc

    Integers of the C++ code ([int], [int32]) are 32-bit two's-complement
    values, carried here as [Z] with the wrap-around written out
    ([Int32.wrap]).  Objects owned by the rendering engine (WebView,
    WebFrame, WebDataSource, ...) are read-only snapshots of what their
    accessors return at the time of the call.  Everything a method does to
    the outside world (IPC messages, posted tasks, log lines, engine calls)
    is appended to a trace of [Action]s. *)

From Stdlib Require Import ZArith List String Bool Lia.
From stdpp Require Import base option list strings gmap.

Local Open Scope string_scope.
Local Open Scope list_scope.
Local Open Scope Z_scope.

(* ------------------------------------------------------------------ *)
(** ** 32-bit signed arithmetic *)

Module Int32.

Definition modulus : Z := 2 ^ 32.
Definition min_value : Z := - 2 ^ 31.
Definition max_value : Z := 2 ^ 31 - 1.

(** The representative of [z] modulo 2^32 in [min_value, max_value]. *)
Definition wrap (z : Z) : Z := (z - min_value) mod modulus + min_value.

Definition add (a b : Z) : Z := wrap (a + b).
Definition sub (a b : Z) : Z := wrap (a - b).

Definition in_range (z : Z) : Prop := min_value <= z <= max_value.

End Int32.

(* ------------------------------------------------------------------ *)
(** ** Declarations that live in headers outside these sources *)

(** A GURL is carried by its canonical spec; the default-constructed
    [GURL()] is the empty spec. *)
Definition GURL : Type := string.
Definition GURL_empty : GURL := "".
Definition is_empty (url : GURL) : bool := String.eqb url "".

Definition gfx_Size : Type := (Z * Z)%type.
Definition SkBitmap : Type := string.
Definition ThumbnailScore : Type := string.

(** Names this code uses but does not define: the IPC routing sentinel
    (ipc/ipc_message.h), the PageTransition enumerators and predicate
    (chrome/common/page_transition_types.h; a transition is an int made of
    a core value and qualifier bits), two GURL predicates (googleurl), the
    whitespace set of base/string_util.h and gfx::Size::IsEmpty.  They are
    taken as parameters of the development, and so is the pixel work of
    [CaptureThumbnail] (Skia clipping and resampling, the luma histogram
    behind the boring score), which is floating-point image processing. *)
Class Declarations : Type := {
  MSG_ROUTING_NONE : Z;
  LINK : Z;
  FORM_SUBMIT : Z;
  AUTO_SUBFRAME : Z;
  MANUAL_SUBFRAME : Z;
  START_PAGE : Z;
  CLIENT_REDIRECT : Z;
  IsMainFrame : Z -> bool;
  is_valid : GURL -> bool;
  SchemeIsSecure : GURL -> bool;
  kWhitespaceWide : string;
  IsEmpty : gfx_Size -> bool;
  thumbnail_of : SkBitmap -> Z -> Z -> SkBitmap * ThumbnailScore
}.

(** Values to run the model on concrete inputs: the integer constants are
    those of the Chromium tree of the same period, the rest are simple
    stand-ins (a URL is valid when not empty and secure when it starts
    with "https:", blank is the only whitespace, a thumbnail is the captured
    image itself). *)
Definition starts_with (p s : string) : bool :=
  String.eqb (substring 0 (String.length p) s) p.

#[local] Instance chromium_declarations : Declarations := {|
  MSG_ROUTING_NONE := -2;
  LINK := 0;
  FORM_SUBMIT := 7;
  AUTO_SUBFRAME := 3;
  MANUAL_SUBFRAME := 4;
  START_PAGE := 6;
  CLIENT_REDIRECT := 1073741824;
  IsMainFrame := fun t =>
    let core := Z.land t 255 in
    negb (core =? 3) && negb (core =? 4);
  is_valid := fun url => negb (String.eqb url "");
  SchemeIsSecure := starts_with "https:";
  kWhitespaceWide := " ";
  IsEmpty := fun s => (fst s =? 0) || (snd s =? 0);
  thumbnail_of := fun image w h => (image, "score")
|}.

(* ------------------------------------------------------------------ *)
(** ** Engine objects, as the values their accessors return *)

(** Addresses of heap objects that several owners point to. *)
Definition ptr : Type := nat.

(** [NavigationGesture] of webkit/glue/webview_delegate.h. *)
Inductive NavigationGesture : Type :=
  | NavigationGestureUser
  | NavigationGestureAuto
  | NavigationGestureUnknown.

(** [RenderViewExtraRequestData]: tracking data the view hangs on requests
    it starts on behalf of the browser. *)
Module ExtraData.
Record t : Type := mk {
  transition_type : Z;
  request_time : Z;
  request_committed : bool;
  pending_page_id_ : Z
}.

Definition pending_page_id (e : t) : Z := pending_page_id_ e.
Definition is_new_navigation (e : t) : bool := pending_page_id_ e =? -1.

Definition set_transition_type (x : Z) (e : t) : t :=
  mk x (request_time e) (request_committed e) (pending_page_id_ e).
Definition set_request_committed (x : bool) (e : t) : t :=
  mk (transition_type e) (request_time e) x (pending_page_id_ e).
End ExtraData.

Module WebRequest.
Record t : Type := mk {
  GetURL : GURL;
  GetExtraData : option ptr;
  GetSecurityInfo : string;
  GetHttpMethod : string;
  GetHttpReferrer : string
}.
End WebRequest.

Module WebResponse.
Record t : Type := mk {
  GetHttpStatusCode : Z;
  IsContentFiltered : bool;
  GetSecurityInfo : string;
  GetMimeType : string
}.
End WebResponse.

Record SearchableFormData : Type := {
  url : GURL;
  element_name : string;
  encoding : string
}.

Definition PasswordForm : Type := string.
Definition FileUploadData : Type := string.
Definition WebPreferences : Type := string.

Module WebDataSource.
Record t : Type := mk {
  GetRequest : WebRequest.t;
  GetInitialRequest : WebRequest.t;
  GetResponse : WebResponse.t;
  HasUnreachableURL : bool;
  GetUnreachableURL : GURL;
  GetRedirectChain : list GURL;
  GetSearchableFormData : option SearchableFormData;
  GetPasswordFormData : option PasswordForm;
  IsFormSubmit : bool
}.
End WebDataSource.

Module WebFrame.
Record t : Type := mk {
  (** the address of the frame object; frames are compared by pointer *)
  address : ptr;
  GetURL : GURL;
  GetDataSource : option WebDataSource.t;
  GetInViewSourceMode : bool;
  (** [GetContentAsPlainText(max_chars, &contents)] *)
  GetContentAsPlainText : Z -> string;
  GetFavIconURL : GURL;
  GetOSDDURL : GURL;
  (** [GetPreviousHistoryState(&state)]: [None] when it returns false *)
  GetPreviousHistoryState : option string;
  (** [CaptureImage(&device, true)]: [None] when it returns false *)
  CaptureImage : option SkBitmap
}.
End WebFrame.

Module WebView.
Record t : Type := mk {
  GetMainFrame : option WebFrame.t;
  GetMainFrameEncodingName : string;
  GetPreferences : WebPreferences
}.
End WebView.

(** [a == b] on two [WebFrame*]. *)
Definition same_frame (a b : option WebFrame.t) : bool :=
  match a, b with
  | None, None => true
  | Some x, Some y => Nat.eqb (WebFrame.address x) (WebFrame.address y)
  | _, _ => false
  end.

(* ------------------------------------------------------------------ *)
(** ** Outbound IPC messages and the effect trace *)

Record ViewHostMsg_FrameNavigate_Params : Type := mkParams {
  params_page_id : Z;
  params_url : GURL;
  params_referrer : GURL;
  params_transition : Z;
  params_redirects : list GURL;
  params_should_update_history : bool;
  params_searchable_form_url : GURL;
  params_searchable_form_element_name : string;
  params_searchable_form_encoding : string;
  params_password_form : PasswordForm;
  params_security_info : string;
  params_gesture : NavigationGesture;
  params_contents_mime_type : string;
  params_is_post : bool;
  params_is_content_filtered : bool;
  params_http_status_code : Z
}.

Inductive ViewHostMsg : Type :=
  | ViewHostMsg_UpdateState (routing_id page_id : Z) (state : string)
  | ViewHostMsg_FrameNavigate (routing_id : Z)
      (params : ViewHostMsg_FrameNavigate_Params)
  | ViewHostMsg_UpdateEncoding (routing_id : Z) (encoding_name : string)
  | ViewHostMsg_DidStartLoading (routing_id page_id : Z)
  | ViewHostMsg_DidStopLoading (routing_id page_id : Z)
  | ViewHostMsg_UpdateFavIconURL (routing_id page_id : Z) (icon_url : GURL)
  | ViewHostMsg_PageHasOSDD (routing_id page_id : Z) (osd_url : GURL)
      (autodetected : bool)
  | ViewHostMsg_GoToEntryAtOffset (routing_id offset : Z)
  | ViewHostMsg_UpdateTargetURL (routing_id page_id : Z) (target : GURL)
  | ViewHostMsg_PageContents (page_url : GURL) (load_id : Z)
      (contents : string)
  | ViewHostMsg_Thumbnail (routing_id : Z) (page_url : GURL)
      (score : ThumbnailScore) (thumbnail : SkBitmap)
  | ViewHostMsg_CreateWindow (routing_id : Z) (user_gesture : bool).

(** Tasks the view posts to itself through [method_factory_]. *)
Inductive Task : Type :=
  | Task_CapturePageInfo (load_id : Z) (preliminary_capture : bool).

Inductive Action : Type :=
  | Send (m : ViewHostMsg)
  | PostDelayedTask (t : Task) (delay_ms : Z)
  | DLOG_WARNING (text : string)
  | FillFormToUploadFile (f : FileUploadData)
  | AddRoute (routing_id : Z).

(** The messages a trace puts on the channel, in order. *)
Fixpoint sent (tr : list Action) : list ViewHostMsg :=
  match tr with
  | [] => []
  | Send m :: tr' => m :: sent tr'
  | _ :: tr' => sent tr'
  end.

(* ------------------------------------------------------------------ *)
(** ** The view *)

Inductive TargetURLStatus : Type :=
  | TARGET_NONE
  | TARGET_INFLIGHT
  | TARGET_PENDING.

Definition TargetURLStatus_eqb (a b : TargetURLStatus) : bool :=
  match a, b with
  | TARGET_NONE, TARGET_NONE
  | TARGET_INFLIGHT, TARGET_INFLIGHT
  | TARGET_PENDING, TARGET_PENDING => true
  | _, _ => false
  end.

(** The members of [RenderView] (and of its base [RenderWidget]) that the
    methods below read or write. *)
Record RenderView : Type := mkRenderView {
  routing_id_ : Z;
  opener_id_ : Z;
  did_show_ : bool;
  size_ : gfx_Size;
  target_url_status_ : TargetURLStatus;
  target_url_ : GURL;
  pending_target_url_ : GURL;
  is_loading_ : bool;
  navigation_gesture_ : NavigationGesture;
  page_id_ : Z;
  last_page_id_sent_to_browser_ : Z;
  last_indexed_page_id_ : Z;
  opened_by_user_gesture_ : bool;
  first_default_plugin_ : option ptr;
  history_back_list_count_ : Z;
  history_forward_list_count_ : Z;
  decrement_shared_popup_at_destruction_ : bool;
  shared_popup_counter_ : ptr;
  popup_notification_visible_ : bool;
  completed_client_redirect_src_ : GURL;
  last_encoding_name_ : string;
  pending_upload_data_ : option FileUploadData;
  alternate_error_page_url_ : GURL
}.

Definition set_routing_id_ (x : Z) (v : RenderView) : RenderView :=
  let 'mkRenderView _ f1 f2 f3 f4 f5 f6 f7 f8 f9 f10 f11 f12 f13 f14 f15 f16
      f17 f18 f19 f20 f21 f22 := v in
  mkRenderView x f1 f2 f3 f4 f5 f6 f7 f8 f9 f10 f11 f12 f13 f14 f15 f16 f17
      f18 f19 f20 f21 f22.
Definition set_opener_id_ (x : Z) (v : RenderView) : RenderView :=
  let 'mkRenderView f0 _ f2 f3 f4 f5 f6 f7 f8 f9 f10 f11 f12 f13 f14 f15 f16
      f17 f18 f19 f20 f21 f22 := v in
  mkRenderView f0 x f2 f3 f4 f5 f6 f7 f8 f9 f10 f11 f12 f13 f14 f15 f16 f17
      f18 f19 f20 f21 f22.
Definition set_did_show_ (x : bool) (v : RenderView) : RenderView :=
  let 'mkRenderView f0 f1 _ f3 f4 f5 f6 f7 f8 f9 f10 f11 f12 f13 f14 f15 f16
      f17 f18 f19 f20 f21 f22 := v in
  mkRenderView f0 f1 x f3 f4 f5 f6 f7 f8 f9 f10 f11 f12 f13 f14 f15 f16 f17
      f18 f19 f20 f21 f22.
Definition set_size_ (x : gfx_Size) (v : RenderView) : RenderView :=
  let 'mkRenderView f0 f1 f2 _ f4 f5 f6 f7 f8 f9 f10 f11 f12 f13 f14 f15 f16
      f17 f18 f19 f20 f21 f22 := v in
  mkRenderView f0 f1 f2 x f4 f5 f6 f7 f8 f9 f10 f11 f12 f13 f14 f15 f16 f17
      f18 f19 f20 f21 f22.
Definition set_target_url_status_ (x : TargetURLStatus) (v : RenderView) : RenderView :=
  let 'mkRenderView f0 f1 f2 f3 _ f5 f6 f7 f8 f9 f10 f11 f12 f13 f14 f15 f16
      f17 f18 f19 f20 f21 f22 := v in
  mkRenderView f0 f1 f2 f3 x f5 f6 f7 f8 f9 f10 f11 f12 f13 f14 f15 f16 f17
      f18 f19 f20 f21 f22.
Definition set_target_url_ (x : GURL) (v : RenderView) : RenderView :=
  let 'mkRenderView f0 f1 f2 f3 f4 _ f6 f7 f8 f9 f10 f11 f12 f13 f14 f15 f16
      f17 f18 f19 f20 f21 f22 := v in
  mkRenderView f0 f1 f2 f3 f4 x f6 f7 f8 f9 f10 f11 f12 f13 f14 f15 f16 f17
      f18 f19 f20 f21 f22.
Definition set_pending_target_url_ (x : GURL) (v : RenderView) : RenderView :=
  let 'mkRenderView f0 f1 f2 f3 f4 f5 _ f7 f8 f9 f10 f11 f12 f13 f14 f15 f16
      f17 f18 f19 f20 f21 f22 := v in
  mkRenderView f0 f1 f2 f3 f4 f5 x f7 f8 f9 f10 f11 f12 f13 f14 f15 f16 f17
      f18 f19 f20 f21 f22.
Definition set_is_loading_ (x : bool) (v : RenderView) : RenderView :=
  let 'mkRenderView f0 f1 f2 f3 f4 f5 f6 _ f8 f9 f10 f11 f12 f13 f14 f15 f16
      f17 f18 f19 f20 f21 f22 := v in
  mkRenderView f0 f1 f2 f3 f4 f5 f6 x f8 f9 f10 f11 f12 f13 f14 f15 f16 f17
      f18 f19 f20 f21 f22.
Definition set_navigation_gesture_ (x : NavigationGesture) (v : RenderView) : RenderView :=
  let 'mkRenderView f0 f1 f2 f3 f4 f5 f6 f7 _ f9 f10 f11 f12 f13 f14 f15 f16
      f17 f18 f19 f20 f21 f22 := v in
  mkRenderView f0 f1 f2 f3 f4 f5 f6 f7 x f9 f10 f11 f12 f13 f14 f15 f16 f17
      f18 f19 f20 f21 f22.
Definition set_page_id_ (x : Z) (v : RenderView) : RenderView :=
  let 'mkRenderView f0 f1 f2 f3 f4 f5 f6 f7 f8 _ f10 f11 f12 f13 f14 f15 f16
      f17 f18 f19 f20 f21 f22 := v in
  mkRenderView f0 f1 f2 f3 f4 f5 f6 f7 f8 x f10 f11 f12 f13 f14 f15 f16 f17
      f18 f19 f20 f21 f22.
Definition set_last_page_id_sent_to_browser_ (x : Z) (v : RenderView) : RenderView :=
  let 'mkRenderView f0 f1 f2 f3 f4 f5 f6 f7 f8 f9 _ f11 f12 f13 f14 f15 f16
      f17 f18 f19 f20 f21 f22 := v in
  mkRenderView f0 f1 f2 f3 f4 f5 f6 f7 f8 f9 x f11 f12 f13 f14 f15 f16 f17 f18
      f19 f20 f21 f22.
Definition set_last_indexed_page_id_ (x : Z) (v : RenderView) : RenderView :=
  let 'mkRenderView f0 f1 f2 f3 f4 f5 f6 f7 f8 f9 f10 _ f12 f13 f14 f15 f16
      f17 f18 f19 f20 f21 f22 := v in
  mkRenderView f0 f1 f2 f3 f4 f5 f6 f7 f8 f9 f10 x f12 f13 f14 f15 f16 f17 f18
      f19 f20 f21 f22.
Definition set_opened_by_user_gesture_ (x : bool) (v : RenderView) : RenderView :=
  let 'mkRenderView f0 f1 f2 f3 f4 f5 f6 f7 f8 f9 f10 f11 _ f13 f14 f15 f16
      f17 f18 f19 f20 f21 f22 := v in
  mkRenderView f0 f1 f2 f3 f4 f5 f6 f7 f8 f9 f10 f11 x f13 f14 f15 f16 f17 f18
      f19 f20 f21 f22.
Definition set_first_default_plugin_ (x : option ptr) (v : RenderView) : RenderView :=
  let 'mkRenderView f0 f1 f2 f3 f4 f5 f6 f7 f8 f9 f10 f11 f12 _ f14 f15 f16
      f17 f18 f19 f20 f21 f22 := v in
  mkRenderView f0 f1 f2 f3 f4 f5 f6 f7 f8 f9 f10 f11 f12 x f14 f15 f16 f17 f18
      f19 f20 f21 f22.
Definition set_history_back_list_count_ (x : Z) (v : RenderView) : RenderView :=
  let 'mkRenderView f0 f1 f2 f3 f4 f5 f6 f7 f8 f9 f10 f11 f12 f13 _ f15 f16
      f17 f18 f19 f20 f21 f22 := v in
  mkRenderView f0 f1 f2 f3 f4 f5 f6 f7 f8 f9 f10 f11 f12 f13 x f15 f16 f17 f18
      f19 f20 f21 f22.
Definition set_history_forward_list_count_ (x : Z) (v : RenderView) : RenderView :=
  let 'mkRenderView f0 f1 f2 f3 f4 f5 f6 f7 f8 f9 f10 f11 f12 f13 f14 _ f16
      f17 f18 f19 f20 f21 f22 := v in
  mkRenderView f0 f1 f2 f3 f4 f5 f6 f7 f8 f9 f10 f11 f12 f13 f14 x f16 f17 f18
      f19 f20 f21 f22.
Definition set_decrement_shared_popup_at_destruction_ (x : bool) (v : RenderView) : RenderView :=
  let 'mkRenderView f0 f1 f2 f3 f4 f5 f6 f7 f8 f9 f10 f11 f12 f13 f14 f15 _
      f17 f18 f19 f20 f21 f22 := v in
  mkRenderView f0 f1 f2 f3 f4 f5 f6 f7 f8 f9 f10 f11 f12 f13 f14 f15 x f17 f18
      f19 f20 f21 f22.
Definition set_shared_popup_counter_ (x : ptr) (v : RenderView) : RenderView :=
  let 'mkRenderView f0 f1 f2 f3 f4 f5 f6 f7 f8 f9 f10 f11 f12 f13 f14 f15 f16
      _ f18 f19 f20 f21 f22 := v in
  mkRenderView f0 f1 f2 f3 f4 f5 f6 f7 f8 f9 f10 f11 f12 f13 f14 f15 f16 x f18
      f19 f20 f21 f22.
Definition set_popup_notification_visible_ (x : bool) (v : RenderView) : RenderView :=
  let 'mkRenderView f0 f1 f2 f3 f4 f5 f6 f7 f8 f9 f10 f11 f12 f13 f14 f15 f16
      f17 _ f19 f20 f21 f22 := v in
  mkRenderView f0 f1 f2 f3 f4 f5 f6 f7 f8 f9 f10 f11 f12 f13 f14 f15 f16 f17 x
      f19 f20 f21 f22.
Definition set_completed_client_redirect_src_ (x : GURL) (v : RenderView) : RenderView :=
  let 'mkRenderView f0 f1 f2 f3 f4 f5 f6 f7 f8 f9 f10 f11 f12 f13 f14 f15 f16
      f17 f18 _ f20 f21 f22 := v in
  mkRenderView f0 f1 f2 f3 f4 f5 f6 f7 f8 f9 f10 f11 f12 f13 f14 f15 f16 f17
      f18 x f20 f21 f22.
Definition set_last_encoding_name_ (x : string) (v : RenderView) : RenderView :=
  let 'mkRenderView f0 f1 f2 f3 f4 f5 f6 f7 f8 f9 f10 f11 f12 f13 f14 f15 f16
      f17 f18 f19 _ f21 f22 := v in
  mkRenderView f0 f1 f2 f3 f4 f5 f6 f7 f8 f9 f10 f11 f12 f13 f14 f15 f16 f17
      f18 f19 x f21 f22.
Definition set_pending_upload_data_ (x : option FileUploadData) (v : RenderView) : RenderView :=
  let 'mkRenderView f0 f1 f2 f3 f4 f5 f6 f7 f8 f9 f10 f11 f12 f13 f14 f15 f16
      f17 f18 f19 f20 _ f22 := v in
  mkRenderView f0 f1 f2 f3 f4 f5 f6 f7 f8 f9 f10 f11 f12 f13 f14 f15 f16 f17
      f18 f19 f20 x f22.
Definition set_alternate_error_page_url_ (x : GURL) (v : RenderView) : RenderView :=
  let 'mkRenderView f0 f1 f2 f3 f4 f5 f6 f7 f8 f9 f10 f11 f12 f13 f14 f15 f16
      f17 f18 f19 f20 f21 _ := v in
  mkRenderView f0 f1 f2 f3 f4 f5 f6 f7 f8 f9 f10 f11 f12 f13 f14 f15 f16 f17
      f18 f19 f20 f21 x.

(** The constructor's initialiser list.  [size_] and [opener_id_] belong to
    the [RenderWidget] base; [routing_id_], [opener_id_] and
    [shared_popup_counter_] get their values in [Init]. *)
Definition RenderView_new `{Declarations} : RenderView := {|
  routing_id_ := MSG_ROUTING_NONE;
  opener_id_ := MSG_ROUTING_NONE;
  did_show_ := false;
  size_ := (0, 0);
  target_url_status_ := TARGET_NONE;
  target_url_ := GURL_empty;
  pending_target_url_ := GURL_empty;
  is_loading_ := false;
  navigation_gesture_ := NavigationGestureUnknown;
  page_id_ := -1;
  last_page_id_sent_to_browser_ := -1;
  last_indexed_page_id_ := -1;
  opened_by_user_gesture_ := true;
  first_default_plugin_ := None;
  history_back_list_count_ := 0;
  history_forward_list_count_ := 0;
  decrement_shared_popup_at_destruction_ := false;
  shared_popup_counter_ := 0%nat;
  popup_notification_visible_ := false;
  completed_client_redirect_src_ := GURL_empty;
  last_encoding_name_ := "";
  pending_upload_data_ := None;
  alternate_error_page_url_ := GURL_empty
|}.

(** Memory that all views of one renderer process share: the file-level
    static [next_page_id_], the [SharedRenderViewCounter] objects (their
    [data] member) and the extra data attached to requests. *)
Record Renderer : Type := mkRenderer {
  next_page_id_ : Z;
  popup_counters : gmap ptr Z;
  request_extra_data : gmap ptr ExtraData.t
}.

Definition set_next_page_id_ (x : Z) (p : Renderer) : Renderer :=
  mkRenderer x (popup_counters p) (request_extra_data p).
Definition set_popup_counters (x : gmap ptr Z) (p : Renderer) : Renderer :=
  mkRenderer (next_page_id_ p) x (request_extra_data p).
Definition set_request_extra_data (x : gmap ptr ExtraData.t) (p : Renderer)
    : Renderer :=
  mkRenderer (next_page_id_ p) (popup_counters p) x.


Record State : Type := mkState {
  process : Renderer;
  this : RenderView
}.

(* ------------------------------------------------------------------ *)
(** ** Methods as state transformers with a trace

    A method maps the state before the call to its result, the state after
    and the actions performed; [None] stands for a call that does not
    return because it dereferences a null (or dangling) pointer. *)

Definition M (A : Type) : Type := State -> option (A * State * list Action).

#[local] Instance M_ret : MRet M :=
  fun A (a : A) s => Some (a, s, []).

#[local] Instance M_bind : MBind M :=
  fun A B (k : A -> M B) (m : M A) s =>
    match m s with
    | None => None
    | Some (a, s1, t1) =>
        match k a s1 with
        | None => None
        | Some (b, s2, t2) => Some (b, s2, t1 ++ t2)
        end
    end.

Definition crash {A : Type} : M A := fun _ => None.

Definition deref {A : Type} (p : option A) : M A :=
  match p with
  | Some a => mret a
  | None => crash
  end.

Definition get_this : M RenderView := fun s => Some (this s, s, []).
Definition get_process : M Renderer := fun s => Some (process s, s, []).

Definition modify_this (f : RenderView -> RenderView) : M unit :=
  fun s => Some (tt, mkState (process s) (f (this s)), []).

Definition modify_process (f : Renderer -> Renderer) : M unit :=
  fun s => Some (tt, mkState (f (process s)) (this s), []).

Definition emit (a : Action) : M unit := fun s => Some (tt, s, [a]).

(** [if (c) { body }] *)
Definition when (c : bool) (body : M unit) : M unit :=
  if c then body else mret tt.

(** Reading through a possibly null [RenderViewExtraRequestData*]. *)
Definition load_extra_data (p : option ptr) : M (option (ptr * ExtraData.t)) :=
  match p with
  | None => mret None
  | Some a =>
      pr ← get_process;
      e ← deref (request_extra_data pr !! a);
      mret (Some (a, e))
  end.

Definition store_extra_data (a : ptr) (e : ExtraData.t) : M unit :=
  modify_process (fun pr =>
    set_request_extra_data (<[a := e]> (request_extra_data pr)) pr).

(* ------------------------------------------------------------------ *)
(** ** render_view.cc *)

Definition kMaxIndexChars : Z := 65535.
Definition kThumbnailWidth : Z := 196.
Definition kThumbnailHeight : Z := 136.
Definition kDelayForCaptureMs : Z := 500.
Definition kDelayForForcedCaptureMs : Z := 6000.
Definition kMaximumNumberOfUnacknowledgedPopups : Z := 25.

Section Methods.
Context `{Declarations}.

(** *** Page IDs *)

(** [RenderView::SetNextPageID] (its two DCHECKs are debug-only). *)
Definition SetNextPageID (next_page_id : Z) : M unit :=
  modify_process (set_next_page_id_ next_page_id).


(** [RenderView::UpdateSessionHistory].  [webview] is the view's own
    WebView, which [webview()] returns. *)
Definition UpdateSessionHistory (webview : WebView.t) (frame : WebFrame.t)
    : M unit :=
  v ← get_this;
  if page_id_ v =? -1 then mret tt
  else
    main_frame ← deref (WebView.GetMainFrame webview);
    match WebFrame.GetPreviousHistoryState main_frame with
    | None => mret tt
    | Some state =>
        emit (Send (ViewHostMsg_UpdateState (routing_id_ v) (page_id_ v) state))
    end.

(** [RenderView::UpdateURL].  The DCHECKs are debug-only; the accessibility
    cache of the Windows build is not part of the modelled state. *)
Definition UpdateURL (webview : WebView.t) (frame : WebFrame.t) : M unit :=
  ds ← deref (WebFrame.GetDataSource frame);
  let request := WebDataSource.GetRequest ds in
  let initial_request := WebDataSource.GetInitialRequest ds in
  let response := WebDataSource.GetResponse ds in
  extra_data ← load_extra_data (WebRequest.GetExtraData request);
  v ← get_this;
  let params contents_mime_type transition referrer is_post := {|
    params_page_id := page_id_ v;
    params_url :=
      if WebDataSource.HasUnreachableURL ds
      then WebDataSource.GetUnreachableURL ds
      else WebRequest.GetURL request;
    params_referrer := referrer;
    params_transition := transition;
    params_redirects := WebDataSource.GetRedirectChain ds;
    params_should_update_history := negb (WebDataSource.HasUnreachableURL ds);
    params_searchable_form_url :=
      from_option url GURL_empty (WebDataSource.GetSearchableFormData ds);
    params_searchable_form_element_name :=
      from_option element_name "" (WebDataSource.GetSearchableFormData ds);
    params_searchable_form_encoding :=
      from_option encoding "" (WebDataSource.GetSearchableFormData ds);
    params_password_form :=
      default "" (WebDataSource.GetPasswordFormData ds);
    params_security_info :=
      if negb (String.eqb (WebRequest.GetSecurityInfo request) "")
      then WebRequest.GetSecurityInfo request
      else WebResponse.GetSecurityInfo response;
    params_gesture := navigation_gesture_ v;
    params_contents_mime_type := contents_mime_type;
    params_is_post := is_post;
    params_is_content_filtered := WebResponse.IsContentFiltered response;
    params_http_status_code := WebResponse.GetHttpStatusCode response
  |} in
  modify_this (set_navigation_gesture_ NavigationGestureUnknown);;
  (if same_frame (WebView.GetMainFrame webview) (Some frame) then
     (* Top-level navigation. *)
     let t0 :=
       match extra_data with
       | Some (_, e) => ExtraData.transition_type e
       | None => LINK
       end in
     let t1 := if negb (IsMainFrame t0) then LINK else t0 in
     let t2 :=
       if (t1 =? LINK) && WebDataSource.IsFormSubmit ds
       then FORM_SUBMIT else t1 in
     let t3 :=
       if is_valid (completed_client_redirect_src_ v)
       then Z.lor t2 CLIENT_REDIRECT else t2 in
     let referrer :=
       if is_valid (completed_client_redirect_src_ v)
       then completed_client_redirect_src_ v
       else WebRequest.GetHttpReferrer initial_request in
     let is_post := String.eqb (WebRequest.GetHttpMethod request) "POST" in
     emit (Send (ViewHostMsg_FrameNavigate (routing_id_ v)
       (params (WebResponse.GetMimeType response) t3 referrer is_post)))
   else
     (* Subframe navigation. *)
     let transition :=
       if page_id_ v >? last_page_id_sent_to_browser_ v
       then MANUAL_SUBFRAME else AUTO_SUBFRAME in
     emit (Send (ViewHostMsg_FrameNavigate (routing_id_ v)
       (params "" transition GURL_empty false))));;
  modify_this (fun v =>
    set_last_page_id_sent_to_browser_
      (Z.max (last_page_id_sent_to_browser_ v) (page_id_ v)) v);;
  match extra_data with
  | Some (a, e) => store_extra_data a (ExtraData.set_transition_type LINK e)
  | None => mret tt
  end.

(** [RenderView::UpdateEncoding] *)
Definition UpdateEncoding (webview : WebView.t) (frame : WebFrame.t)
    (encoding_name : string) : M unit :=
  v ← get_this;
  when (same_frame (WebView.GetMainFrame webview) (Some frame)
        && negb (String.eqb (last_encoding_name_ v) encoding_name))
    (modify_this (set_last_encoding_name_ encoding_name);;
     emit (Send (ViewHostMsg_UpdateEncoding (routing_id_ v) encoding_name))).

(** [RenderView::DidCommitLoadForFrame] *)
Definition DidCommitLoadForFrame (webview : WebView.t) (frame : WebFrame.t)
    (is_new_navigation : bool) : M unit :=
  main_frame ← deref (WebView.GetMainFrame webview);
  main_ds ← deref (WebFrame.GetDataSource main_frame);
  let request := WebDataSource.GetRequest main_ds in
  extra_data ← load_extra_data (WebRequest.GetExtraData request);
  (if is_new_navigation then
     UpdateSessionHistory webview frame;;
     (* page_id_ = next_page_id_++; *)
     pr ← get_process;
     modify_this (set_page_id_ (next_page_id_ pr));;
     modify_process (set_next_page_id_ (Int32.add (next_page_id_ pr) 1));;
     v ← get_this;
     emit (PostDelayedTask (Task_CapturePageInfo (page_id_ v) true)
             kDelayForForcedCaptureMs)
   else
     v ← get_this;
     match extra_data with
     | Some (_, e) =>
         when (negb (ExtraData.is_new_navigation e)
               && negb (ExtraData.request_committed e)
               && negb (page_id_ v =? ExtraData.pending_page_id e))
           (UpdateSessionHistory webview frame;;
            modify_this (set_page_id_ (ExtraData.pending_page_id e)))
     | None => mret tt
     end);;
  match extra_data with
  | Some (a, e) => store_extra_data a (ExtraData.set_request_committed true e)
  | None => mret tt
  end;;
  UpdateURL webview frame;;
  modify_this (set_completed_client_redirect_src_ GURL_empty);;
  UpdateEncoding webview frame (WebView.GetMainFrameEncodingName webview).

(** *** Loading state *)

(** [RenderView::DidStartLoading] *)
Definition DidStartLoading (webview : WebView.t) : M unit :=
  v ← get_this;
  if is_loading_ v then
    emit (DLOG_WARNING "DidStartLoading called while loading")
  else
    modify_this (set_is_loading_ true);;
    modify_this (set_first_default_plugin_ None);;
    emit (Send (ViewHostMsg_DidStartLoading (routing_id_ v) (page_id_ v))).

(** [RenderView::AddGURLSearchProvider] *)
Definition AddGURLSearchProvider (osd_url : GURL) (autodetected : bool)
    : M unit :=
  v ← get_this;
  when (negb (is_empty osd_url))
    (emit (Send (ViewHostMsg_PageHasOSDD (routing_id_ v) (page_id_ v) osd_url
                   autodetected))).

(** [RenderView::ResetPendingUpload] *)
Definition ResetPendingUpload : M unit :=
  modify_this (set_pending_upload_data_ None).

(** [RenderView::ProcessPendingUpload]; [fill_ok] is what
    [webkit_glue::FillFormToUploadFile] returns when it is called. *)
Definition ProcessPendingUpload (webview : option WebView.t) (fill_ok : bool)
    : M unit :=
  v ← get_this;
  match pending_upload_data_ v, webview with
  | Some f, Some _ =>
      emit (FillFormToUploadFile f);;
      when fill_ok ResetPendingUpload
  | _, _ => mret tt
  end.

(** [RenderView::DidStopLoading] *)
Definition DidStopLoading (webview : WebView.t) (fill_ok : bool) : M unit :=
  v ← get_this;
  if negb (is_loading_ v) then
    emit (DLOG_WARNING "DidStopLoading called while not loading")
  else
    modify_this (set_is_loading_ false);;
    main_frame ← deref (WebView.GetMainFrame webview);
    let favicon_url := WebFrame.GetFavIconURL main_frame in
    when (negb (is_empty favicon_url))
      (emit (Send (ViewHostMsg_UpdateFavIconURL (routing_id_ v) (page_id_ v)
                     favicon_url)));;
    AddGURLSearchProvider (WebFrame.GetOSDDURL main_frame) true;;
    emit (Send (ViewHostMsg_DidStopLoading (routing_id_ v) (page_id_ v)));;
    emit (PostDelayedTask (Task_CapturePageInfo (page_id_ v) false)
            kDelayForCaptureMs);;
    ProcessPendingUpload (Some webview) fill_ok;;
    ResetPendingUpload.

(** *** Session-history counters *)

(** [RenderView::GoToEntryAtOffset] *)
Definition GoToEntryAtOffset (offset : Z) : M unit :=
  modify_this (fun v =>
    set_history_back_list_count_
      (Int32.add (history_back_list_count_ v) offset) v);;
  modify_this (fun v =>
    set_history_forward_list_count_
      (Int32.sub (history_forward_list_count_ v) offset) v);;
  v ← get_this;
  emit (Send (ViewHostMsg_GoToEntryAtOffset (routing_id_ v) offset)).

Definition GetHistoryBackListCount : M Z :=
  v ← get_this; mret (history_back_list_count_ v).

Definition GetHistoryForwardListCount : M Z :=
  v ← get_this; mret (history_forward_list_count_ v).

(** [RenderView::OnUpdateBackForwardListCount] *)
Definition OnUpdateBackForwardListCount (back_list_count forward_list_count : Z)
    : M unit :=
  modify_this (set_history_back_list_count_ back_list_count);;
  modify_this (set_history_forward_list_count_ forward_list_count).

(** [RenderView::DidAddHistoryItem] (the DCHECKed pointers are
    dereferenced right after). *)
Definition DidAddHistoryItem (webview : WebView.t) : M unit :=
  main_frame ← deref (WebView.GetMainFrame webview);
  ds ← deref (WebFrame.GetDataSource main_frame);
  let request := WebDataSource.GetRequest ds in
  extra_data ← load_extra_data (WebRequest.GetExtraData request);
  if from_option (fun e => ExtraData.transition_type (snd e) =? START_PAGE)
       false extra_data
  then mret tt
  else
    modify_this (fun v =>
      set_history_back_list_count_
        (Int32.add (history_back_list_count_ v) 1) v);;
    modify_this (set_history_forward_list_count_ 0).

(** *** Target URL *)

(** [RenderView::UpdateTargetURL] *)
Definition UpdateTargetURL (webview : WebView.t) (url : GURL) : M unit :=
  v ← get_this;
  when (negb (String.eqb url (target_url_ v)))
    (if TargetURLStatus_eqb (target_url_status_ v) TARGET_INFLIGHT
        || TargetURLStatus_eqb (target_url_status_ v) TARGET_PENDING
     then
       modify_this (set_pending_target_url_ url);;
       modify_this (set_target_url_status_ TARGET_PENDING)
     else
       emit (Send (ViewHostMsg_UpdateTargetURL (routing_id_ v) (page_id_ v)
                     url));;
       modify_this (set_target_url_ url);;
       modify_this (set_target_url_status_ TARGET_INFLIGHT)).

(** [RenderView::OnUpdateTargetURLAck] *)
Definition OnUpdateTargetURLAck : M unit :=
  v ← get_this;
  when (TargetURLStatus_eqb (target_url_status_ v) TARGET_PENDING)
    (emit (Send (ViewHostMsg_UpdateTargetURL (routing_id_ v) (page_id_ v)
                   (pending_target_url_ v))));;
  modify_this (set_target_url_status_ TARGET_NONE).

(** *** Page capture *)

(** [std::wstring::find_last_of]: the last position holding a character of
    [set], [None] for [npos]. *)
Fixpoint find_last_of_from (set : string) (i : nat) (s : string)
    (found : option nat) : option nat :=
  match s with
  | EmptyString => found
  | String c s' =>
      find_last_of_from set (S i) s'
        (if existsb (Ascii.eqb c) (list_ascii_of_string set)
         then Some i else found)
  end.

Definition find_last_of (set s : string) : option nat :=
  find_last_of_from set 0 s None.

(** [std::wstring::resize]: keep the first [n] characters, padding with
    null characters when the string is shorter. *)
Fixpoint resize (n : nat) (s : string) : string :=
  match n with
  | O => EmptyString
  | S n' =>
      match s with
      | EmptyString => String Ascii.zero (resize n' EmptyString)
      | String c s' => String c (resize n' s')
      end
  end.

(** [RenderView::CaptureText]; the result is the final value of
    [*contents]. *)
Definition CaptureText (frame : option WebFrame.t) : string :=
  match frame with
  | None => ""
  | Some frame =>
      if SchemeIsSecure (WebFrame.GetURL frame) then ""
      else
        let contents := WebFrame.GetContentAsPlainText frame kMaxIndexChars in
        if Z.of_nat (String.length contents) =? kMaxIndexChars then
          match find_last_of kWhitespaceWide contents with
          | None => contents
          | Some last_space_index => resize last_space_index contents
          end
        else contents
  end.

(** [RenderView::CaptureThumbnail] *)
Definition CaptureThumbnail (frame : WebFrame.t) (w h : Z)
    : option (SkBitmap * ThumbnailScore) :=
  match WebFrame.CaptureImage frame with
  | None => None
  | Some src_bmp => Some (thumbnail_of src_bmp w h)
  end.

(** [RenderView::SendThumbnail]; [webview] is what [webview()] returns. *)
Definition SendThumbnail (webview : option WebView.t) : M unit :=
  wv ← deref webview;
  v ← get_this;
  match WebView.GetMainFrame wv with
  | None => mret tt
  | Some main_frame =>
      let url := WebFrame.GetURL main_frame in
      if is_empty url then mret tt
      else if IsEmpty (size_ v) then mret tt
      else
        match CaptureThumbnail main_frame kThumbnailWidth kThumbnailHeight with
        | None => mret tt
        | Some (thumbnail, score) =>
            emit (Send (ViewHostMsg_Thumbnail (routing_id_ v) url score
                          thumbnail))
        end
  end.

(** [RenderView::CapturePageInfo] *)
Definition CapturePageInfo (webview : option WebView.t) (load_id : Z)
    (preliminary_capture : bool) : M unit :=
  v ← get_this;
  if negb (load_id =? page_id_ v) then mret tt
  else if load_id =? last_indexed_page_id_ v then mret tt
  else
    match webview with
    | None => mret tt
    | Some wv =>
        match WebView.GetMainFrame wv with
        | None => mret tt
        | Some main_frame =>
            if WebFrame.GetInViewSourceMode main_frame then mret tt
            else if from_option WebDataSource.HasUnreachableURL false
                      (WebFrame.GetDataSource main_frame) then mret tt
            else
              when (negb preliminary_capture)
                (modify_this (set_last_indexed_page_id_ load_id));;
              let url := WebFrame.GetURL main_frame in
              if is_empty url then mret tt
              else
                let contents := CaptureText (Some main_frame) in
                when (negb (Nat.eqb (String.length contents) 0))
                  (emit (Send (ViewHostMsg_PageContents url load_id
                                 contents)));;
                SendThumbnail webview
        end
    end.

(** *** Popups *)

(** Run a method on another object of the same process: [this] is [v]
    during [m] and the caller's view again afterwards. *)
Definition on_object {A : Type} (v : RenderView) (m : M A)
    : M (A * RenderView) :=
  fun s =>
    match m (mkState (process s) v) with
    | None => None
    | Some (a, s', tr) => Some ((a, this s'), mkState (process s') (this s), tr)
    end.

(** [new SharedRenderViewCounter(initial)] *)
Definition new_SharedRenderViewCounter (initial : Z) : M ptr :=
  pr ← get_process;
  let c := fresh (dom (popup_counters pr)) in
  modify_process (set_popup_counters (<[c := initial]> (popup_counters pr)));;
  mret c.

(** [shared_popup_counter_->data += delta] through the pointer [c] *)
Definition add_to_counter (c : ptr) (delta : Z) : M unit :=
  pr ← get_process;
  data ← deref (popup_counters pr !! c);
  modify_process
    (set_popup_counters (<[c := Int32.add data delta]> (popup_counters pr))).

(** [RenderView::Init], as far as the modelled members go: the opener, the
    shared popup counter and the routing id. *)
Definition Init (opener_id : Z) (counter : option ptr) (routing_id : Z)
    : M unit :=
  when (negb (opener_id =? MSG_ROUTING_NONE))
    (modify_this (set_opener_id_ opener_id));;
  match counter with
  | Some c =>
      modify_this (set_shared_popup_counter_ c);;
      add_to_counter c 1;;
      modify_this (set_decrement_shared_popup_at_destruction_ true)
  | None =>
      c ← new_SharedRenderViewCounter 0;
      modify_this (set_shared_popup_counter_ c);;
      modify_this (set_decrement_shared_popup_at_destruction_ false)
  end;;
  modify_this (set_routing_id_ routing_id);;
  emit (AddRoute routing_id);;
  when (opener_id =? MSG_ROUTING_NONE)
    (modify_this (set_did_show_ true)).

(** [RenderView::Create]: the new view, initialised. *)
Definition Create (opener_id : Z) (counter : option ptr) (routing_id : Z)
    : M RenderView :=
  r ← on_object RenderView_new (Init opener_id counter routing_id);
  mret (snd r).

(** [RenderView::CreateWebView].  [reply_routing_id] is the value of the
    local [routing_id] once the synchronous ViewHostMsg_CreateWindow has
    returned ([MSG_ROUTING_NONE] when the browser gave none).  The result
    is the new view, whose WebView the C++ method returns; [None] is
    NULL. *)
Definition CreateWebView (webview : WebView.t) (user_gesture : bool)
    (reply_routing_id : Z) : M (option RenderView) :=
  v ← get_this;
  pr ← get_process;
  data ← deref (popup_counters pr !! shared_popup_counter_ v);
  if data >? kMaximumNumberOfUnacknowledgedPopups then mret None
  else
    modify_this (set_popup_notification_visible_ true);;
    emit (Send (ViewHostMsg_CreateWindow (routing_id_ v) user_gesture));;
    if reply_routing_id =? MSG_ROUTING_NONE then mret None
    else
      view ← Create (routing_id_ v) (Some (shared_popup_counter_ v))
                reply_routing_id;
      let view := set_opened_by_user_gesture_ user_gesture view in
      let view :=
        set_alternate_error_page_url_ (alternate_error_page_url_ v) view in
      mret (Some view).

(** [RenderView::~RenderView], as far as the popup counter goes. *)
Definition RenderView_destroy : M unit :=
  v ← get_this;
  when (decrement_shared_popup_at_destruction_ v)
    (add_to_counter (shared_popup_counter_ v) (-1)).

(** [RenderView::OnDisassociateFromPopupCount] *)
Definition OnDisassociateFromPopupCount : M unit :=
  v ← get_this;
  when (decrement_shared_popup_at_destruction_ v)
    (add_to_counter (shared_popup_counter_ v) (-1));;
  c ← new_SharedRenderViewCounter 0;
  modify_this (set_shared_popup_counter_ c);;
  modify_this (set_decrement_shared_popup_at_destruction_ false).

End Methods.

(** *** Inbound message dispatch *)

Record IPC_Message : Type := {
  type : string;
  payload : string
}.

(** The entries between IPC_BEGIN_MESSAGE_MAP and IPC_MESSAGE_UNHANDLED in
    [RenderView::OnMessageReceived], in source order: message class and
    member function. *)
Definition message_map : list (string * string) := [
    ("ViewMsg_CaptureThumbnail", "SendThumbnail");
    ("ViewMsg_PrintPages", "OnPrintPages");
    ("ViewMsg_Navigate", "OnNavigate");
    ("ViewMsg_Stop", "OnStop");
    ("ViewMsg_LoadAlternateHTMLText", "OnLoadAlternateHTMLText");
    ("ViewMsg_StopFinding", "OnStopFinding");
    ("ViewMsg_Undo", "OnUndo");
    ("ViewMsg_Redo", "OnRedo");
    ("ViewMsg_Cut", "OnCut");
    ("ViewMsg_Copy", "OnCopy");
    ("ViewMsg_Paste", "OnPaste");
    ("ViewMsg_Replace", "OnReplace");
    ("ViewMsg_ToggleSpellCheck", "OnToggleSpellCheck");
    ("ViewMsg_Delete", "OnDelete");
    ("ViewMsg_SelectAll", "OnSelectAll");
    ("ViewMsg_CopyImageAt", "OnCopyImageAt");
    ("ViewMsg_Find", "OnFind");
    ("ViewMsg_Zoom", "OnZoom");
    ("ViewMsg_InsertText", "OnInsertText");
    ("ViewMsg_SetPageEncoding", "OnSetPageEncoding");
    ("ViewMsg_InspectElement", "OnInspectElement");
    ("ViewMsg_ShowJavaScriptConsole", "OnShowJavaScriptConsole");
    ("ViewMsg_SetupDevToolsClient", "OnSetupDevToolsClient");
    ("ViewMsg_DownloadImage", "OnDownloadImage");
    ("ViewMsg_ScriptEvalRequest", "OnScriptEvalRequest");
    ("ViewMsg_CSSInsertRequest", "OnCSSInsertRequest");
    ("ViewMsg_AddMessageToConsole", "OnAddMessageToConsole");
    ("ViewMsg_DebugAttach", "OnDebugAttach");
    ("ViewMsg_DebugDetach", "OnDebugDetach");
    ("ViewMsg_ReservePageIDRange", "OnReservePageIDRange");
    ("ViewMsg_UploadFile", "OnUploadFileRequest");
    ("ViewMsg_FormFill", "OnFormFill");
    ("ViewMsg_FillPasswordForm", "OnFillPasswordForm");
    ("ViewMsg_DragTargetDragEnter", "OnDragTargetDragEnter");
    ("ViewMsg_DragTargetDragOver", "OnDragTargetDragOver");
    ("ViewMsg_DragTargetDragLeave", "OnDragTargetDragLeave");
    ("ViewMsg_DragTargetDrop", "OnDragTargetDrop");
    ("ViewMsg_AllowBindings", "OnAllowBindings");
    ("ViewMsg_SetDOMUIProperty", "OnSetDOMUIProperty");
    ("ViewMsg_DragSourceEndedOrMoved", "OnDragSourceEndedOrMoved");
    ("ViewMsg_DragSourceSystemDragEnded", "OnDragSourceSystemDragEnded");
    ("ViewMsg_SetInitialFocus", "OnSetInitialFocus");
    ("ViewMsg_FindReplyACK", "OnFindReplyAck");
    ("ViewMsg_UpdateTargetURL_ACK", "OnUpdateTargetURLAck");
    ("ViewMsg_UpdateWebPreferences", "OnUpdateWebPreferences");
    ("ViewMsg_SetAltErrorPageURL", "OnSetAltErrorPageURL");
    ("ViewMsg_InstallMissingPlugin", "OnInstallMissingPlugin");
    ("ViewMsg_RunFileChooserResponse", "OnFileChooserResponse");
    ("ViewMsg_EnableViewSourceMode", "OnEnableViewSourceMode");
    ("ViewMsg_UpdateBackForwardListCount", "OnUpdateBackForwardListCount");
    ("ViewMsg_GetAllSavableResourceLinksForCurrentPage",
     "OnGetAllSavableResourceLinksForCurrentPage");
    ("ViewMsg_GetSerializedHtmlDataForCurrentPageWithLocalLinks",
     "OnGetSerializedHtmlDataForCurrentPageWithLocalLinks");
    ("ViewMsg_GetApplicationInfo", "OnGetApplicationInfo");
    ("ViewMsg_GetAccessibilityInfo", "OnGetAccessibilityInfo");
    ("ViewMsg_ClearAccessibilityInfo", "OnClearAccessibilityInfo");
    ("ViewMsg_ShouldClose", "OnMsgShouldClose");
    ("ViewMsg_ClosePage", "OnClosePage");
    ("ViewMsg_ThemeChanged", "OnThemeChanged");
    ("ViewMsg_HandleMessageFromExternalHost", "OnMessageFromExternalHost");
    ("ViewMsg_DisassociateFromPopupCount", "OnDisassociateFromPopupCount");
    ("ViewMsg_AutofillSuggestions", "OnReceivedAutofillSuggestions");
    ("ViewMsg_PopupNotificationVisiblityChanged",
     "OnPopupNotificationVisiblityChanged");
    ("ViewMsg_MoveOrResizeStarted", "OnMoveOrResizeStarted");
    ("ViewMsg_ExtensionResponse", "OnExtensionResponse");
    ("ViewMsg_ClearFocusedNode", "OnClearFocusedNode");
    ("ViewMsg_SetBackground", "OnSetBackground")
  ].

(** Where a received message ends up. *)
Inductive Dispatch : Type :=
  | devtools_client_OnMessageReceived
  | devtools_agent_OnMessageReceived
  | IPC_MESSAGE_HANDLER (member_func : string) (message : IPC_Message)
  | RenderWidget_OnMessageReceived (message : IPC_Message).

(** Modelled from the spec: the IPC message-map macros of
    ipc/ipc_message_macros.h are not among the sources; the dispatch macro
    expands into a linear dispatch table, tried entry by entry in the order
    written, with the IPC_MESSAGE_UNHANDLED code run when no entry
    matches. *)
Fixpoint IPC_MESSAGE_MAP (entries : list (string * string))
    (message : IPC_Message) : Dispatch :=
  match entries with
  | [] => RenderWidget_OnMessageReceived message
  | (msg_class, member_func) :: rest =>
      if String.eqb (type message) msg_class
      then IPC_MESSAGE_HANDLER member_func message
      else IPC_MESSAGE_MAP rest message
  end.

(** [RenderView::OnMessageReceived].  [devtools_client_] and
    [devtools_agent_] are the two scoped pointers, each with the answer of
    its own [OnMessageReceived]; the URL setter used for crash logging has
    no part in the dispatch. *)
Definition OnMessageReceived
    (devtools_client_ devtools_agent_ : option (IPC_Message -> bool))
    (message : IPC_Message) : Dispatch :=
  if from_option (fun client => client message) false devtools_client_
  then devtools_client_OnMessageReceived
  else if from_option (fun agent => agent message) false devtools_agent_
  then devtools_agent_OnMessageReceived
  else IPC_MESSAGE_MAP message_map message.

(* ------------------------------------------------------------------ *)
(** ** drag_delegate.cc *)

Module TestDragDelegate.

Definition HWND : Type := Z.

Record CPoint : Type := SetPoint { x : Z; y : Z }.

(** The two Win32 calls the delegate makes: [GetCursorPos] ([None] when
    it fails) and [ScreenToClient] (the point it leaves in its
    argument). *)
Record Win32 : Type := {
  GetCursorPos : option CPoint;
  ScreenToClient : HWND -> CPoint -> CPoint
}.

(** Calls made on [webview_]. *)
Inductive WebViewCall : Type :=
  | DragSourceEndedAt (client_x client_y screen_x screen_y : Z)
  | DragSourceMovedTo (client_x client_y screen_x screen_y : Z).

Record t : Type := {
  source_hwnd_ : HWND
}.

(** [GetCursorPositions(hwnd, &client, &screen)]: the pair
    [(client, screen)]. *)
Definition GetCursorPositions (os : Win32) (hwnd : HWND) : CPoint * CPoint :=
  let screen :=
    match GetCursorPos os with
    | Some p => p
    | None => SetPoint 0 0
    end in
  let client := ScreenToClient os hwnd screen in
  (client, screen).

Definition OnDragSourceDrop (os : Win32) (d : t) : list WebViewCall :=
  let '(client, screen) := GetCursorPositions os (source_hwnd_ d) in
  [DragSourceEndedAt (x client) (y client) (x screen) (y screen)].

Definition OnDragSourceCancel (os : Win32) (d : t) : list WebViewCall :=
  OnDragSourceDrop os d.

Definition OnDragSourceMove (os : Win32) (d : t) : list WebViewCall :=
  let '(client, screen) := GetCursorPositions os (source_hwnd_ d) in
  [DragSourceMovedTo (x client) (y client) (x screen) (y screen)].

(** The delegate as the specification describes it: a forwarder of the
    OS cursor position with two behaviours. *)
Inductive Behaviour : Type := DropOrCancel | Move.

Definition cursor_position_forwarder (b : Behaviour) (os : Win32) (d : t)
    : list WebViewCall :=
  let screen := default (SetPoint 0 0) (GetCursorPos os) in
  let client := ScreenToClient os (source_hwnd_ d) screen in
  match b with
  | DropOrCancel =>
      [DragSourceEndedAt (x client) (y client) (x screen) (y screen)]
  | Move =>
      [DragSourceMovedTo (x client) (y client) (x screen) (y screen)]
  end.

End TestDragDelegate.

(* ------------------------------------------------------------------ *)
(** ** test_shell_main.cc *)

Module TestShellMain.

Record CommandLine : Type := {
  switches : gmap string string;
  loose_values : list string
}.

Definition HasSwitch (cl : CommandLine) (switch : string) : bool :=
  bool_decide (is_Some (switches cl !! switch)).

Definition GetSwitchValue (cl : CommandLine) (switch : string) : string :=
  default "" (switches cl !! switch).

(** The [net::HttpCache::Mode] values that [main] names. *)
Inductive HttpCache_Mode : Type := NORMAL | RECORD | PLAYBACK.

(** What the start of [main] settles before the shell window exists. *)
Record Startup : Type := {
  suppress_error_dialogs : bool;
  layout_test_mode : bool;
  cache_mode : HttpCache_Mode;
  enable_file_scheme_cookies : bool;
  cache_path : string;
  interactive : bool
}.

Section Main.
(** Switch names of test_shell_switches.h, which is not among the
    sources. *)
Variables kNoErrorDialogs kLayoutTests kPlaybackMode kRecordMode
          kEnableFileCookies kCacheDir : string.
(** [file_util::AppendToPath], as the path it leaves in its first
    argument. *)
Variable AppendToPath : string -> string -> string.

(** [main], from the parsed command line to the creation of the request
    context.  [chrome_headless] tells whether CHROME_HEADLESS is set and
    [dir_exe] is [base::DIR_EXE]. *)
Definition main (parsed_command_line : CommandLine) (chrome_headless : bool)
    (dir_exe : string) : Startup :=
  let suppress_error_dialogs :=
    chrome_headless
    || HasSwitch parsed_command_line kNoErrorDialogs
    || HasSwitch parsed_command_line kLayoutTests in
  let layout_test_mode := HasSwitch parsed_command_line kLayoutTests in
  let cache_mode := NORMAL in
  let playback_mode := HasSwitch parsed_command_line kPlaybackMode in
  let record_mode := HasSwitch parsed_command_line kRecordMode in
  let cache_mode :=
    if playback_mode then PLAYBACK
    else if record_mode then RECORD
    else cache_mode in
  let enable_file_scheme :=
    layout_test_mode
    || HasSwitch parsed_command_line kEnableFileCookies in
  let cache_path := GetSwitchValue parsed_command_line kCacheDir in
  let cache_path :=
    if String.eqb cache_path ""
    then AppendToPath dir_exe "cache"
    else cache_path in
  let interactive := negb layout_test_mode in
  {| suppress_error_dialogs := suppress_error_dialogs;
     layout_test_mode := layout_test_mode;
     cache_mode := cache_mode;
     enable_file_scheme_cookies := enable_file_scheme;
     cache_path := cache_path;
     interactive := interactive |}.

End Main.

End TestShellMain.

(* ================================================================== *)
(** * Further methods of RenderView

    The methods of this part read or write members that the methods above
    leave alone, and send other messages.  They run on a [View], which
    extends the state of the first part, and leave a trace of
    [Effect]s. *)

(** More names from headers outside these sources: URL parts (googleurl),
    [StringToInt] (base/string_util.h; [None] when it returns false), the
    schemes of chrome/common/url_constants.h, the test of
    chrome/common/bindings_policy.h for DOM UI bindings, and the
    enumerators this code names from WindowOpenDisposition
    (webkit/glue/window_open_disposition.h), WebNavigationType and
    default_plugin_shared.h. *)
Class Externals : Type := {
  SchemeIs : GURL -> string -> bool;
  ExtractFileName : GURL -> string;
  StringToInt : string -> option Z;
  kAboutScheme : string;
  kViewSourceScheme : string;
  kDataScheme : string;
  is_dom_ui_enabled : Z -> bool;
  CURRENT_TAB : Z;
  IGNORE_ACTION : Z;
  WebNavigationTypeOther : Z;
  MISSING_PLUGIN_AVAILABLE : Z;
  MISSING_PLUGIN_USER_STARTED_DOWNLOAD : Z
}.

(** Stand-ins to run the model: the part of a spec after its last slash,
    and decimal numerals with an optional minus sign. *)
Fixpoint after_last_slash (s : string) : string :=
  match s with
  | EmptyString => EmptyString
  | String c s' =>
      if existsb (Ascii.eqb (Ascii.ascii_of_nat 47)) (list_ascii_of_string s')
      then after_last_slash s'
      else if Ascii.eqb c (Ascii.ascii_of_nat 47) then s' else s
  end.

Fixpoint decimal_digits (acc : Z) (s : string) : option Z :=
  match s with
  | EmptyString => Some acc
  | String c s' =>
      let d := Z.of_nat (Ascii.nat_of_ascii c) - 48 in
      if (0 <=? d) && (d <=? 9) then decimal_digits (10 * acc + d) s'
      else None
  end.

Definition decimal_int (s : string) : option Z :=
  match s with
  | EmptyString => None
  | String c s' =>
      let r :=
        if Ascii.eqb c (Ascii.ascii_of_nat 45)
        then match s' with
             | EmptyString => None
             | _ => Z.opp <$> decimal_digits 0 s'
             end
        else decimal_digits 0 s in
      match r with
      | Some z =>
          if (Int32.min_value <=? z) && (z <=? Int32.max_value)
          then Some z else None
      | None => None
      end
  end.

#[local] Instance chromium_externals : Externals := {|
  SchemeIs := fun url scheme => starts_with (String.append scheme ":") url;
  ExtractFileName := after_last_slash;
  StringToInt := decimal_int;
  kAboutScheme := "about";
  kViewSourceScheme := "view-source";
  kDataScheme := "data";
  is_dom_ui_enabled := fun bindings => Z.testbit bindings 1;
  CURRENT_TAB := 1;
  IGNORE_ACTION := 9;
  WebNavigationTypeOther := 5;
  MISSING_PLUGIN_AVAILABLE := 0;
  MISSING_PLUGIN_USER_STARTED_DOWNLOAD := 1
|}.

(** [static const char* const kBackForwardNavigationScheme] *)
Definition kBackForwardNavigationScheme : string := "history".

(** [p == NULL] *)
Definition is_null {A : Type} (p : option A) : bool :=
  match p with
  | None => true
  | Some _ => false
  end.

Definition gfx_Rect : Type := (Z * Z * Z * Z)%type.

(** [frame->GetOpener()] and [frame->GetParent()]. *)
Record FrameLinks : Type := {
  GetOpener : option ptr;
  GetParent : option ptr
}.

(** [webkit_glue::WebApplicationInfo] *)
Module WebApplicationInfo.
Record IconInfo : Type := mkIcon {
  url : GURL;
  width : Z;
  height : Z;
  data : SkBitmap
}.

Record t : Type := mk {
  title : string;
  description : string;
  app_url : GURL;
  icons : list IconInfo
}.

(** The default-constructed value. *)
Definition empty : t := mk "" "" GURL_empty [].

Definition set_icons (x : list IconInfo) (a : t) : t :=
  mk (title a) (description a) (app_url a) x.
End WebApplicationInfo.

(** The messages of this part. *)
Inductive HostMsg : Type :=
  | ViewHostMsg_OpenURL (routing_id : Z) (url referrer : GURL)
      (disposition : Z)
  | ViewHostMsg_ShowView (opener_id routing_id disposition : Z)
      (initial_pos : gfx_Rect) (user_gesture : bool)
  | ViewHostMsg_MissingPluginStatus (routing_id status : Z)
  | ViewHostMsg_QueryFormFieldAutofill (routing_id : Z)
      (field_name text : string) (node_id request_id : Z)
  | ViewHostMsg_RunFileChooser (routing_id : Z) (multi_select : bool)
      (title default_filename : string)
  | ViewHostMsg_ExtensionRequest (routing_id : Z) (name args : string)
      (callback_id : Z)
  | ViewHostMsg_Find_Reply (routing_id request_id count : Z)
      (selection_rect : gfx_Rect) (active_match_ordinal : Z)
      (final_update : bool)
  | ViewHostMsg_DidStartProvisionalLoadForFrame (routing_id : Z)
      (is_main_frame : bool) (url : GURL)
  | ViewHostMsg_DidGetApplicationInfo (routing_id page_id : Z)
      (app_info : WebApplicationInfo.t).

Inductive Effect : Type :=
  (** an action of the first part *)
  | Did (a : Action)
  (** [Send(new ...)] *)
  | Post (m : HostMsg)
  (** [webview()->AutofillSuggestionsForNode(...)] *)
  | AutofillSuggestionsForNode (node_id : Z) (suggestions : list string)
      (default_suggestion_index : Z)
  (** [file_chooser_->OnFileChoose(file_names)] *)
  | OnFileChoose (chooser : ptr) (file_names : list string)
  (** [delete], also when a scoped_ptr lets go of its object *)
  | Delete (object : ptr)
  (** [ExtensionProcessBindings::ExecuteCallbackInFrame] *)
  | ExecuteCallbackInFrame (web_frame : ptr) (callback_id : Z)
      (response : string)
  (** [RenderWidget::CloseWidgetSoon], of the base class *)
  | RenderWidget_CloseWidgetSoon
  (** [first_default_plugin_->InstallMissingPlugin()] *)
  | InstallMissingPlugin (delegate : ptr)
  (** [ds->SetRequestTime(...)] on the provisional data source *)
  | SetRequestTime (request_time : Z).

(** The messages an effect trace puts on the channel, in order. *)
Fixpoint posted (tr : list Effect) : list HostMsg :=
  match tr with
  | [] => []
  | Post m :: tr' => m :: posted tr'
  | _ :: tr' => posted tr'
  end.

(** Further members of [RenderView].  [pending_extension_callbacks_] is an
    [IDMap<WebFrame>] (base/id_map.h, which is not among the sources): a
    hash map from IDs to frame pointers, where [AddWithID] stores under the
    ID, [Lookup] gives NULL for an ID that is not there and [Remove]
    erases. *)
Record Members : Type := mkMembers {
  enabled_bindings_ : Z;
  disable_popup_blocking_ : bool;
  initial_pos_ : gfx_Rect;
  form_field_autofill_request_id_ : Z;
  file_chooser_ : option ptr;
  queued_find_reply_message_ : option HostMsg;
  pending_extension_callbacks_ : gmap Z (option ptr)
}.

Definition set_enabled_bindings_ (x : Z) (m : Members) : Members :=
  mkMembers x (disable_popup_blocking_ m) (initial_pos_ m)
    (form_field_autofill_request_id_ m) (file_chooser_ m)
    (queued_find_reply_message_ m) (pending_extension_callbacks_ m).
Definition set_form_field_autofill_request_id_ (x : Z) (m : Members)
    : Members :=
  mkMembers (enabled_bindings_ m) (disable_popup_blocking_ m) (initial_pos_ m)
    x (file_chooser_ m) (queued_find_reply_message_ m)
    (pending_extension_callbacks_ m).
Definition set_file_chooser_ (x : option ptr) (m : Members) : Members :=
  mkMembers (enabled_bindings_ m) (disable_popup_blocking_ m) (initial_pos_ m)
    (form_field_autofill_request_id_ m) x (queued_find_reply_message_ m)
    (pending_extension_callbacks_ m).
Definition set_queued_find_reply_message_ (x : option HostMsg) (m : Members)
    : Members :=
  mkMembers (enabled_bindings_ m) (disable_popup_blocking_ m) (initial_pos_ m)
    (form_field_autofill_request_id_ m) (file_chooser_ m) x
    (pending_extension_callbacks_ m).
Definition set_pending_extension_callbacks_ (x : gmap Z (option ptr))
    (m : Members) : Members :=
  mkMembers (enabled_bindings_ m) (disable_popup_blocking_ m) (initial_pos_ m)
    (form_field_autofill_request_id_ m) (file_chooser_ m)
    (queued_find_reply_message_ m) x.

(** What the constructor gives these members. *)
Definition Members_new : Members := {|
  enabled_bindings_ := 0;
  disable_popup_blocking_ := false;
  initial_pos_ := (0, 0, 0, 0);
  form_field_autofill_request_id_ := 0;
  file_chooser_ := None;
  queued_find_reply_message_ := None;
  pending_extension_callbacks_ := ∅
|}.

(** A view with all its modelled members, and the function-local static
    [message_id_counter] of [QueryFormFieldAutofill]. *)
Record View : Type := mkView {
  core : State;
  members : Members;
  message_id_counter : Z
}.

Definition V (A : Type) : Type := View -> option (A * View * list Effect).

#[local] Instance V_ret : MRet V :=
  fun A (a : A) w => Some (a, w, []).

#[local] Instance V_bind : MBind V :=
  fun A B (k : A -> V B) (m : V A) w =>
    match m w with
    | None => None
    | Some (a, w1, t1) =>
        match k a w1 with
        | None => None
        | Some (b, w2, t2) => Some (b, w2, t1 ++ t2)
        end
    end.

(** A method of the first part, run on the view. *)
Definition lift {A : Type} (m : M A) : V A :=
  fun w =>
    match m (core w) with
    | None => None
    | Some (a, s, tr) =>
        Some (a, mkView s (members w) (message_id_counter w), map Did tr)
    end.

Definition get_members : V Members := fun w => Some (members w, w, []).

Definition modify_members (f : Members -> Members) : V unit :=
  fun w => Some (tt, mkView (core w) (f (members w)) (message_id_counter w), []).

Definition perform (e : Effect) : V unit := fun w => Some (tt, w, [e]).

Definition post (m : HostMsg) : V unit := perform (Post m).

Section FurtherMethods.
Context `{Declarations} `{Externals}.

(** *** Navigation policy *)

(** [RenderView::OnAllowBindings]: [enabled_bindings_ |= flags] *)
Definition OnAllowBindings (enabled_bindings_flags : Z) : V unit :=
  modify_members (fun m =>
    set_enabled_bindings_ (Z.lor (enabled_bindings_ m) enabled_bindings_flags)
      m).

(** [RenderView::OpenURL] *)
Definition OpenURL (webview : WebView.t) (url referrer : GURL)
    (disposition : Z) : V unit :=
  v ← lift get_this;
  post (ViewHostMsg_OpenURL (routing_id_ v) url referrer disposition).

(** [RenderView::DispositionForNavigationAction].  [early] is the outcome
    of the first block: the value it returns, if it returns. *)
Definition DispositionForNavigationAction (webview : WebView.t)
    (frame : WebFrame.t) (links : FrameLinks) (request : WebRequest.t)
    (type disposition : Z) (is_redirect : bool) : V Z :=
  let url := WebRequest.GetURL request in
  m ← get_members;
  early ←
    (if (disposition =? CURRENT_TAB) && negb (SchemeIs url kAboutScheme) then
       if same_frame (Some frame) (WebView.GetMainFrame webview)
          && is_null (WebRequest.GetExtraData request)
       then
         if is_dom_ui_enabled (enabled_bindings_ m)
            || WebFrame.GetInViewSourceMode frame
            || SchemeIs url kViewSourceScheme
         then
           OpenURL webview url GURL_empty disposition;;
           mret (Some IGNORE_ACTION)
         else if SchemeIs url kBackForwardNavigationScheme then
           match StringToInt (ExtractFileName url) with
           | Some offset =>
               lift (GoToEntryAtOffset offset);;
               mret (Some IGNORE_ACTION)
           | None => mret None
           end
         else mret None
       else mret None
     else mret None);
  match early with
  | Some result => mret result
  | None =>
      back_list_count ← lift GetHistoryBackListCount;
      forward_list_count ← lift GetHistoryForwardListCount;
      let is_fork :=
        String.eqb (WebFrame.GetURL frame) "about:blank"
        && (back_list_count <? 1)
        && (forward_list_count <? 1)
        && is_null (GetOpener links)
        && is_null (GetParent links)
        && is_null (WebRequest.GetExtraData request)
        && (disposition =? CURRENT_TAB)
        && (type =? WebNavigationTypeOther) in
      if is_fork then
        OpenURL webview url GURL_empty disposition;;
        mret IGNORE_ACTION
      else mret disposition
  end.

(** *** Provisional loads and client redirects *)

(** [RenderView::DidStartProvisionalLoadForFrame]; [provisional] is
    [frame->GetProvisionalDataSource()]. *)
Definition DidStartProvisionalLoadForFrame (webview : WebView.t)
    (frame : WebFrame.t) (provisional : option WebDataSource.t)
    (gesture : NavigationGesture) : V unit :=
  (if same_frame (WebView.GetMainFrame webview) (Some frame) then
     lift (modify_this (set_navigation_gesture_ gesture));;
     lift (modify_this (set_completed_client_redirect_src_ GURL_empty))
   else mret tt);;
  match provisional with
  | Some ds =>
      extra_data ← lift (load_extra_data
                           (WebRequest.GetExtraData
                              (WebDataSource.GetRequest ds)));
      match extra_data with
      | Some (_, e) => perform (SetRequestTime (ExtraData.request_time e))
      | None => mret tt
      end
  | None => mret tt
  end;;
  v ← lift get_this;
  ds ← lift (deref provisional);
  post (ViewHostMsg_DidStartProvisionalLoadForFrame (routing_id_ v)
          (same_frame (WebView.GetMainFrame webview) (Some frame))
          (WebRequest.GetURL (WebDataSource.GetRequest ds))).


(** *** Showing and closing *)

(** [RenderView::WasOpenedByUserGestureHelper] *)
Definition WasOpenedByUserGestureHelper : V bool :=
  m ← get_members;
  if disable_popup_blocking_ m then mret true
  else
    v ← lift get_this;
    mret (opened_by_user_gesture_ v).

(** [RenderView::Show] (its DCHECKs are debug-only). *)
Definition Show (disposition : Z) : V unit :=
  v ← lift get_this;
  if did_show_ v then mret tt
  else
    lift (modify_this (set_did_show_ true));;
    m ← get_members;
    user_gesture ← WasOpenedByUserGestureHelper;
    post (ViewHostMsg_ShowView (opener_id_ v) (routing_id_ v) disposition
            (initial_pos_ m) user_gesture).

(** [RenderView::OnPopupNotificationVisiblityChanged] *)
Definition OnPopupNotificationVisiblityChanged (visible : bool) : V unit :=
  lift (modify_this (set_popup_notification_visible_ visible)).

(** [RenderView::CloseWidgetSoon] *)
Definition CloseWidgetSoon : V unit :=
  v ← lift get_this;
  if negb (popup_notification_visible_ v)
  then perform RenderWidget_CloseWidgetSoon
  else mret tt.

(** *** Missing plugins (the Windows build) *)

(** [RenderView::OnMissingPluginStatus] *)
Definition OnMissingPluginStatus (delegate : option ptr) (status : Z)
    : V unit :=
  v ← lift get_this;
  if is_null (first_default_plugin_ v) then
    if status =? MISSING_PLUGIN_AVAILABLE then
      lift (modify_this (set_first_default_plugin_ delegate));;
      post (ViewHostMsg_MissingPluginStatus (routing_id_ v) status)
    else mret tt
  else
    if status =? MISSING_PLUGIN_USER_STARTED_DOWNLOAD then
      post (ViewHostMsg_MissingPluginStatus (routing_id_ v) status)
    else mret tt.

(** [RenderView::OnInstallMissingPlugin] *)
Definition OnInstallMissingPlugin : V unit :=
  v ← lift get_this;
  match first_default_plugin_ v with
  | None => mret tt
  | Some delegate => perform (InstallMissingPlugin delegate)
  end.

(** *** Form autofill *)

(** [RenderView::QueryFormFieldAutofill]:
    [form_field_autofill_request_id_ = message_id_counter++;] *)
Definition QueryFormFieldAutofill (field_name text : string) (node_id : Z)
    : V unit :=
  (fun w =>
     Some (tt,
           mkView (core w)
             (set_form_field_autofill_request_id_ (message_id_counter w)
                (members w))
             (Int32.add (message_id_counter w) 1),
           []));;
  v ← lift get_this;
  m ← get_members;
  post (ViewHostMsg_QueryFormFieldAutofill (routing_id_ v) field_name text
          node_id (form_field_autofill_request_id_ m)).

(** [RenderView::OnReceivedAutofillSuggestions]; [webview] is what
    [webview()] returns. *)
Definition OnReceivedAutofillSuggestions (webview : option WebView.t)
    (node_id request_id : Z) (suggestions : list string)
    (default_suggestion_index : Z) : V unit :=
  m ← get_members;
  if is_null webview
     || negb (request_id =? form_field_autofill_request_id_ m)
  then mret tt
  else perform (AutofillSuggestionsForNode node_id suggestions
                  default_suggestion_index).

(** *** File chooser *)

(** [RenderView::RunFileChooser]; [file_chooser] is the callback object the
    caller hands over. *)
Definition RunFileChooser (multi_select : bool)
    (title default_filename : string) (file_chooser : ptr) : V unit :=
  m ← get_members;
  if negb (is_null (file_chooser_ m)) then perform (Delete file_chooser)
  else
    modify_members (set_file_chooser_ (Some file_chooser));;
    v ← lift get_this;
    post (ViewHostMsg_RunFileChooser (routing_id_ v) multi_select title
            default_filename).

(** [RenderView::OnFileChooserResponse] *)
Definition OnFileChooserResponse (file_names : list string) : V unit :=
  m ← get_members;
  match file_chooser_ m with
  | None => mret tt
  | Some chooser =>
      perform (OnFileChoose chooser file_names);;
      perform (Delete chooser);;
      modify_members (set_file_chooser_ None)
  end.

(** *** Extension requests *)

(** [RenderView::SendExtensionRequest] (the DCHECK is debug-only). *)
Definition SendExtensionRequest (name args : string) (callback_id : Z)
    (callback_frame : option ptr) : V unit :=
  (if negb (callback_id =? -1) then
     modify_members (fun m =>
       set_pending_extension_callbacks_
         (<[callback_id := callback_frame]> (pending_extension_callbacks_ m))
         m)
   else mret tt);;
  v ← lift get_this;
  post (ViewHostMsg_ExtensionRequest (routing_id_ v) name args callback_id).

(** [pending_extension_callbacks_.Lookup(id)] *)
Definition Lookup (callbacks : gmap Z (option ptr)) (id : Z) : option ptr :=
  default None (callbacks !! id).

(** [RenderView::OnExtensionResponse] *)
Definition OnExtensionResponse (callback_id : Z) (response : string)
    : V unit :=
  m ← get_members;
  match Lookup (pending_extension_callbacks_ m) callback_id with
  | None => mret tt
  | Some web_frame =>
      perform (ExecuteCallbackInFrame web_frame callback_id response);;
      modify_members (fun m =>
        set_pending_extension_callbacks_
          (delete callback_id (pending_extension_callbacks_ m)) m)
  end.

(** [RenderView::WillCloseFrame]; the first loop collects the IDs in the
    order the map hands them out, the second removes them. *)
Definition WillCloseFrame (frame : option ptr) : V unit :=
  m ← get_members;
  if bool_decide (pending_extension_callbacks_ m = ∅) then mret tt
  else
    let orphaned_callbacks :=
      (map_to_list (pending_extension_callbacks_ m))
        ≫= (fun entry =>
              if bool_decide (snd entry = frame) then [fst entry] else []) in
    modify_members (fun m =>
      set_pending_extension_callbacks_
        (foldl (fun callbacks id => delete id callbacks)
           (pending_extension_callbacks_ m) orphaned_callbacks) m).

(** *** Find in page *)

(** [RenderView::ReportFindInPageMatchCount] *)
Definition ReportFindInPageMatchCount (count request_id : Z)
    (final_update : bool) : V unit :=
  m ← get_members;
  v ← lift get_this;
  let msg :=
    ViewHostMsg_Find_Reply (routing_id_ v) request_id count (0, 0, 0, 0) (-1)
      final_update in
  if negb (is_null (queued_find_reply_message_ m))
  then modify_members (set_queued_find_reply_message_ (Some msg))
  else post msg.

(** [RenderView::OnFindReplyAck] *)
Definition OnFindReplyAck : V unit :=
  m ← get_members;
  match queued_find_reply_message_ m with
  | Some msg =>
      post msg;;
      modify_members (set_queued_find_reply_message_ None)
  | None => mret tt
  end.

(** *** Application info *)

(** The pruning loop of [OnGetApplicationInfo], with the index [i] and the
    vector as they stand at the loop test; [n] bounds the iterations that
    are left (each one shortens the vector or moves the index). *)
Fixpoint prune_data_urls (n : nat) (i : nat)
    (icons : list WebApplicationInfo.IconInfo)
    : list WebApplicationInfo.IconInfo :=
  match n with
  | O => icons
  | S n' =>
      match icons !! i with
      | None => icons
      | Some icon =>
          if SchemeIs (WebApplicationInfo.url icon) kDataScheme
          then prune_data_urls n' i (delete i icons)
          else prune_data_urls n' (S i) icons
      end
  end.

(** [RenderView::OnGetApplicationInfo]; [page_info] is what
    [webkit_glue::GetApplicationInfo] leaves in [app_info] when it is
    called. *)
Definition OnGetApplicationInfo (page_info : WebApplicationInfo.t)
    (page_id : Z) : V unit :=
  v ← lift get_this;
  let app_info :=
    if page_id =? page_id_ v then page_info else WebApplicationInfo.empty in
  let icons := WebApplicationInfo.icons app_info in
  post (ViewHostMsg_DidGetApplicationInfo (routing_id_ v) page_id
          (WebApplicationInfo.set_icons
             (prune_data_urls (length icons) 0 icons) app_info)).

End FurtherMethods.

(* ------------------------------------------------------------------ *)
(** ** test_shell_main.cc: the layout tests named on stdin *)

Module LayoutTests.

(** [strchr] and [strrchr] of the C library: the part of the string that
  starts at the first or last occurrence of [c]; [None] is NULL. *)
Fixpoint strchr (s : string) (c : Ascii.ascii) : option string :=
match s with
| EmptyString => None
| String a s' => if Ascii.eqb a c then Some s else strchr s' c
end.

Fixpoint strrchr (s : string) (c : Ascii.ascii) : option string :=
match s with
| EmptyString => None
| String a s' =>
    match strrchr s' c with
    | Some r => Some r
    | None => if Ascii.eqb a c then Some s else None
    end
end.

(** The C string in a buffer after [*p = 0] for [p] pointing into it,
  [tail] being the string at [p]. *)
Fixpoint cut_at (buffer : string) (tail : string) : string :=
match buffer with
| EmptyString => EmptyString
| String a s' =>
    if (String.length buffer =? String.length tail)%nat then EmptyString
    else String a (cut_at s' tail)
end.

Definition slash : Ascii.ascii := Ascii.ascii_of_nat 47.
Definition newline : Ascii.ascii := Ascii.ascii_of_nat 10.

(** What [SetCurrentTestName] points [lastSlash] at. *)
Definition test_name_of (path : string) : string :=
match strrchr path slash with
| Some (String _ after) => after
| Some EmptyString => EmptyString
| None => path
end.

Section Main.
(** [UTF8ToWide] of base/string_util.h, and [MAX_PATH] of the Windows
  headers: the number of elements of [g_currentTestName]. *)
Variable UTF8ToWide : string -> string.
Variable MAX_PATH : nat.

(** [wcscpy_s(dest, numberOfElements, src)] of the C runtime, which is not
  among the sources: the new content of [dest], or [None] when [src] and
  its terminator do not fit.  The runtime then calls the
  invalid-parameter handler, which ends the process unless another
  handler has been installed; none is installed in this file. *)
Definition wcscpy_s (numberOfElements : nat) (src : string)
  : option string :=
if (String.length src <? numberOfElements)%nat then Some src else None.

(** [SetCurrentTestName]: the new content of [g_currentTestName], or
  [None] when the store fails. *)
Definition SetCurrentTestName (path : string) : option string :=
wcscpy_s MAX_PATH (UTF8ToWide (test_name_of path)).

(** What the loop over stdin calls. *)
Inductive Call : Type :=
| Call_SetCurrentTestName (g_currentTestName : string)
| Call_RunFileTest (filename : string).

(** How the loop is left: by its test or its [break], or because the
  store of a test name has failed. *)
Inductive Outcome : Type :=
| EndOfLoop
| InvalidParameter.

(** The loop [while (fgets(filenameBuffer, ...))] of [main]: the completed
  calls and how the loop is left.  Each element of [input] is what one
  [fgets] leaves in the buffer, with what [TestShell::RunFileTest]
  returns should the loop run that line; the end of the list is the end
  of stdin. *)
Fixpoint watch_stdin (input : list (string * bool)) : list Call * Outcome :=
match input with
| [] => ([], EndOfLoop)
| (filenameBuffer, test_ok) :: rest =>
    let filenameBuffer :=
      match strchr filenameBuffer newline with
      | Some newLine => cut_at filenameBuffer newLine
      | None => filenameBuffer
      end in
    match filenameBuffer with
    | EmptyString => watch_stdin rest
    | _ =>
        match SetCurrentTestName filenameBuffer with
        | None => ([], InvalidParameter)
        | Some name =>
            let later :=
              if test_ok then watch_stdin rest else ([], EndOfLoop) in
            (Call_SetCurrentTestName name
               :: Call_RunFileTest filenameBuffer :: fst later,
             snd later)
        end
    end
end.

(** The name of a named test can be stored in [g_currentTestName]. *)
Definition name_fits (t : string * bool) : bool :=
(String.length (UTF8ToWide (test_name_of (fst t))) <? MAX_PATH)%nat.

End Main.

(** The part of a line before its first newline. *)
Fixpoint before_newline (s : string) : string :=
match s with
| EmptyString => EmptyString
| String a s' =>
    if Ascii.eqb a newline then EmptyString
    else String a (before_newline s')
end.

(** The tests a run of the loop is asked for: the lines of the input that
  name a file, without their newline. *)
Definition tests_named (input : list (string * bool)) : list (string * bool) :=
List.filter (fun t => negb (String.eqb (fst t) ""))
  (map (fun l => (before_newline (fst l), snd l)) input).

(** The files [RunFileTest] was called for. *)
Definition tests_run (calls : list Call) : list string :=
calls ≫= (fun c =>
            match c with
            | Call_RunFileTest filename => [filename]
            | Call_SetCurrentTestName _ => []
            end).

End LayoutTests.

(* ------------------------------------------------------------------ *)
(** ** Vocabulary of the properties *)

Section Vocabulary.
Context `{Declarations}.

(** A request's extra-data pointer is null or points to a live object. *)
Definition extra_data_ok (pr : Renderer) (ds : WebDataSource.t) : Prop :=
  match WebRequest.GetExtraData (WebDataSource.GetRequest ds) with
  | None => True
  | Some a => is_Some (request_extra_data pr !! a)
  end.





(** A step that leaves [page_id_] and [next_page_id_] alone and frees no
    request extra data. *)
Definition keeps_ids (s s' : State) : Prop :=
  page_id_ (this s') = page_id_ (this s)
  /\ next_page_id_ (process s') = next_page_id_ (process s)
  /\ dom (request_extra_data (process s))
       ⊆ dom (request_extra_data (process s')).

(** Methods all of whose completed calls are such steps. *)
Definition Keeps {A : Type} (m : M A) : Prop :=
  forall s a s' tr, m s = Some (a, s', tr) -> keeps_ids s s'.

(** Successive calls of [UpdateTargetURL], one per URL the pointer moves
    over. *)
Fixpoint UpdateTargetURL_each (webview : WebView.t) (urls : list GURL)
    : M unit :=
  match urls with
  | [] => mret tt
  | url :: rest =>
      UpdateTargetURL webview url;; UpdateTargetURL_each webview rest
  end.

(** The last of [urls] that differs from the URL already sent, if any. *)
Fixpoint latest_change (target : GURL) (urls : list GURL) : option GURL :=
  match urls with
  | [] => None
  | url :: rest =>
      match latest_change target rest with
      | Some u => Some u
      | None => if String.eqb url target then None else Some url
      end
  end.

(** A PageContents message, whatever it carries. *)
Definition is_PageContents (m : ViewHostMsg) : bool :=
  match m with
  | ViewHostMsg_PageContents _ _ _ => true
  | _ => false
  end.

End Vocabulary.

(* ------------------------------------------------------------------ *)
(** ** Vocabulary of the further properties *)

(** [c] is one of the characters of [set]. *)
Definition in_set (set : string) (c : Ascii.ascii) : bool :=
  existsb (Ascii.eqb c) (list_ascii_of_string set).

(** No character of [s] is in [set]. *)
Fixpoint none_in_set (set s : string) : bool :=
  match s with
  | EmptyString => true
  | String c s' => negb (in_set set c) && none_in_set set s'
  end.

(** [n] copies of the character [c]. *)
Fixpoint string_of_copies (n : nat) (c : Ascii.ascii) : string :=
  match n with
  | O => EmptyString
  | S n' => String c (string_of_copies n' c)
  end.

Section FurtherVocabulary.
Context `{Declarations}.

(** The two loading callbacks of the WebView delegate. *)
Inductive LoadingCallback : Type :=
  | Started
  | Stopped (fill_ok : bool).

Definition loading_callback (webview : WebView.t) (cb : LoadingCallback)
    : M unit :=
  match cb with
  | Started => DidStartLoading webview
  | Stopped fill_ok => DidStopLoading webview fill_ok
  end.

Fixpoint loading_callbacks (webview : WebView.t) (cbs : list LoadingCallback)
    : M unit :=
  match cbs with
  | [] => mret tt
  | cb :: rest => loading_callback webview cb;; loading_callbacks webview rest
  end.

(** The DidStartLoading ([true]) and DidStopLoading ([false]) messages of a
    trace, in order. *)
Fixpoint loading_messages (tr : list Action) : list bool :=
  match tr with
  | [] => []
  | Send (ViewHostMsg_DidStartLoading _ _) :: tr' =>
      true :: loading_messages tr'
  | Send (ViewHostMsg_DidStopLoading _ _) :: tr' =>
      false :: loading_messages tr'
  | _ :: tr' => loading_messages tr'
  end.

(** Start and stop messages take turns, beginning with a start message
    when [expect_start] holds and with a stop message otherwise. *)
Fixpoint alternates (expect_start : bool) (msgs : list bool) : bool :=
  match msgs with
  | [] => true
  | m :: rest => Bool.eqb m expect_start && alternates (negb expect_start) rest
  end.

(** Successive [CreateWebView] calls of one view, each with the gesture
    flag and the routing ID the browser answers with. *)
Fixpoint CreateWebView_each (webview : WebView.t) (requests : list (bool * Z))
    : M (list (option RenderView)) :=
  match requests with
  | [] => mret []
  | (user_gesture, reply_routing_id) :: rest =>
      view ← CreateWebView webview user_gesture reply_routing_id;
      views ← CreateWebView_each webview rest;
      mret (view :: views)
  end.

(** The views among the results of [CreateWebView_each]. *)
Definition created (views : list (option RenderView)) : list RenderView :=
  omap id views.

End FurtherVocabulary.

Section ViewVocabulary.
Context `{Declarations} `{Externals}.

(** Successive [Show] calls on one view. *)
Fixpoint Show_each (dispositions : list Z) : V unit :=
  match dispositions with
  | [] => mret tt
  | disposition :: rest => Show disposition;; Show_each rest
  end.

(** What the browser and the plugins can ask of the view about missing
    plugins while one page is loaded. *)
Inductive PluginEvent : Type :=
  | PluginStatus (delegate : ptr) (status : Z)
  | InstallRequest.

Definition plugin_event (e : PluginEvent) : V unit :=
  match e with
  | PluginStatus delegate status =>
      OnMissingPluginStatus (Some delegate) status
  | InstallRequest => OnInstallMissingPlugin
  end.

Fixpoint plugin_events (es : list PluginEvent) : V unit :=
  match es with
  | [] => mret tt
  | e :: rest => plugin_event e;; plugin_events rest
  end.

(** The delegate of the first plugin among [es] that reports itself
    available. *)
Fixpoint first_available (es : list PluginEvent) : option ptr :=
  match es with
  | [] => None
  | PluginStatus delegate status :: rest =>
      if status =? MISSING_PLUGIN_AVAILABLE then Some delegate
      else first_available rest
  | InstallRequest :: rest => first_available rest
  end.

(** The statuses of the MissingPluginStatus messages of a trace and the
    delegates of its InstallMissingPlugin calls. *)
Definition statuses (tr : list Effect) : list Z :=
  tr ≫= (fun e =>
           match e with
           | Post (ViewHostMsg_MissingPluginStatus _ status) => [status]
           | _ => []
           end).

Definition installs (tr : list Effect) : list ptr :=
  tr ≫= (fun e =>
           match e with
           | InstallMissingPlugin delegate => [delegate]
           | _ => []
           end).

(** Find-in-page traffic: match counts the engine reports and ACKs of the
    browser. *)
Inductive FindEvent : Type :=
  | MatchCount (count request_id : Z) (final_update : bool)
  | ReplyAck.

Definition find_event (e : FindEvent) : V unit :=
  match e with
  | MatchCount count request_id final_update =>
      ReportFindInPageMatchCount count request_id final_update
  | ReplyAck => OnFindReplyAck
  end.

Fixpoint find_events (es : list FindEvent) : V unit :=
  match es with
  | [] => mret tt
  | e :: rest => find_event e;; find_events rest
  end.

(** The replies the reported match counts call for, in order. *)
Definition replies (routing_id : Z) (es : list FindEvent) : list HostMsg :=
  es ≫= (fun e =>
           match e with
           | MatchCount count request_id final_update =>
               [ViewHostMsg_Find_Reply routing_id request_id count
                  (0, 0, 0, 0) (-1) final_update]
           | ReplyAck => []
           end).

(** An icon whose URL is not a data URL. *)
Definition not_data_url (icon : WebApplicationInfo.IconInfo) : bool :=
  negb (SchemeIs (WebApplicationInfo.url icon) kDataScheme).

End ViewVocabulary.


(* ------------------------------------------------------------------ *)
(** ** Sample inputs

    A plain http page with one frame, shown in a freshly initialised view
    with routing id 7, under [chromium_declarations]. *)

Definition sample_request : WebRequest.t :=
  WebRequest.mk "http://a.test/" None "" "GET" "".

Definition sample_response : WebResponse.t :=
  WebResponse.mk 200 false "" "text/html".

Definition sample_data_source : WebDataSource.t :=
  WebDataSource.mk sample_request sample_request sample_response
    false "" [] None None false.

Definition sample_frame : WebFrame.t :=
  WebFrame.mk 1%nat "http://a.test/" (Some sample_data_source) false
    (fun _ => "hello world") "" "" None None.

Definition sample_subframe : WebFrame.t :=
  WebFrame.mk 2%nat "http://a.test/inner" (Some sample_data_source) false
    (fun _ => "inner") "" "" None None.

Definition sample_webview : WebView.t :=
  WebView.mk (Some sample_frame) "UTF-8" "".

Definition sample_view : RenderView :=
  set_routing_id_ 7 (set_size_ (800, 600) RenderView_new).

Definition sample_process : Renderer :=
  mkRenderer 1 {[ 0%nat := 0 ]} ∅.

Definition sample_state : State := mkState sample_process sample_view.


(** The sample view after two committed navigations, the second one not
    yet reported to the browser. *)
Definition navigated_state : State :=
  mkState sample_process
    (set_page_id_ 5 (set_last_page_id_sent_to_browser_ 3 sample_view)).

Definition loading_state : State :=
  mkState sample_process (set_is_loading_ true sample_view).

(** The sample view when 26 views share its popup counter. *)
Definition crowded_state : State :=
  mkState (mkRenderer 1 {[ 0%nat := 26 ]} ∅) sample_view.

Definition secure_frame : WebFrame.t :=
  WebFrame.mk 1%nat "https://bank.test/" (Some sample_data_source) false
    (fun _ => "account 12345") "" "" None (Some "pixels").

Definition secure_webview : WebView.t :=
  WebView.mk (Some secure_frame) "UTF-8" "".

Definition sample_message : IPC_Message :=
  {| type := "ViewMsg_Stop"; payload := "" |}.

Definition sample_win32 : TestDragDelegate.Win32 :=
  {| TestDragDelegate.GetCursorPos := Some (TestDragDelegate.SetPoint 120 80);
     TestDragDelegate.ScreenToClient := fun hwnd p =>
       TestDragDelegate.SetPoint (TestDragDelegate.x p - 100)
         (TestDragDelegate.y p - 50) |}.

Definition sample_command_line : TestShellMain.CommandLine :=
  {| TestShellMain.switches :=
       {[ "playback-mode" := ""; "record-mode" := "" ]};
     TestShellMain.loose_values := [] |}.

(** A frame whose text fills the index limit: "hello", a blank and 65529
    times the letter x. *)
Definition long_text_frame : WebFrame.t :=
  WebFrame.mk 1%nat "http://a.test/long" (Some sample_data_source) false
    (fun _ =>
       String.append "hello "
         (string_of_copies (Z.to_nat 65529) (Ascii.ascii_of_nat 120)))
    "" "" None None.

(** A page reached through session history: its request carries extra
    data (at address 0) with the pending page ID 4. *)
Definition history_request : WebRequest.t :=
  WebRequest.mk "http://a.test/back" (Some 0%nat) "" "GET" "".

Definition history_data_source : WebDataSource.t :=
  WebDataSource.mk history_request history_request sample_response
    false "" [] None None false.

Definition history_frame : WebFrame.t :=
  WebFrame.mk 1%nat "http://a.test/back" (Some history_data_source) false
    (fun _ => "earlier page") "" "" (Some "state") None.

Definition history_webview : WebView.t :=
  WebView.mk (Some history_frame) "UTF-8" "".

Definition history_state : State :=
  mkState (mkRenderer 6 {[ 0%nat := 0 ]} {[ 0%nat := ExtraData.mk 1 0 false 4 ]})
    (set_page_id_ 5 (set_last_page_id_sent_to_browser_ 5 sample_view)).

(** The loading sample view with a form upload pending. *)
Definition uploading_state : State :=
  mkState sample_process
    (set_pending_upload_data_ (Some "form") (set_is_loading_ true sample_view)).

(** The sample view counted on a full popup counter. *)
Definition counted_state : State :=
  mkState (mkRenderer 1 {[ 0%nat := 26 ]} ∅)
    (set_decrement_shared_popup_at_destruction_ true sample_view).

(** The sample view with the further members as the constructor leaves
    them. *)
Definition sample_full_view : View := mkView sample_state Members_new 0.

(** A link to an entry two steps back in session history, as WebKit
    hands it to the view, and the frame relations of a top-level frame
    without opener. *)
Definition history_link_request : WebRequest.t :=
  WebRequest.mk "history://go/-2" None "" "GET" "".

Definition top_level_links : FrameLinks :=
  {| GetOpener := None; GetParent := None |}.

(** The sample view with callbacks pending for the frames at addresses 1
    and 2. *)
Definition extension_view : View :=
  mkView sample_state
    (set_pending_extension_callbacks_
       {[ 10 := Some 1%nat; 11 := Some 2%nat; 12 := Some 1%nat ]} Members_new)
    0.

Definition sample_app_info : WebApplicationInfo.t :=
  WebApplicationInfo.mk "App" "An application" "http://a.test/app"
    [WebApplicationInfo.mkIcon "http://a.test/icon.png" 16 16 "png";
     WebApplicationInfo.mkIcon "data:image/png;base64,AAAA" 32 32 "";
     WebApplicationInfo.mkIcon "http://a.test/big.png" 64 64 "png"].

(** Four lines on stdin: a passing test, an empty line, a failing test and
    a test that is not reached. *)
Definition line (s : string) : string :=
  String.append s (String LayoutTests.newline "").

Definition sample_stdin : list (string * bool) :=
  [(line "a.html", true); (line "", true); (line "fast/b.html", false);
   ("c.html", true)].

(** A path whose last component has 300 characters. *)
Definition long_test_path : string :=
  String.append "fast/" (string_of_copies 300 (Ascii.ascii_of_nat 120)).

(* ================================================================== *)
(** * Properties *)

(** ** Facts about 32-bit arithmetic *)

Module Int32Facts.
Import Int32.


Lemma wrap_id z : in_range z -> wrap z = z.
Proof.
  unfold in_range, wrap, min_value, max_value, modulus. intros Hz.
  rewrite Z.mod_small by lia. lia.
Qed.

Lemma wrap_congr a b : (a - b) mod modulus = 0 -> wrap a = wrap b.
Proof.
  unfold wrap, modulus, min_value. intros H.
  apply Z.mod_divide in H; [|lia]. destruct H as [k Hk].
  replace (a - - 2 ^ 31) with ((b - - 2 ^ 31) + k * 2 ^ 32) by lia.
  now rewrite Z.mod_add by lia.
Qed.

Lemma wrap_wrap_diff z : (wrap z - z) mod modulus = 0.
Proof.
  unfold wrap, modulus, min_value.
  rewrite (Z.mod_eq (z - - 2 ^ 31) (2 ^ 32)) by lia.
  replace (z - - 2 ^ 31 - 2 ^ 32 * ((z - - 2 ^ 31) / 2 ^ 32) + - 2 ^ 31 - z)
    with ((- ((z - - 2 ^ 31) / 2 ^ 32)) * 2 ^ 32) by lia.
  apply Z.mod_mul. lia.
Qed.

(** Adding wrapped operands wraps to the same value as adding the
    unwrapped ones. *)
Lemma add_wrap_wrap a b : add (wrap a) (wrap b) = wrap (a + b).
Proof.
  unfold add. apply wrap_congr.
  pose proof (wrap_wrap_diff a) as Ha. pose proof (wrap_wrap_diff b) as Hb.
  apply Z.mod_divide in Ha; [|unfold modulus; lia].
  apply Z.mod_divide in Hb; [|unfold modulus; lia].
  destruct Ha as [ka Ha], Hb as [kb Hb].
  replace (wrap a + wrap b - (a + b)) with ((ka + kb) * modulus) by lia.
  apply Z.mod_mul. unfold modulus; lia.
Qed.

Lemma wrap_add_wrap_l a b : wrap (wrap a + b) = wrap (a + b).
Proof.
  apply wrap_congr. pose proof (wrap_wrap_diff a) as Ha.
  apply Z.mod_divide in Ha; [|unfold modulus; lia]. destruct Ha as [k Hk].
  replace (wrap a + b - (a + b)) with (k * modulus) by lia.
  apply Z.mod_mul. unfold modulus; lia.
Qed.

Lemma add_small a b : in_range (a + b) -> add a b = a + b.
Proof. apply wrap_id. Qed.

Lemma sub_small a b : in_range (a - b) -> sub a b = a - b.
Proof. apply wrap_id. Qed.

End Int32Facts.

(** ** Running methods *)

Ltac unfold_M :=
  unfold when, deref, crash, get_this, get_process, modify_this,
    modify_process, emit, load_extra_data, store_extra_data,
    mbind, M_bind, mret, M_ret in *.

Lemma sent_app tr1 tr2 : sent (tr1 ++ tr2) = sent tr1 ++ sent tr2.
Proof.
  induction tr1 as [|a tr1 IH]; [reflexivity|].
  destruct a; simpl; now rewrite ?IH.
Qed.

Section Properties.
Context `{Declarations}.

(** ** Session-history counters *)

(** C3. For every offset, [GoToEntryAtOffset] returns, adds the offset to
    [history_back_list_count_], subtracts it from
    [history_forward_list_count_], touches nothing else and sends one
    GoToEntryAtOffset message carrying that offset.  The sum of the two
    counters, taken in the counters' own 32-bit arithmetic, is the same
    before and after; it is the same as a plain integer too whenever
    neither update leaves the int range. *)
Theorem GoToEntryAtOffset_keeps_sum (s : State) (offset : Z) :
  let v := this s in
  let back' := Int32.add (history_back_list_count_ v) offset in
  let forward' := Int32.sub (history_forward_list_count_ v) offset in
  let v' := set_history_forward_list_count_ forward'
              (set_history_back_list_count_ back' v) in
  GoToEntryAtOffset offset s
    = Some (tt, mkState (process s) v',
            [Send (ViewHostMsg_GoToEntryAtOffset (routing_id_ v) offset)])
  /\ history_back_list_count_ v' = back'
  /\ history_forward_list_count_ v' = forward'
  /\ Int32.add (history_back_list_count_ v') (history_forward_list_count_ v')
     = Int32.add (history_back_list_count_ v) (history_forward_list_count_ v)
  /\ (Int32.in_range (history_back_list_count_ v + offset) ->
      Int32.in_range (history_forward_list_count_ v - offset) ->
      history_back_list_count_ v' + history_forward_list_count_ v'
      = history_back_list_count_ v + history_forward_list_count_ v).
Proof.
  destruct s as [pr v]. destruct v. cbn -[Int32.add Int32.sub].
  repeat split.
  - unfold Int32.sub, Int32.add at 2 3.
    rewrite Int32Facts.add_wrap_wrap. unfold Int32.add. f_equal. lia.
  - intros Hb Hf.
    rewrite Int32Facts.add_small, Int32Facts.sub_small by assumption. lia.
Qed.

(** ** Transition type of subframe navigations *)

(** C2. When the navigated frame is not the main frame (and has the data
    source the method relies on), [UpdateURL] returns and sends exactly one
    FrameNavigate message, whose transition is MANUAL_SUBFRAME if
    [page_id_ > last_page_id_sent_to_browser_] and AUTO_SUBFRAME otherwise;
    afterwards [last_page_id_sent_to_browser_] is the maximum of its old
    value and [page_id_], and [page_id_] is unchanged. *)
Theorem UpdateURL_subframe_transition (s : State) (webview : WebView.t)
    (frame : WebFrame.t) (ds : WebDataSource.t) :
  same_frame (WebView.GetMainFrame webview) (Some frame) = false ->
  WebFrame.GetDataSource frame = Some ds ->
  extra_data_ok (process s) ds ->
  let v := this s in
  exists s' params,
    UpdateURL webview frame s
      = Some (tt, s', [Send (ViewHostMsg_FrameNavigate (routing_id_ v) params)])
    /\ params_page_id params = page_id_ v
    /\ params_transition params
       = (if page_id_ v >? last_page_id_sent_to_browser_ v
          then MANUAL_SUBFRAME else AUTO_SUBFRAME)
    /\ (page_id_ v > last_page_id_sent_to_browser_ v ->
        params_transition params = MANUAL_SUBFRAME)
    /\ (page_id_ v <= last_page_id_sent_to_browser_ v ->
        params_transition params = AUTO_SUBFRAME)
    /\ (MANUAL_SUBFRAME <> AUTO_SUBFRAME ->
        (params_transition params = MANUAL_SUBFRAME
         <-> page_id_ v > last_page_id_sent_to_browser_ v))
    /\ last_page_id_sent_to_browser_ (this s')
       = Z.max (last_page_id_sent_to_browser_ v) (page_id_ v)
    /\ page_id_ (this s') = page_id_ v.
Proof.
  intros Hsub Hds Hextra v.
  unfold UpdateURL, extra_data_ok in *. unfold_M.
  rewrite Hds. cbn.
  destruct (WebRequest.GetExtraData (WebDataSource.GetRequest ds)) as [a|].
  - destruct Hextra as [e He]. cbn. rewrite He. cbn. rewrite Hsub. cbn.
    eexists _, _. split; [reflexivity|]. subst v. destruct s as [pr v].
    destruct v; cbn.
    destruct (Z.gtb_spec page_id_0 last_page_id_sent_to_browser_0);
      repeat split; intros; try lia; try congruence.
  - cbn. rewrite Hsub. cbn.
    eexists _, _. split; [reflexivity|]. subst v. destruct s as [pr v].
    destruct v; cbn.
    destruct (Z.gtb_spec page_id_0 last_page_id_sent_to_browser_0);
      repeat split; intros; try lia; try congruence.
Qed.

(** ** Loading-state callbacks *)

(** C6. [DidStartLoading] on a view that is already loading, and
    [DidStopLoading] on a view that is not loading, return with the whole
    state (view and process) as it was; the only action is the warning
    line, so nothing is sent and no task is posted. *)
Theorem loading_callbacks_log_and_continue (s : State) (webview : WebView.t)
    (fill_ok : bool) :
  (is_loading_ (this s) = true ->
   exists text,
     DidStartLoading webview s = Some (tt, s, [DLOG_WARNING text])
     /\ sent [DLOG_WARNING text] = [])
  /\ (is_loading_ (this s) = false ->
      exists text,
        DidStopLoading webview fill_ok s = Some (tt, s, [DLOG_WARNING text])
        /\ sent [DLOG_WARNING text] = []).
Proof.
  split; intros Hl.
  - unfold DidStartLoading. unfold_M. cbn. rewrite Hl. cbn.
    eexists. split; reflexivity.
  - unfold DidStopLoading. unfold_M. cbn. rewrite Hl. cbn.
    eexists. split; reflexivity.
Qed.

(** ** Popups *)

(** C10. When the shared popup counter is above
    [kMaximumNumberOfUnacknowledgedPopups] = 25, [CreateWebView] returns
    NULL with the view and the process state as they were and with no
    action at all: no ViewHostMsg_CreateWindow is sent. *)
Theorem CreateWebView_popup_limit (s : State) (webview : WebView.t)
    (user_gesture : bool) (reply_routing_id data : Z) :
  popup_counters (process s) !! shared_popup_counter_ (this s) = Some data ->
  data > 25 ->
  kMaximumNumberOfUnacknowledgedPopups = 25
  /\ CreateWebView webview user_gesture reply_routing_id s = Some (None, s, []).
Proof.
  intros Hd Hgt. split; [reflexivity|].
  unfold CreateWebView. unfold_M. cbn. rewrite Hd. cbn.
  unfold kMaximumNumberOfUnacknowledgedPopups.
  destruct (Z.gtb_spec data 25); [reflexivity|lia].
Qed.

(** ** Page IDs *)

Lemma bind_returns {A B : Type} (m : M A) (k : A -> M B) s b s2 tr :
  (m ≫= k) s = Some (b, s2, tr) <->
  exists a s1 t1 t2,
    m s = Some (a, s1, t1) /\ k a s1 = Some (b, s2, t2) /\ tr = t1 ++ t2.
Proof.
  unfold mbind, M_bind. split.
  - destruct (m s) as [[[a s1] t1]|]; [|discriminate].
    destruct (k a s1) as [[[b' s2'] t2]|] eqn:Hk; [|discriminate].
    intros [= <- <- <-]. now exists a, s1, t1, t2.
  - intros (a & s1 & t1 & t2 & -> & -> & ->). reflexivity.
Qed.

Lemma keeps_ids_refl s : keeps_ids s s.
Proof. now repeat split. Qed.

Lemma keeps_ids_trans s1 s2 s3 :
  keeps_ids s1 s2 -> keeps_ids s2 s3 -> keeps_ids s1 s3.
Proof.
  unfold keeps_ids. intros (?&?&?) (?&?&?).
  repeat split; [congruence|congruence|set_solver].
Qed.

Lemma Keeps_ret {A : Type} (a : A) : Keeps (mret a).
Proof. intros s a' s' tr [= <- <- <-]. apply keeps_ids_refl. Qed.

Lemma Keeps_bind {A B : Type} (m : M A) (k : A -> M B) :
  Keeps m -> (forall a, Keeps (k a)) -> Keeps (m ≫= k).
Proof.
  intros Hm Hk s b s2 tr (a & s1 & t1 & t2 & H1 & H2 & _)%bind_returns.
  eapply keeps_ids_trans; [eapply Hm|eapply Hk]; eassumption.
Qed.

Lemma Keeps_crash {A : Type} : Keeps (@crash A).
Proof. intros s a s' tr [=]. Qed.

Lemma Keeps_deref {A : Type} (p : option A) : Keeps (deref p).
Proof. destruct p; [apply Keeps_ret|apply Keeps_crash]. Qed.

Lemma Keeps_get_this : Keeps get_this.
Proof. intros s a s' tr [= <- <- <-]. apply keeps_ids_refl. Qed.

Lemma Keeps_get_process : Keeps get_process.
Proof. intros s a s' tr [= <- <- <-]. apply keeps_ids_refl. Qed.

Lemma Keeps_emit a : Keeps (emit a).
Proof. intros s x s' tr [= <- <- <-]. apply keeps_ids_refl. Qed.

Lemma Keeps_when c body : Keeps body -> Keeps (when c body).
Proof. destruct c; [trivial|intros _; apply Keeps_ret]. Qed.

Lemma Keeps_modify_this f :
  (forall v, page_id_ (f v) = page_id_ v) -> Keeps (modify_this f).
Proof.
  intros Hf s a s' tr [= <- <- <-].
  split; [apply Hf|split; [reflexivity|set_solver]].
Qed.

Lemma Keeps_load_extra_data p : Keeps (load_extra_data p).
Proof.
  destruct p; [|apply Keeps_ret]. cbn.
  apply Keeps_bind; [apply Keeps_get_process|intros pr].
  apply Keeps_bind; [apply Keeps_deref|intros e]. apply Keeps_ret.
Qed.

Lemma Keeps_store_extra_data a e : Keeps (store_extra_data a e).
Proof.
  intros s x s' tr [= <- <- <-].
  split; [reflexivity|split; [reflexivity|]]. cbn.
  rewrite dom_insert_L. set_solver.
Qed.

(** Discharge [Keeps] goals by following the structure of the method. *)
Ltac keeps :=
  repeat first
    [ apply Keeps_ret | apply Keeps_crash | apply Keeps_deref
    | apply Keeps_get_this | apply Keeps_get_process | apply Keeps_emit
    | apply Keeps_load_extra_data | apply Keeps_store_extra_data
    | apply Keeps_when
    | apply Keeps_modify_this; intros []; reflexivity
    | apply Keeps_bind; [|intros ?]
    | progress cbv zeta
    | match goal with
      | |- Keeps (match ?x with _ => _ end) => destruct x
      end ].

Lemma UpdateSessionHistory_Keeps webview frame :
  Keeps (UpdateSessionHistory webview frame).
Proof. unfold UpdateSessionHistory. keeps. Qed.

Lemma UpdateURL_Keeps webview frame : Keeps (UpdateURL webview frame).
Proof. unfold UpdateURL. keeps. Qed.

Lemma UpdateEncoding_Keeps webview frame encoding_name :
  Keeps (UpdateEncoding webview frame encoding_name).
Proof. unfold UpdateEncoding. keeps. Qed.




Lemma UpdateSessionHistory_state webview frame s a s' tr :
  UpdateSessionHistory webview frame s = Some (a, s', tr) -> s' = s.
Proof.
  unfold UpdateSessionHistory. unfold_M. cbn.
  destruct (page_id_ (this s) =? -1); [congruence|].
  destruct (WebView.GetMainFrame webview) as [mf|]; cbn; [|congruence].
  destruct (WebFrame.GetPreviousHistoryState mf); cbn; congruence.
Qed.




(** One committed new navigation: the view gets the current value of the
    counter as its page ID, and the counter moves on by one (in int32
    arithmetic). *)
Lemma DidCommitLoadForFrame_new_page_id webview frame s a s' tr :
  DidCommitLoadForFrame webview frame true s = Some (a, s', tr) ->
  page_id_ (this s') = next_page_id_ (process s)
  /\ next_page_id_ (process s') = Int32.add (next_page_id_ (process s)) 1
  /\ dom (request_extra_data (process s))
       ⊆ dom (request_extra_data (process s')).
Proof.
  unfold DidCommitLoadForFrame. intros Hrun.
  apply bind_returns in Hrun as (mf & s1 & ? & ? & Hmf & Hrun & _).
  apply bind_returns in Hrun as (mds & s2 & ? & ? & Hmds & Hrun & _).
  apply bind_returns in Hrun as (extra & s3 & ? & ? & Hload & Hrun & _).
  apply bind_returns in Hrun as ([] & s4 & ? & ? & Hnew & Hrun & _).
  apply bind_returns in Hrun as ([] & s5 & ? & ? & Hstore & Hrun & _).
  apply bind_returns in Hrun as ([] & s6 & ? & ? & Hurl & Hrun & _).
  apply bind_returns in Hrun as ([] & s7 & ? & ? & Hclr & Henc & _).
  assert (keeps_ids s s3) as (Hp3 & Hn3 & Hd3).
  { eapply keeps_ids_trans; [eapply Keeps_deref; exact Hmf|].
    eapply keeps_ids_trans; [eapply Keeps_deref; exact Hmds|].
    eapply Keeps_load_extra_data; exact Hload. }
  assert (page_id_ (this s4) = next_page_id_ (process s3)
          /\ next_page_id_ (process s4) = Int32.add (next_page_id_ (process s3)) 1
          /\ dom (request_extra_data (process s3))
               ⊆ dom (request_extra_data (process s4))) as (Hp4 & Hn4 & Hd4).
  { apply bind_returns in Hnew as ([] & s31 & ? & ? & Hush & Hnew & _).
    apply UpdateSessionHistory_state in Hush as ->.
    revert Hnew. unfold_M. cbn. intros [= <-]. cbn.
    destruct (this s3); cbn. repeat split; reflexivity. }
  assert (keeps_ids s4 s') as (Hp' & Hn' & Hd').
  { eapply keeps_ids_trans.
    { assert (Keeps (match extra with
                     | Some (a, e) =>
                         store_extra_data a
                           (ExtraData.set_request_committed true e)
                     | None => mret tt
                     end)) as HK by keeps.
      eapply HK; exact Hstore. }
    eapply keeps_ids_trans; [eapply UpdateURL_Keeps; exact Hurl|].
    eapply keeps_ids_trans.
    { assert (Keeps (modify_this
                       (set_completed_client_redirect_src_ GURL_empty)))
        as HK by keeps.
      eapply HK; exact Hclr. }
    eapply UpdateEncoding_Keeps; exact Henc. }
  split; [congruence|]. split; [congruence|]. set_solver.
Qed.




(** ** Target URL *)

Lemma UpdateTargetURL_each_unacked webview (urls : list GURL) :
  forall s1,
    target_url_status_ (this s1) <> TARGET_NONE ->
    exists s2,
      UpdateTargetURL_each webview urls s1 = Some (tt, s2, [])
      /\ process s2 = process s1
      /\ this s2
         = set_target_url_status_ (target_url_status_ (this s2))
             (set_pending_target_url_ (pending_target_url_ (this s2))
                (this s1))
      /\ target_url_status_ (this s2) <> TARGET_NONE
      /\ match latest_change (target_url_ (this s1)) urls with
         | None => this s2 = this s1
         | Some u =>
             target_url_status_ (this s2) = TARGET_PENDING
             /\ pending_target_url_ (this s2) = u
         end.
Proof.
  induction urls as [|url urls IH]; intros [pr v] Hst; cbn in Hst.
  - exists (mkState pr v). cbn. destruct v; cbn. now repeat split.
  - cbn [UpdateTargetURL_each latest_change].
    assert (exists v1,
      UpdateTargetURL webview url (mkState pr v) = Some (tt, mkState pr v1, [])
      /\ target_url_ v1 = target_url_ v
      /\ target_url_status_ v1 <> TARGET_NONE
      /\ v1 = set_target_url_status_ (target_url_status_ v1)
                (set_pending_target_url_ (pending_target_url_ v1) v)
      /\ if String.eqb url (target_url_ v) then v1 = v
         else target_url_status_ v1 = TARGET_PENDING
              /\ pending_target_url_ v1 = url)
      as (v1 & Hrun & Htgt & Hst1 & Hv1 & Hcase).
    { unfold UpdateTargetURL. unfold_M. cbn.
      destruct (String.eqb url (target_url_ v)); cbn.
      - exists v. destruct v; cbn in *. repeat split; assumption.
      - destruct v; cbn in *.
        destruct target_url_status_0; cbn; [congruence| |];
          eexists; (split; [reflexivity|]); cbn; repeat split; congruence. }
    destruct (IH (mkState pr v1) Hst1)
      as (s2 & Hrest & Hpr & Hv2 & Hst2 & Hlast).
    cbn [process this] in *.
    exists s2. split.
    { apply bind_returns. eexists tt, _, [], [].
      split; [exact Hrun|]. split; [exact Hrest|reflexivity]. }
    split; [exact Hpr|]. split.
    { rewrite Hv2 at 1. rewrite Hv1. destruct v; reflexivity. }
    split; [exact Hst2|].
    rewrite Htgt in Hlast.
    destruct (latest_change (target_url_ v) urls) as [u|]; [exact Hlast|].
    rewrite Hlast.
    destruct (String.eqb url (target_url_ v)); [exact Hcase|exact Hcase].
Qed.

(** Up to the first ACK the throttle holds.  Once [UpdateTargetURL] has
    sent a ViewHostMsg_UpdateTargetURL the status is TARGET_INFLIGHT, and
    any number of further [UpdateTargetURL] calls before the ACK perform
    no action at all: they send nothing and change nothing but
    [pending_target_url_] and [target_url_status_] (TARGET_PENDING with
    the latest changed URL, when a URL changed).  The ACK handler then
    sends exactly that latest pending URL, or nothing when there is none,
    and leaves the status TARGET_NONE. *)
Theorem target_url_single_unacked_update (s s1 : State) (webview : WebView.t)
    (url : GURL) (tr1 : list Action) (urls : list GURL) :
  UpdateTargetURL webview url s = Some (tt, s1, tr1) ->
  sent tr1 <> [] ->
  let v1 := this s1 in
  sent tr1 = [ViewHostMsg_UpdateTargetURL (routing_id_ v1) (page_id_ v1) url]
  /\ target_url_status_ v1 = TARGET_INFLIGHT
  /\ target_url_ v1 = url
  /\ exists s2,
       UpdateTargetURL_each webview urls s1 = Some (tt, s2, [])
       /\ process s2 = process s1
       /\ this s2
          = set_target_url_status_ (target_url_status_ (this s2))
              (set_pending_target_url_ (pending_target_url_ (this s2)) v1)
       /\ match latest_change url urls with
          | None => this s2 = v1
          | Some u =>
              target_url_status_ (this s2) = TARGET_PENDING
              /\ pending_target_url_ (this s2) = u
          end
       /\ exists s3,
            OnUpdateTargetURLAck s2
            = Some (tt, s3,
                    match latest_change url urls with
                    | None => []
                    | Some u =>
                        [Send (ViewHostMsg_UpdateTargetURL (routing_id_ v1)
                                 (page_id_ v1) u)]
                    end)
            /\ target_url_status_ (this s3) = TARGET_NONE.
Proof.
  intros Hrun Hsent v1.
  assert (sent tr1
          = [ViewHostMsg_UpdateTargetURL (routing_id_ v1) (page_id_ v1) url]
          /\ target_url_status_ v1 = TARGET_INFLIGHT
          /\ target_url_ v1 = url) as (Htr & Hst & Htgt).
  { subst v1. revert Hrun. unfold UpdateTargetURL. unfold_M.
    destruct s as [pr v]. cbn.
    destruct (String.eqb url (target_url_ v)); cbn.
    - intros [= <- <-]. now destruct Hsent.
    - destruct v; cbn.
      destruct target_url_status_0; cbn; intros [= <- <-]; cbn in *;
        first [now repeat split | now destruct Hsent]. }
  split; [exact Htr|]. split; [exact Hst|]. split; [exact Htgt|].
  destruct (UpdateTargetURL_each_unacked webview urls s1)
    as (s2 & Heach & Hpr & Hv2 & Hst2 & Hlast).
  { fold v1. rewrite Hst. discriminate. }
  fold v1 in Hv2, Hlast. rewrite Htgt in Hlast.
  exists s2. split; [exact Heach|]. split; [exact Hpr|].
  split; [exact Hv2|]. split; [exact Hlast|].
  clearbody v1.
  assert (routing_id_ (this s2) = routing_id_ v1
          /\ page_id_ (this s2) = page_id_ v1) as [Hrid Hpid].
  { rewrite Hv2. generalize (target_url_status_ (this s2)).
    generalize (pending_target_url_ (this s2)).
    intros p st. destruct v1; split; reflexivity. }
  unfold OnUpdateTargetURLAck. unfold_M. cbn.
  rewrite Hrid, Hpid.
  destruct (latest_change url urls) as [u|].
  - destruct Hlast as [Hp Hu]. rewrite Hp, Hu. cbn.
    eexists. split; [reflexivity|]. cbn. destruct (this s2); reflexivity.
  - rewrite Hlast, Hst. cbn.
    eexists. split; [reflexivity|]. cbn. destruct (this s2); reflexivity.
Qed.

(** ** Page capture *)

Lemma CaptureText_secure (frame : WebFrame.t) :
  SchemeIsSecure (WebFrame.GetURL frame) = true ->
  CaptureText (Some frame) = "".
Proof. unfold CaptureText. now intros ->. Qed.

(** C9. For a frame whose URL has a secure scheme [CaptureText] yields the
    empty string; and when such a frame is the main frame,
    [CapturePageInfo] returns without a ViewHostMsg_PageContents among the
    messages it sends, whatever the view, the load and the kind of
    capture. *)
Theorem secure_pages_are_not_indexed (frame : WebFrame.t) :
  SchemeIsSecure (WebFrame.GetURL frame) = true ->
  CaptureText (Some frame) = ""
  /\ forall (s : State) (webview : WebView.t) (load_id : Z)
       (preliminary_capture : bool),
       WebView.GetMainFrame webview = Some frame ->
       exists s' tr,
         CapturePageInfo (Some webview) load_id preliminary_capture s
           = Some (tt, s', tr)
         /\ forallb (fun m => negb (is_PageContents m)) (sent tr) = true.
Proof.
  intros Hsec. split; [now apply CaptureText_secure|].
  intros s webview load_id preliminary_capture Hmf.
  unfold CapturePageInfo, SendThumbnail.
  rewrite Hmf. cbv beta iota.
  rewrite (CaptureText_secure frame Hsec).
  unfold_M. cbn. rewrite Hmf.
  destruct (negb (load_id =? page_id_ (this s))); [eauto|].
  destruct (load_id =? last_indexed_page_id_ (this s)); [eauto|].
  destruct (WebFrame.GetInViewSourceMode frame); [eauto|].
  destruct (from_option WebDataSource.HasUnreachableURL false
              (WebFrame.GetDataSource frame)); [eauto|].
  destruct (negb preliminary_capture); cbn;
    (destruct (is_empty (WebFrame.GetURL frame)); [eauto|]); cbn;
    (destruct (IsEmpty _); [eauto|]);
    (destruct (CaptureThumbnail frame kThumbnailWidth kThumbnailHeight)
       as [[thumbnail score]|]; cbn; eauto).
Qed.

(** ** Message dispatch *)

Lemma IPC_MESSAGE_MAP_hit (entries : list (string * string))
    (message : IPC_Message) (member_func : string) :
  NoDup (map fst entries) ->
  (type message, member_func) ∈ entries ->
  IPC_MESSAGE_MAP entries message = IPC_MESSAGE_HANDLER member_func message.
Proof.
  induction entries as [|[c f] entries IH]; intros Hnd Hin.
  - now apply elem_of_nil in Hin.
  - cbn in Hnd. apply NoDup_cons in Hnd as [Hc Hnd]. cbn.
    apply elem_of_cons in Hin as [[= <- <-]|Hin].
    + now rewrite String.eqb_refl.
    + destruct (String.eqb_spec (type message) c) as [<-|Hne].
      * destruct Hc. apply list_elem_of_fmap. now exists (type message, member_func).
      * now apply IH.
Qed.

Lemma IPC_MESSAGE_MAP_miss (entries : list (string * string))
    (message : IPC_Message) :
  type message ∉ map fst entries ->
  IPC_MESSAGE_MAP entries message = RenderWidget_OnMessageReceived message.
Proof.
  induction entries as [|[c f] entries IH]; intros Hnin; [reflexivity|].
  cbn in *. apply not_elem_of_cons in Hnin as [Hne Hnin].
  destruct (String.eqb_spec (type message) c); [contradiction|now apply IH].
Qed.

Lemma message_map_NoDup : NoDup (map fst message_map).
Proof. refine (bool_decide_unpack _ _). vm_compute. exact I. Qed.

(** C4. The message map of [RenderView::OnMessageReceived] has 66 entries
    with pairwise distinct message types, so a message type has exactly one
    handler.  A message that the devtools client, asked first, or the
    devtools agent, asked second, takes is not dispatched.  Any other
    message goes to the handler of its type's entry, and a message whose
    type has no entry is passed, as received, to
    [RenderWidget::OnMessageReceived]. *)
Theorem OnMessageReceived_dispatch
    (devtools_client_ devtools_agent_ : option (IPC_Message -> bool))
    (message : IPC_Message) :
  let taken_by c := from_option (fun f => f message) false c in
  length message_map = 66%nat
  /\ NoDup (map fst message_map)
  /\ (forall msg_class f g,
        (msg_class, f) ∈ message_map -> (msg_class, g) ∈ message_map -> f = g)
  /\ (taken_by devtools_client_ = true ->
      OnMessageReceived devtools_client_ devtools_agent_ message
      = devtools_client_OnMessageReceived)
  /\ (taken_by devtools_client_ = false ->
      taken_by devtools_agent_ = true ->
      OnMessageReceived devtools_client_ devtools_agent_ message
      = devtools_agent_OnMessageReceived)
  /\ (taken_by devtools_client_ = false ->
      taken_by devtools_agent_ = false ->
      (forall member_func,
         (type message, member_func) ∈ message_map ->
         OnMessageReceived devtools_client_ devtools_agent_ message
         = IPC_MESSAGE_HANDLER member_func message)
      /\ (type message ∉ map fst message_map ->
          OnMessageReceived devtools_client_ devtools_agent_ message
          = RenderWidget_OnMessageReceived message)).
Proof.
  intros taken_by. split; [reflexivity|]. split; [apply message_map_NoDup|].
  split.
  { intros c f g Hf Hg.
    pose (m := {| type := c; payload := "" |}).
    pose proof (IPC_MESSAGE_MAP_hit message_map m f message_map_NoDup Hf) as E1.
    pose proof (IPC_MESSAGE_MAP_hit message_map m g message_map_NoDup Hg) as E2.
    congruence. }
  unfold OnMessageReceived. subst taken_by. cbn beta.
  split; [now intros ->|]. split; [now intros -> ->|].
  intros -> ->. split.
  - intros f Hf. now apply IPC_MESSAGE_MAP_hit; [apply message_map_NoDup|].
  - apply IPC_MESSAGE_MAP_miss.
Qed.
End Properties.

(* ================================================================== *)
(** * The test shell *)

(** C5. Cancel is drop: the two methods make the same call on the webview.
    The delegate thus has two behaviours, drop-or-cancel and move, and each
    is the cursor-position forwarder of the specification: it reads the OS
    cursor position (the origin when the OS gives none), converts it to
    client coordinates of the source window, and passes the client and the
    screen coordinates to [DragSourceEndedAt], respectively
    [DragSourceMovedTo].  The two behaviours differ. *)
Theorem drag_delegate_forwards_cursor_position
    (os : TestDragDelegate.Win32) (d : TestDragDelegate.t) :
  let screen :=
    default (TestDragDelegate.SetPoint 0 0) (TestDragDelegate.GetCursorPos os) in
  let client :=
    TestDragDelegate.ScreenToClient os (TestDragDelegate.source_hwnd_ d)
      screen in
  TestDragDelegate.OnDragSourceCancel os d
    = TestDragDelegate.OnDragSourceDrop os d
  /\ TestDragDelegate.OnDragSourceDrop os d
     = TestDragDelegate.cursor_position_forwarder
         TestDragDelegate.DropOrCancel os d
  /\ TestDragDelegate.OnDragSourceMove os d
     = TestDragDelegate.cursor_position_forwarder TestDragDelegate.Move os d
  /\ TestDragDelegate.OnDragSourceDrop os d
     = [TestDragDelegate.DragSourceEndedAt
          (TestDragDelegate.x client) (TestDragDelegate.y client)
          (TestDragDelegate.x screen) (TestDragDelegate.y screen)]
  /\ TestDragDelegate.OnDragSourceMove os d
     = [TestDragDelegate.DragSourceMovedTo
          (TestDragDelegate.x client) (TestDragDelegate.y client)
          (TestDragDelegate.x screen) (TestDragDelegate.y screen)]
  /\ TestDragDelegate.OnDragSourceDrop os d
     <> TestDragDelegate.OnDragSourceMove os d.
Proof.
  unfold TestDragDelegate.OnDragSourceCancel,
    TestDragDelegate.OnDragSourceDrop, TestDragDelegate.OnDragSourceMove,
    TestDragDelegate.cursor_position_forwarder,
    TestDragDelegate.GetCursorPositions.
  destruct (TestDragDelegate.GetCursorPos os); cbn;
    repeat split; discriminate.
Qed.

(** C7. The cache mode that [main] hands to the request context is PLAYBACK
    when the playback-mode switch is on the command line, whether or not
    the record-mode switch is there too; RECORD when only the record-mode
    switch is there; NORMAL when neither is. *)
Theorem cache_mode_playback_before_record
    (kNoErrorDialogs kLayoutTests kPlaybackMode kRecordMode
       kEnableFileCookies kCacheDir : string)
    (AppendToPath : string -> string -> string)
    (parsed_command_line : TestShellMain.CommandLine)
    (chrome_headless : bool) (dir_exe : string) :
  let has switch :=
    is_Some (TestShellMain.switches parsed_command_line !! switch) in
  let mode :=
    TestShellMain.cache_mode
      (TestShellMain.main kNoErrorDialogs kLayoutTests kPlaybackMode
         kRecordMode kEnableFileCookies kCacheDir AppendToPath
         parsed_command_line chrome_headless dir_exe) in
  (has kPlaybackMode -> mode = TestShellMain.PLAYBACK)
  /\ (~ has kPlaybackMode -> has kRecordMode -> mode = TestShellMain.RECORD)
  /\ (~ has kPlaybackMode -> ~ has kRecordMode -> mode = TestShellMain.NORMAL).
Proof.
  cbn. unfold TestShellMain.HasSwitch.
  repeat split; intros; repeat case_bool_decide; tauto.
Qed.

(* ================================================================== *)
(** * Concrete runs *)




Lemma UpdateURL_subframe_transition_witness :
  same_frame (WebView.GetMainFrame sample_webview) (Some sample_subframe)
    = false
  /\ exists s' params,
       UpdateURL sample_webview sample_subframe navigated_state
         = Some (tt, s', [Send (ViewHostMsg_FrameNavigate 7 params)])
       /\ params_transition params = MANUAL_SUBFRAME
       /\ last_page_id_sent_to_browser_ (this s') = 5.
Proof.
  assert (same_frame (WebView.GetMainFrame sample_webview)
            (Some sample_subframe) = false) as Hsub by reflexivity.
  split; [exact Hsub|].
  destruct (UpdateURL_subframe_transition navigated_state sample_webview
              sample_subframe sample_data_source Hsub eq_refl I)
    as (s' & params & Hrun & _ & Ht & _ & _ & _ & Hlast & _).
  exists s', params. split; [exact Hrun|]. split; [exact Ht|exact Hlast].
Defined.

Lemma GoToEntryAtOffset_keeps_sum_witness :
  exists s',
    GoToEntryAtOffset (-1) sample_state
      = Some (tt, s', [Send (ViewHostMsg_GoToEntryAtOffset 7 (-1))])
    /\ history_back_list_count_ (this s')
       + history_forward_list_count_ (this s') = 0.
Proof.
  destruct (GoToEntryAtOffset_keeps_sum sample_state (-1))
    as (Hrun & _ & _ & _ & Hsum).
  eexists. split; [exact Hrun|].
  apply Hsum; vm_compute; split; discriminate.
Defined.

Lemma loading_callbacks_log_and_continue_witness :
  is_loading_ (this loading_state) = true
  /\ is_loading_ (this sample_state) = false
  /\ (exists text,
        DidStartLoading sample_webview loading_state
        = Some (tt, loading_state, [DLOG_WARNING text]))
  /\ (exists text,
        DidStopLoading sample_webview true sample_state
        = Some (tt, sample_state, [DLOG_WARNING text])).
Proof.
  split; [reflexivity|]. split; [reflexivity|]. split.
  - destruct (loading_callbacks_log_and_continue loading_state sample_webview
                true) as [Hstart _].
    destruct (Hstart eq_refl) as (text & Hrun & _). now exists text.
  - destruct (loading_callbacks_log_and_continue sample_state sample_webview
                true) as [_ Hstop].
    destruct (Hstop eq_refl) as (text & Hrun & _). now exists text.
Defined.

Lemma CreateWebView_popup_limit_witness :
  popup_counters (process crowded_state)
    !! shared_popup_counter_ (this crowded_state) = Some 26
  /\ 26 > 25
  /\ CreateWebView sample_webview true 9 crowded_state
     = Some (None, crowded_state, []).
Proof.
  assert (popup_counters (process crowded_state)
            !! shared_popup_counter_ (this crowded_state) = Some 26) as Hd
    by reflexivity.
  assert (26 > 25) as Hgt by lia.
  split; [exact Hd|]. split; [exact Hgt|].
  apply (CreateWebView_popup_limit crowded_state sample_webview true 9 26
           Hd Hgt).
Defined.

Lemma target_url_single_unacked_update_witness :
  exists s1 tr1 s2 s3,
    UpdateTargetURL sample_webview "http://a.test/1" sample_state
      = Some (tt, s1, tr1)
    /\ sent tr1 <> []
    /\ UpdateTargetURL_each sample_webview
         ["http://a.test/2"; "http://a.test/1"; "http://a.test/3"] s1
       = Some (tt, s2, [])
    /\ OnUpdateTargetURLAck s2
       = Some (tt, s3,
               [Send (ViewHostMsg_UpdateTargetURL 7 (-1) "http://a.test/3")]).
Proof.
  destruct (UpdateTargetURL sample_webview "http://a.test/1" sample_state)
    as [[[[] s1] tr1]|] eqn:Hrun; [|discriminate Hrun].
  assert (sent tr1 <> []) as Hsent.
  { vm_compute in Hrun. injection Hrun as <- <-. discriminate. }
  destruct (target_url_single_unacked_update sample_state s1 sample_webview
              "http://a.test/1" tr1
              ["http://a.test/2"; "http://a.test/1"; "http://a.test/3"]
              Hrun Hsent)
    as (_ & _ & _ & s2 & Heach & _ & _ & _ & s3 & Hack & _).
  exists s1, tr1, s2, s3. split; [reflexivity|]. split; [exact Hsent|].
  split; [exact Heach|].
  rewrite Hack. vm_compute in Hrun. injection Hrun as <- <-. reflexivity.
Defined.

Lemma secure_pages_are_not_indexed_witness :
  SchemeIsSecure (WebFrame.GetURL secure_frame) = true
  /\ CaptureText (Some secure_frame) = ""
  /\ exists s' tr,
       CapturePageInfo (Some secure_webview) 5 false navigated_state
         = Some (tt, s', tr)
       /\ forallb (fun m => negb (is_PageContents m)) (sent tr) = true.
Proof.
  assert (SchemeIsSecure (WebFrame.GetURL secure_frame) = true) as Hsec
    by reflexivity.
  split; [exact Hsec|].
  destruct (secure_pages_are_not_indexed secure_frame Hsec) as [Htext Hinfo].
  split; [exact Htext|].
  apply (Hinfo navigated_state secure_webview 5 false eq_refl).
Defined.

Lemma OnMessageReceived_dispatch_witness :
  OnMessageReceived None (Some (fun _ => false)) sample_message
  = IPC_MESSAGE_HANDLER "OnStop" sample_message.
Proof.
  destruct (OnMessageReceived_dispatch None (Some (fun _ => false))
              sample_message) as (_ & _ & _ & _ & _ & Hmap).
  specialize (Hmap eq_refl eq_refl). destruct Hmap as [Hhit _].
  apply Hhit. apply (list_elem_of_lookup_2 _ 3%nat). reflexivity.
Defined.

Lemma cache_mode_playback_before_record_witness :
  is_Some (TestShellMain.switches sample_command_line !! "playback-mode")
  /\ is_Some (TestShellMain.switches sample_command_line !! "record-mode")
  /\ TestShellMain.cache_mode
       (TestShellMain.main "no-errdialogs" "layout-tests" "playback-mode"
          "record-mode" "enable-file-cookies" "cache-dir"
          (fun a b => String.append a b) sample_command_line false "C:\out")
     = TestShellMain.PLAYBACK.
Proof.
  assert (is_Some (TestShellMain.switches sample_command_line
                     !! "playback-mode")) as Hp by (eexists; reflexivity).
  split; [exact Hp|]. split; [eexists; reflexivity|].
  destruct (cache_mode_playback_before_record "no-errdialogs" "layout-tests"
              "playback-mode" "record-mode" "enable-file-cookies" "cache-dir"
              (fun a b => String.append a b) sample_command_line false
              "C:\out") as [Hplay _].
  exact (Hplay Hp).
Defined.

(** ** The model at work *)

(** The first committed navigation of a fresh view takes page ID 1; the
    view reports it as a link click in the main frame and schedules the
    forced capture. *)
Example first_commit_of_a_fresh_view :
  exists s',
    DidCommitLoadForFrame sample_webview sample_frame true sample_state
      = Some (tt, s',
              [PostDelayedTask (Task_CapturePageInfo 1 true) 6000;
               Send (ViewHostMsg_FrameNavigate 7
                 {| params_page_id := 1;
                    params_url := "http://a.test/";
                    params_referrer := "";
                    params_transition := LINK;
                    params_redirects := [];
                    params_should_update_history := true;
                    params_searchable_form_url := "";
                    params_searchable_form_element_name := "";
                    params_searchable_form_encoding := "";
                    params_password_form := "";
                    params_security_info := "";
                    params_gesture := NavigationGestureUnknown;
                    params_contents_mime_type := "text/html";
                    params_is_post := false;
                    params_is_content_filtered := false;
                    params_http_status_code := 200 |});
               Send (ViewHostMsg_UpdateEncoding 7 "UTF-8")])
    /\ page_id_ (this s') = 1
    /\ last_page_id_sent_to_browser_ (this s') = 1
    /\ next_page_id_ (process s') = 2.
Proof.
  eexists. split; [vm_compute; reflexivity|].
  repeat split; reflexivity.
Qed.

(** A view that is not loading starts loading and tells the browser. *)
Example DidStartLoading_when_idle :
  DidStartLoading sample_webview sample_state
  = Some (tt, loading_state, [Send (ViewHostMsg_DidStartLoading 7 (-1))]).
Proof. reflexivity. Qed.

(** Text of a plain http page is captured as it is. *)
Example CaptureText_plain_page :
  CaptureText (Some sample_frame) = "hello world".
Proof. reflexivity. Qed.

(** Below the limit a popup is created: the opener asks the browser for a
    window, and the new view shares the opener's counter, now one higher. *)
Example CreateWebView_below_the_limit :
  exists s' view,
    CreateWebView sample_webview true 9 sample_state
      = Some (Some view, s',
              [Send (ViewHostMsg_CreateWindow 7 true); AddRoute 9])
    /\ shared_popup_counter_ view = shared_popup_counter_ (this s')
    /\ popup_counters (process s') !! shared_popup_counter_ view = Some 1
    /\ opener_id_ view = 7
    /\ routing_id_ view = 9
    /\ popup_notification_visible_ (this s') = true.
Proof.
  eexists _, _. split; [vm_compute; reflexivity|].
  repeat split; reflexivity.
Qed.

(** C8. More than one target-URL update can be in flight.  With a URL
    pending, the ACK handler sends it and leaves the status TARGET_NONE
    instead of TARGET_INFLIGHT, so the update it has sent is not tracked:
    the next change of URL is sent by [UpdateTargetURL] at once, although
    no ACK has arrived since the handler's own message.  Three messages
    go out here and the browser has acknowledged only the first. *)
Theorem target_url_sent_on_ack_is_not_tracked :
  exists s2 s3 s4,
    (UpdateTargetURL sample_webview "http://a.test/1";;
     UpdateTargetURL sample_webview "http://a.test/2") sample_state
    = Some (tt, s2,
            [Send (ViewHostMsg_UpdateTargetURL 7 (-1) "http://a.test/1")])
    /\ target_url_status_ (this s2) = TARGET_PENDING
    /\ OnUpdateTargetURLAck s2
       = Some (tt, s3,
               [Send (ViewHostMsg_UpdateTargetURL 7 (-1) "http://a.test/2")])
    /\ target_url_status_ (this s3) = TARGET_NONE
    /\ UpdateTargetURL sample_webview "http://a.test/3" s3
       = Some (tt, s4,
               [Send (ViewHostMsg_UpdateTargetURL 7 (-1) "http://a.test/3")])
    /\ target_url_status_ (this s4) = TARGET_INFLIGHT.
Proof.
  eexists _, _, _. split; [vm_compute; reflexivity|].
  split; [reflexivity|]. split; [vm_compute; reflexivity|].
  split; [reflexivity|]. split; [vm_compute; reflexivity|]. reflexivity.
Qed.

(** With exactly 25 views on the counter the popup is still asked for: the
    limit is passed only above 25. *)
Example CreateWebView_at_the_limit :
  exists s' view,
    CreateWebView sample_webview false 9
      (mkState (mkRenderer 1 {[ 0%nat := 25 ]} ∅) sample_view)
    = Some (Some view, s',
            [Send (ViewHostMsg_CreateWindow 7 false); AddRoute 9])
    /\ popup_counters (process s') !! shared_popup_counter_ view = Some 26.
Proof. eexists _, _. split; vm_compute; reflexivity. Qed.

(** A loaded plain page is indexed: its text goes to the browser. *)
Example CapturePageInfo_plain_page :
  exists s',
    CapturePageInfo (Some sample_webview) 5 false navigated_state
    = Some (tt, s',
            [Send (ViewHostMsg_PageContents "http://a.test/" 5 "hello world")])
    /\ last_indexed_page_id_ (this s') = 5.
Proof. eexists. split; vm_compute; reflexivity. Qed.

(** The same capture of a secure page sends the thumbnail only. *)
Example CapturePageInfo_secure_page :
  exists s',
    CapturePageInfo (Some secure_webview) 5 false navigated_state
    = Some (tt, s',
            [Send (ViewHostMsg_Thumbnail 7 "https://bank.test/" "score"
                     "pixels")])
    /\ last_indexed_page_id_ (this s') = 5.
Proof. eexists. split; vm_compute; reflexivity. Qed.

(** A subframe commit right after a new navigation is a manual subframe
    navigation; once the page ID has been reported, it is automatic. *)
Example subframe_transitions :
  exists s1 s2 p1 p2,
    UpdateURL sample_webview sample_subframe navigated_state
      = Some (tt, s1, [Send (ViewHostMsg_FrameNavigate 7 p1)])
    /\ UpdateURL sample_webview sample_subframe s1
       = Some (tt, s2, [Send (ViewHostMsg_FrameNavigate 7 p2)])
    /\ params_transition p1 = MANUAL_SUBFRAME
    /\ params_transition p2 = AUTO_SUBFRAME.
Proof.
  eexists _, _, _, _. split; [vm_compute; reflexivity|].
  split; [vm_compute; reflexivity|]. split; reflexivity.
Qed.

(** Going forward from a back count at the top of the int range wraps the
    count; the counters' int sum is 2147483647 before and after. *)
Example GoToEntryAtOffset_past_int_max :
  exists s1 s2,
    OnUpdateBackForwardListCount 2147483647 0 sample_state = Some (tt, s1, [])
    /\ GoToEntryAtOffset 1 s1
       = Some (tt, s2, [Send (ViewHostMsg_GoToEntryAtOffset 7 1)])
    /\ history_back_list_count_ (this s2) = -2147483648
    /\ history_forward_list_count_ (this s2) = -1
    /\ Int32.add (history_back_list_count_ (this s2))
         (history_forward_list_count_ (this s2)) = 2147483647.
Proof.
  eexists _, _. split; [vm_compute; reflexivity|].
  split; [vm_compute; reflexivity|]. repeat split; reflexivity.
Qed.

(* ================================================================== *)
(** * Further properties of render_view.cc *)

(** ** Text capture *)

Lemma append_cons (c : Ascii.ascii) (s1 s2 : string) :
  String.append (String c s1) s2 = String c (String.append s1 s2).
Proof. reflexivity. Qed.

Lemma length_append (s1 s2 : string) :
  String.length (String.append s1 s2)
  = (String.length s1 + String.length s2)%nat.
Proof.
  induction s1 as [|c s1 IH]; [reflexivity|].
  rewrite append_cons. simpl. now f_equal.
Qed.

Lemma append_empty_r (s : string) : String.append s "" = s.
Proof.
  induction s as [|c s IH]; [reflexivity|].
  rewrite append_cons. now f_equal.
Qed.

Lemma find_last_of_from_shift (set : string) (s : string) :
  forall i found,
    find_last_of_from set i s found
    = match find_last_of_from set 0 s None with
      | Some k => Some (i + k)%nat
      | None => found
      end.
Proof.
  induction s as [|c s IH]; intros i found; cbn; [reflexivity|].
  rewrite (IH (S i)), (IH 1%nat).
  destruct (find_last_of_from set 0 s None) as [k|].
  - f_equal. lia.
  - fold (in_set set c). destruct (in_set set c); [f_equal; lia|reflexivity].
Qed.

Lemma find_last_of_cons (set : string) (c : Ascii.ascii) (s : string) :
  find_last_of set (String c s)
  = match find_last_of set s with
    | Some k => Some (S k)
    | None => if in_set set c then Some 0%nat else None
    end.
Proof.
  unfold find_last_of. cbn. rewrite find_last_of_from_shift.
  fold (in_set set c).
  destruct (find_last_of_from set 0 s None); [reflexivity|].
  now destruct (in_set set c).
Qed.

Lemma find_last_of_None (set s : string) :
  find_last_of set s = None <-> none_in_set set s = true.
Proof.
  induction s as [|c s IH]; [now split|].
  rewrite find_last_of_cons. cbn.
  destruct (find_last_of set s) as [k|].
  - split; [discriminate|]. intros [_ Hs]%andb_prop.
    apply IH in Hs. discriminate.
  - destruct (in_set set c); cbn; [now split|]. split; [|reflexivity].
    intros _. now apply IH.
Qed.

Lemma find_last_of_Some (set s : string) (k : nat) :
  find_last_of set s = Some k ->
  exists ws rest,
    s = String.append (resize k s) (String ws rest)
    /\ String.length (resize k s) = k
    /\ in_set set ws = true
    /\ none_in_set set rest = true.
Proof.
  revert k. induction s as [|c s IH]; intros k; [discriminate|].
  rewrite find_last_of_cons.
  destruct (find_last_of set s) as [k'|] eqn:Hs.
  - intros [= <-]. destruct (IH k' eq_refl) as (ws & rest & E & Hl & Hw & Hr).
    exists ws, rest. split; [|split; [|now split]].
    + change (String c s
              = String c (String.append (resize k' s) (String ws rest))).
      now rewrite <- E.
    + change (S (String.length (resize k' s)) = S k'). now rewrite Hl.
  - destruct (in_set set c) eqn:Hc; [|discriminate]. intros [= <-].
    exists c, s. cbn. repeat split; [exact Hc|]. now apply find_last_of_None.
Qed.

Section TextCapture.
Context `{Declarations}.

(** X1. A text that fills the index limit of 65535 characters and has
    whitespace in it is cut just before its last whitespace character:
    what [CaptureText] returns, followed by that whitespace character and
    by a whitespace-free remainder, is the frame's text.  So the captured
    text is shorter than the limit and ends at a word boundary. *)
Theorem CaptureText_clips_at_last_whitespace (frame : WebFrame.t) :
  let contents := WebFrame.GetContentAsPlainText frame kMaxIndexChars in
  SchemeIsSecure (WebFrame.GetURL frame) = false ->
  Z.of_nat (String.length contents) = kMaxIndexChars ->
  none_in_set kWhitespaceWide contents = false ->
  exists ws rest,
    contents = String.append (CaptureText (Some frame)) (String ws rest)
    /\ in_set kWhitespaceWide ws = true
    /\ none_in_set kWhitespaceWide rest = true
    /\ Z.of_nat (String.length (CaptureText (Some frame))) < kMaxIndexChars.
Proof.
  intros contents Hsec Hlen Hws. unfold CaptureText. rewrite Hsec.
  fold contents. rewrite Hlen, Z.eqb_refl.
  destruct (find_last_of kWhitespaceWide contents) as [k|] eqn:Hk.
  - destruct (find_last_of_Some _ _ _ Hk) as (ws & rest & E & Hl & Hw & Hr).
    exists ws, rest. repeat split; try assumption.
    rewrite <- Hlen. rewrite E at 2. rewrite length_append, Hl. cbn. lia.
  - apply find_last_of_None in Hk. congruence.
Qed.

(** X2. [CaptureText] never returns anything but a leading part of the
    frame's text.  A text that does not fill the limit exactly comes back
    unchanged, and so does a text that fills it without any whitespace. *)
Theorem CaptureText_is_a_prefix (frame : WebFrame.t) :
  let contents := WebFrame.GetContentAsPlainText frame kMaxIndexChars in
  (exists rest, contents = String.append (CaptureText (Some frame)) rest)
  /\ (SchemeIsSecure (WebFrame.GetURL frame) = false ->
      Z.of_nat (String.length contents) <> kMaxIndexChars ->
      CaptureText (Some frame) = contents)
  /\ (SchemeIsSecure (WebFrame.GetURL frame) = false ->
      none_in_set kWhitespaceWide contents = true ->
      CaptureText (Some frame) = contents).
Proof.
  intros contents. unfold CaptureText. fold contents. split; [|split].
  - destruct (SchemeIsSecure _); [now exists contents|].
    destruct (_ =? _); [|exists ""; now rewrite append_empty_r].
    destruct (find_last_of kWhitespaceWide contents) as [k|] eqn:Hk;
      [|exists ""; now rewrite append_empty_r].
    destruct (find_last_of_Some _ _ _ Hk) as (ws & rest & E & _).
    now exists (String ws rest).
  - intros -> Hne. now apply Z.eqb_neq in Hne as ->.
  - intros -> Hno. apply find_last_of_None in Hno. rewrite Hno.
    now destruct (_ =? _).
Qed.

End TextCapture.

(** ** Page capture *)

Section PageCapture.
Context `{Declarations}.

Lemma CapturePageInfo_cases (webview : option WebView.t) (load_id : Z)
    (preliminary_capture : bool) (s : State) :
  exists s1 tr1,
    CapturePageInfo webview load_id preliminary_capture s = Some (tt, s1, tr1)
    /\ process s1 = process s
    /\ ((s1 = s /\ tr1 = [])
        \/ (load_id = page_id_ (this s)
            /\ this s1
               = (if preliminary_capture then this s
                  else set_last_indexed_page_id_ load_id (this s)))).
Proof.
  unfold CapturePageInfo, SendThumbnail.
  destruct webview as [wv|].
  2: { unfold_M. cbn. repeat (destruct (_ : bool)); eauto 10. }
  destruct (WebView.GetMainFrame wv) as [mf|] eqn:Hmf.
  2: { unfold_M. cbn. repeat (destruct (_ : bool)); eauto 10. }
  cbv beta iota. generalize (CaptureText (Some mf)). intros contents.
  unfold_M. cbn. rewrite Hmf.
  destruct (Z.eqb_spec load_id (page_id_ (this s))) as [Hid|Hid]; cbn;
    [|eauto 10].
  destruct (load_id =? last_indexed_page_id_ (this s)); [eauto 10|].
  destruct (WebFrame.GetInViewSourceMode mf); [eauto 10|].
  destruct (from_option WebDataSource.HasUnreachableURL false
              (WebFrame.GetDataSource mf)); [eauto 10|].
  destruct preliminary_capture; cbn;
    (destruct (is_empty (WebFrame.GetURL mf)); cbn;
       [destruct s; eauto 10|]);
    (destruct (negb (Nat.eqb (String.length contents) 0))); cbn;
    (destruct (IsEmpty _); cbn; [destruct s; eauto 10|]);
    (destruct (CaptureThumbnail mf kThumbnailWidth kThumbnailHeight)
       as [[thumbnail score]|]; cbn; destruct s; eauto 10).
Qed.

(** X3. A capture records its load as indexed only when it is not
    preliminary, and a load recorded as indexed is never captured again:
    when a non-preliminary [CapturePageInfo] performed any action, every
    later [CapturePageInfo] for the same load returns at once, with the
    state as it was and nothing sent.  A preliminary capture leaves the
    whole view untouched, so the later regular capture still runs. *)
Theorem CapturePageInfo_indexes_a_load_once (webview : option WebView.t)
    (load_id : Z) (s s1 : State) (tr1 : list Action) :
  (CapturePageInfo webview load_id false s = Some (tt, s1, tr1) ->
   tr1 <> [] ->
   last_indexed_page_id_ (this s1) = load_id
   /\ forall webview' preliminary_capture,
        CapturePageInfo webview' load_id preliminary_capture s1
        = Some (tt, s1, []))
  /\ (CapturePageInfo webview load_id true s = Some (tt, s1, tr1) ->
      s1 = s).
Proof.
  split.
  - intros Hrun Htr.
    destruct (CapturePageInfo_cases webview load_id false s)
      as (s1' & tr1' & Hrun' & Hpr & Hcase).
    rewrite Hrun in Hrun'. injection Hrun' as <- <-.
    destruct Hcase as [[_ ->]|[Hid Hv]]; [contradiction|].
    assert (last_indexed_page_id_ (this s1) = load_id) as Hlast.
    { rewrite Hv. cbn. now destruct (this s). }
    split; [exact Hlast|]. intros webview' p.
    unfold CapturePageInfo. unfold_M. cbn.
    destruct (negb (load_id =? page_id_ (this s1))); [reflexivity|].
    now rewrite Hlast, Z.eqb_refl.
  - intros Hrun.
    destruct (CapturePageInfo_cases webview load_id true s)
      as (s1' & tr1' & Hrun' & Hpr & Hcase).
    rewrite Hrun in Hrun'. injection Hrun' as <- <-.
    destruct Hcase as [[-> _]|[_ Hv]]; [reflexivity|].
    destruct s1, s; cbn in *. congruence.
Qed.

End PageCapture.

(** ** Commits *)

Section Commits.
Context `{Declarations}.

Lemma wrap_succ_neq (n : Z) : Int32.in_range n -> Int32.add n 1 <> n.
Proof.
  unfold Int32.add, Int32.wrap, Int32.in_range, Int32.min_value,
    Int32.max_value, Int32.modulus. intros Hn.
  destruct (Z.eq_dec n (2 ^ 31 - 1)) as [->|Hne]; [discriminate|].
  rewrite Z.mod_small by lia. lia.
Qed.

Lemma DidCommitLoadForFrame_posts_capture webview frame s a s' tr :
  DidCommitLoadForFrame webview frame true s = Some (a, s', tr) ->
  PostDelayedTask (Task_CapturePageInfo (next_page_id_ (process s)) true)
    kDelayForForcedCaptureMs ∈ tr.
Proof.
  unfold DidCommitLoadForFrame. intros Hrun.
  apply bind_returns in Hrun as (mf & s1 & t1 & ? & Hmf & Hrun & ->).
  apply bind_returns in Hrun as (mds & s2 & t2 & ? & Hmds & Hrun & ->).
  apply bind_returns in Hrun as (extra & s3 & t3 & ? & Hload & Hrun & ->).
  apply bind_returns in Hrun as ([] & s4 & t4 & ? & Hnew & Hrun & ->).
  assert (keeps_ids s s3) as (_ & Hn3 & _).
  { eapply keeps_ids_trans; [eapply Keeps_deref; exact Hmf|].
    eapply keeps_ids_trans; [eapply Keeps_deref; exact Hmds|].
    eapply Keeps_load_extra_data; exact Hload. }
  apply bind_returns in Hnew as ([] & s31 & t31 & ? & Hush & Hnew & ->).
  apply UpdateSessionHistory_state in Hush as ->.
  revert Hnew. unfold_M. cbn. intros [= <- <-]. cbn.
  rewrite <- Hn3. destruct (this s3); cbn. set_solver.
Qed.

(** X4. The forced capture that a committed new navigation posts is for
    the page ID just assigned, and it is dropped when it comes too late:
    once a further new navigation has committed in the view,
    [CapturePageInfo] for the earlier page ID returns at once, with the
    state as it was and nothing sent. *)
Theorem stale_capture_is_dropped (webview : WebView.t) (frame : WebFrame.t)
    (s s1 : State) (tr1 : list Action) :
  DidCommitLoadForFrame webview frame true s = Some (tt, s1, tr1) ->
  Int32.in_range (next_page_id_ (process s)) ->
  PostDelayedTask (Task_CapturePageInfo (page_id_ (this s1)) true)
    kDelayForForcedCaptureMs ∈ tr1
  /\ forall webview2 frame2 s2 tr2,
       DidCommitLoadForFrame webview2 frame2 true s1 = Some (tt, s2, tr2) ->
       forall webview3 preliminary_capture,
         CapturePageInfo webview3 (page_id_ (this s1)) preliminary_capture s2
         = Some (tt, s2, []).
Proof.
  intros Hrun Hr.
  pose proof (DidCommitLoadForFrame_posts_capture _ _ _ _ _ _ Hrun) as Hpost.
  apply DidCommitLoadForFrame_new_page_id in Hrun as (Hid & Hnext & _).
  rewrite Hid. split; [exact Hpost|].
  intros webview2 frame2 s2 tr2 Hrun2 webview3 p.
  apply DidCommitLoadForFrame_new_page_id in Hrun2 as (Hid2 & _ & _).
  unfold CapturePageInfo. unfold_M. cbn. rewrite Hid2, Hnext.
  destruct (Z.eqb_spec (next_page_id_ (process s))
              (Int32.add (next_page_id_ (process s)) 1)) as [E|_];
    [|reflexivity].
  symmetry in E. now apply wrap_succ_neq in E.
Qed.

Lemma UpdateEncoding_repeat webview frame encoding_name s s1 tr :
  UpdateEncoding webview frame encoding_name s = Some (tt, s1, tr) ->
  (same_frame (WebView.GetMainFrame webview) (Some frame) = true ->
   last_encoding_name_ (this s1) = encoding_name)
  /\ UpdateEncoding webview frame encoding_name s1 = Some (tt, s1, []).
Proof.
  unfold UpdateEncoding. unfold_M. cbn.
  destruct (same_frame (WebView.GetMainFrame webview) (Some frame)); cbn.
  - destruct (String.eqb_spec (last_encoding_name_ (this s)) encoding_name)
      as [E|E]; cbn; intros [= <- <-]; cbn.
    + rewrite E, String.eqb_refl. now split.
    + destruct (this s); cbn. rewrite String.eqb_refl. now split.
  - intros [= <- <-]. now split.
Qed.

(** X5. The browser hears of an encoding once: after [UpdateEncoding] has
    run for a frame and an encoding name, running it again with the same
    arguments changes nothing and sends nothing; for the main frame the
    name is then the remembered [last_encoding_name_]. *)
Theorem UpdateEncoding_reports_once (webview : WebView.t)
    (frame : WebFrame.t) (encoding_name : string) (s s1 : State)
    (tr : list Action) :
  UpdateEncoding webview frame encoding_name s = Some (tt, s1, tr) ->
  (same_frame (WebView.GetMainFrame webview) (Some frame) = true ->
   last_encoding_name_ (this s1) = encoding_name)
  /\ UpdateEncoding webview frame encoding_name s1 = Some (tt, s1, [])
  /\ (sent tr = []
      \/ sent tr = [ViewHostMsg_UpdateEncoding (routing_id_ (this s))
                      encoding_name]).
Proof.
  intros Hrun. destruct (UpdateEncoding_repeat _ _ _ _ _ _ Hrun) as [H1 H2].
  split; [exact H1|]. split; [exact H2|].
  revert Hrun. unfold UpdateEncoding. unfold_M. cbn.
  destruct (_ && _); cbn; intros [= <- <-]; auto.
Qed.

End Commits.

(** ** Navigation reports *)

Section NavigationReports.
Context `{Declarations}.

(** What [UpdateURL] leaves behind, whichever frame it reports. *)
Lemma UpdateURL_result webview frame s a s1 tr :
  UpdateURL webview frame s = Some (a, s1, tr) ->
  exists params,
    tr = [Send (ViewHostMsg_FrameNavigate (routing_id_ (this s)) params)]
    /\ params_page_id params = page_id_ (this s)
    /\ params_gesture params = navigation_gesture_ (this s)
    /\ (same_frame (WebView.GetMainFrame webview) (Some frame) = false ->
        params_transition params
        = if page_id_ (this s) >? last_page_id_sent_to_browser_ (this s)
          then MANUAL_SUBFRAME else AUTO_SUBFRAME)
    /\ (same_frame (WebView.GetMainFrame webview) (Some frame) = true ->
        exists t,
          (params_transition params = t
           \/ params_transition params = Z.lor t CLIENT_REDIRECT)
          /\ (t = LINK \/ t = FORM_SUBMIT \/ IsMainFrame t = true))
    /\ this s1
       = set_last_page_id_sent_to_browser_
           (Z.max (last_page_id_sent_to_browser_ (this s)) (page_id_ (this s)))
           (set_navigation_gesture_ NavigationGestureUnknown (this s)).
Proof.
  unfold UpdateURL. intros Hrun.
  apply bind_returns in Hrun as (ds & s2 & t2 & ? & Hds & Hrun & ->).
  assert (s2 = s /\ t2 = []) as [-> ->].
  { revert Hds. unfold deref. destruct (WebFrame.GetDataSource frame);
      [now intros [= <- <- <-]|discriminate]. }
  apply bind_returns in Hrun as (extra & s3 & t3 & ? & Hload & Hrun & ->).
  assert (s3 = s /\ t3 = []) as [-> ->].
  { revert Hload. unfold load_extra_data. unfold_M.
    destruct (WebRequest.GetExtraData _); cbn;
      [destruct (request_extra_data (process s) !! _); cbn|];
      now intros [= <- <- <-]. }
  revert Hrun. unfold_M. cbn.
  destruct (same_frame (WebView.GetMainFrame webview) (Some frame)); cbn.
  - destruct extra as [[p e]|]; cbn; intros [= <- <- <-]; cbn;
      (eexists; split; [reflexivity|]; cbn;
       split; [reflexivity|]; split; [reflexivity|];
       split; [discriminate|];
       split; [|destruct (this s); reflexivity]); intros _.
    + destruct (IsMainFrame (ExtraData.transition_type e)) eqn:Hm; cbn.
      * destruct ((ExtraData.transition_type e =? LINK)
                  && WebDataSource.IsFormSubmit ds);
          destruct (is_valid (completed_client_redirect_src_ (this s)));
          eexists; split; eauto.
      * destruct ((LINK =? LINK) && WebDataSource.IsFormSubmit ds);
          destruct (is_valid (completed_client_redirect_src_ (this s)));
          eexists; split; eauto.
    + destruct (IsMainFrame LINK) eqn:Hm; cbn;
        destruct ((LINK =? LINK) && WebDataSource.IsFormSubmit ds);
        destruct (is_valid (completed_client_redirect_src_ (this s)));
        eexists; split; eauto.
  - destruct extra as [[p e]|]; cbn; intros [= <- <- <-]; cbn;
      (eexists; split; [reflexivity|]; cbn;
       split; [reflexivity|]; split; [reflexivity|];
       split; [reflexivity|];
       split; [discriminate|destruct (this s); reflexivity]).
Qed.

(** X6. [UpdateURL] remembers that the page ID has been reported: between
    two changes of [page_id_] only the first report of a subframe can be
    MANUAL_SUBFRAME.  After any completed [UpdateURL],
    [last_page_id_sent_to_browser_] is at least [page_id_] and not below
    its old value, and a following [UpdateURL] for a subframe reports
    AUTO_SUBFRAME. *)
Theorem UpdateURL_second_report_is_automatic (webview webview2 : WebView.t)
    (frame frame2 : WebFrame.t) (s s1 s2 : State) (tr1 tr2 : list Action) :
  UpdateURL webview frame s = Some (tt, s1, tr1) ->
  same_frame (WebView.GetMainFrame webview2) (Some frame2) = false ->
  UpdateURL webview2 frame2 s1 = Some (tt, s2, tr2) ->
  page_id_ (this s1) <= last_page_id_sent_to_browser_ (this s1)
  /\ last_page_id_sent_to_browser_ (this s)
     <= last_page_id_sent_to_browser_ (this s1)
  /\ exists params,
       tr2 = [Send (ViewHostMsg_FrameNavigate (routing_id_ (this s1)) params)]
       /\ params_transition params = AUTO_SUBFRAME.
Proof.
  intros Hrun1 Hsub Hrun2.
  apply UpdateURL_result in Hrun1 as (p1 & _ & _ & _ & _ & _ & Hv1).
  apply UpdateURL_result in Hrun2 as (p2 & Htr2 & _ & _ & Ht2 & _ & _).
  assert (page_id_ (this s1) = page_id_ (this s)
          /\ last_page_id_sent_to_browser_ (this s1)
             = Z.max (last_page_id_sent_to_browser_ (this s))
                 (page_id_ (this s))) as [Hp Hl].
  { rewrite Hv1. destruct (this s); split; reflexivity. }
  split; [lia|]. split; [lia|]. exists p2. split; [exact Htr2|].
  rewrite (Ht2 Hsub).
  destruct (Z.gtb_spec (page_id_ (this s1))
              (last_page_id_sent_to_browser_ (this s1))); [lia|reflexivity].
Qed.

(** X7. A commit in the main frame is never reported as a subframe
    navigation.  Provided LINK and FORM_SUBMIT are main-frame transitions
    and the CLIENT_REDIRECT qualifier does not change what [IsMainFrame]
    says, the transition in the FrameNavigate message of a main-frame
    [UpdateURL] satisfies [IsMainFrame], whatever transition the request
    carried. *)
Theorem UpdateURL_main_frame_transition (webview : WebView.t)
    (frame : WebFrame.t) (s s1 : State) (tr : list Action) :
  IsMainFrame LINK = true ->
  IsMainFrame FORM_SUBMIT = true ->
  (forall t, IsMainFrame (Z.lor t CLIENT_REDIRECT) = IsMainFrame t) ->
  same_frame (WebView.GetMainFrame webview) (Some frame) = true ->
  UpdateURL webview frame s = Some (tt, s1, tr) ->
  exists params,
    tr = [Send (ViewHostMsg_FrameNavigate (routing_id_ (this s)) params)]
    /\ IsMainFrame (params_transition params) = true.
Proof.
  intros Hlink Hform Hredirect Hmain Hrun.
  apply UpdateURL_result in Hrun as (p & Htr & _ & _ & _ & Ht & _).
  exists p. split; [exact Htr|].
  destruct (Ht Hmain) as (t & [E|E] & Hcase); rewrite E, ?Hredirect;
    destruct Hcase as [->|[->|Hm]]; assumption.
Qed.

(** X8. The gesture of a navigation is reported once: [UpdateURL] puts the
    pending [navigation_gesture_] in its message and resets it, so the
    next report carries NavigationGestureUnknown. *)
Theorem UpdateURL_consumes_the_gesture (webview webview2 : WebView.t)
    (frame frame2 : WebFrame.t) (s s1 s2 : State) (tr1 tr2 : list Action) :
  UpdateURL webview frame s = Some (tt, s1, tr1) ->
  UpdateURL webview2 frame2 s1 = Some (tt, s2, tr2) ->
  exists params1 params2,
    tr1 = [Send (ViewHostMsg_FrameNavigate (routing_id_ (this s)) params1)]
    /\ tr2 = [Send (ViewHostMsg_FrameNavigate (routing_id_ (this s1)) params2)]
    /\ params_gesture params1 = navigation_gesture_ (this s)
    /\ params_gesture params2 = NavigationGestureUnknown.
Proof.
  intros Hrun1 Hrun2.
  apply UpdateURL_result in Hrun1 as (p1 & Htr1 & _ & Hg1 & _ & _ & Hv1).
  apply UpdateURL_result in Hrun2 as (p2 & Htr2 & _ & Hg2 & _ & _ & _).
  exists p1, p2. repeat split; try assumption.
  rewrite Hg2, Hv1. now destruct (this s).
Qed.

End NavigationReports.

(** ** Session-history commits *)

Section HistoryCommits.
Context `{Declarations}.

Lemma deref_returns {A : Type} (p : option A) s a s1 tr :
  deref p s = Some (a, s1, tr) -> p = Some a /\ s1 = s /\ tr = [].
Proof. destruct p; [now intros [= <- <- <-]|discriminate]. Qed.

Lemma load_extra_data_result p s r s1 tr :
  load_extra_data p s = Some (r, s1, tr) ->
  s1 = s /\ tr = []
  /\ match p with
     | None => r = None
     | Some a =>
         exists e, request_extra_data (process s) !! a = Some e
                   /\ r = Some (a, e)
     end.
Proof.
  unfold load_extra_data. unfold_M. destruct p as [a|]; cbn.
  - destruct (request_extra_data (process s) !! a) as [e|]; cbn;
      [|discriminate]. intros [= <- <- <-]. eauto.
  - now intros [= <- <- <-].
Qed.

(** [UpdateURL] writes to request extra data only to clear a transition
    type. *)
Lemma UpdateURL_extra_data webview frame s x s1 tr a e :
  UpdateURL webview frame s = Some (x, s1, tr) ->
  request_extra_data (process s) !! a = Some e ->
  next_page_id_ (process s1) = next_page_id_ (process s)
  /\ exists e',
       request_extra_data (process s1) !! a = Some e'
       /\ ExtraData.request_committed e' = ExtraData.request_committed e
       /\ ExtraData.pending_page_id_ e' = ExtraData.pending_page_id_ e.
Proof.
  unfold UpdateURL. intros Hrun Ha.
  apply bind_returns in Hrun as (ds & s2 & t2 & ? & Hds & Hrun & ->).
  apply deref_returns in Hds as (_ & -> & ->).
  apply bind_returns in Hrun as (extra & s3 & t3 & ? & Hload & Hrun & ->).
  apply load_extra_data_result in Hload as (-> & -> & Hextra).
  revert Hrun. unfold_M. cbn.
  destruct (WebRequest.GetExtraData (WebDataSource.GetRequest ds)) as [b|].
  - destruct Hextra as (eb & Hb & ->).
    destruct (same_frame _ _); cbn; intros [= <- <- <-]; cbn;
      (split; [reflexivity|]);
      (destruct (decide (b = a)) as [->|Hne];
       [rewrite lookup_insert_eq; rewrite Ha in Hb; injection Hb as <-;
        eexists; split; [reflexivity|]; now destruct e
       |rewrite lookup_insert_ne by exact Hne; eauto]).
  - subst extra.
    destruct (same_frame _ _); cbn; intros [= <- <- <-]; cbn; eauto.
Qed.

(** X9. Session history is updated once per request.  After a commit that
    is not a new navigation, the extra data of the main frame's request is
    marked committed and [next_page_id_] is what it was; a further such
    commit with the same request then leaves [page_id_] alone and sends no
    ViewHostMsg_UpdateState: only the FrameNavigate report and, at most,
    an encoding update. *)
Theorem history_commit_is_processed_once (webview : WebView.t)
    (frame : WebFrame.t) (main_frame : WebFrame.t) (ds : WebDataSource.t)
    (a : ptr) (s s1 : State) (tr1 : list Action) :
  WebView.GetMainFrame webview = Some main_frame ->
  WebFrame.GetDataSource main_frame = Some ds ->
  WebRequest.GetExtraData (WebDataSource.GetRequest ds) = Some a ->
  DidCommitLoadForFrame webview frame false s = Some (tt, s1, tr1) ->
  next_page_id_ (process s1) = next_page_id_ (process s)
  /\ (exists e1,
        request_extra_data (process s1) !! a = Some e1
        /\ ExtraData.request_committed e1 = true)
  /\ forall frame2 s2 tr2,
       DidCommitLoadForFrame webview frame2 false s1 = Some (tt, s2, tr2) ->
       page_id_ (this s2) = page_id_ (this s1)
       /\ exists params,
            sent tr2
            = [ViewHostMsg_FrameNavigate (routing_id_ (this s1)) params]
            \/ sent tr2
               = [ViewHostMsg_FrameNavigate (routing_id_ (this s1)) params;
                  ViewHostMsg_UpdateEncoding (routing_id_ (this s1))
                    (WebView.GetMainFrameEncodingName webview)].
Proof.
  intros Hmf Hds Ha Hrun.
  (* the first commit *)
  unfold DidCommitLoadForFrame in Hrun. rewrite Hmf in Hrun.
  apply bind_returns in Hrun as (? & ? & ? & ? & Hd & Hrun & ->).
  apply deref_returns in Hd as ([= <-] & -> & ->).
  rewrite Hds in Hrun.
  apply bind_returns in Hrun as (? & ? & ? & ? & Hd & Hrun & ->).
  apply deref_returns in Hd as ([= <-] & -> & ->).
  rewrite Ha in Hrun.
  apply bind_returns in Hrun as (extra & s3 & ? & ? & Hload & Hrun & ->).
  apply load_extra_data_result in Hload as (-> & -> & e & He & ->).
  apply bind_returns in Hrun as ([] & s4 & t4 & ? & Hbranch & Hrun & ->).
  assert (process s4 = process s) as Hp4.
  { revert Hbranch. unfold_M. cbn. destruct (_ && _); cbn.
    - destruct (UpdateSessionHistory webview frame s) as [[[[] s'] t']|] eqn:E;
        [|discriminate].
      apply UpdateSessionHistory_state in E as ->. cbn. now intros [= <- <-].
    - now intros [= <- <-]. }
  apply bind_returns in Hrun as ([] & s5 & t5 & ? & Hstore & Hrun & ->).
  assert (next_page_id_ (process s5) = next_page_id_ (process s)
          /\ request_extra_data (process s5) !! a
             = Some (ExtraData.set_request_committed true e)) as [Hn5 H5].
  { revert Hstore. unfold_M. cbn. intros [= <- <-]. cbn. rewrite Hp4.
    split; [reflexivity|]. apply lookup_insert_eq. }
  apply bind_returns in Hrun as ([] & s6 & t6 & ? & Hurl & Hrun & ->).
  destruct (UpdateURL_extra_data _ _ _ _ _ _ _ _ Hurl H5)
    as (Hn6 & e6 & H6 & Hc6 & _).
  apply bind_returns in Hrun as ([] & s7 & t7 & ? & Hclr & Henc & ->).
  assert (process s7 = process s6) as Hp7
    by (revert Hclr; unfold_M; now intros [= <- <-]).
  assert (process s1 = process s7) as Hp1.
  { revert Henc. unfold UpdateEncoding. unfold_M. cbn.
    destruct (same_frame _ _ && _); cbn; now intros [= <- <-]. }
  rewrite Hp1, Hp7. split; [congruence|]. split; [now exists e6|].
  (* the second commit *)
  clear - Hmf Hds Ha H6 Hc6 Hp1 Hp7.
  intros frame2 s2 tr2 Hrun.
  unfold DidCommitLoadForFrame in Hrun. rewrite Hmf in Hrun.
  apply bind_returns in Hrun as (? & ? & ? & ? & Hd & Hrun & ->).
  apply deref_returns in Hd as ([= <-] & -> & ->).
  rewrite Hds in Hrun.
  apply bind_returns in Hrun as (? & ? & ? & ? & Hd & Hrun & ->).
  apply deref_returns in Hd as ([= <-] & -> & ->).
  rewrite Ha in Hrun.
  apply bind_returns in Hrun as (extra & u3 & ? & ? & Hload & Hrun & ->).
  apply load_extra_data_result in Hload as (-> & -> & e2 & He & ->).
  rewrite Hp1, Hp7, H6 in He. injection He as <-.
  apply bind_returns in Hrun as ([] & u4 & t4 & ? & Hbranch & Hrun & ->).
  assert (u4 = s1 /\ t4 = []) as [-> ->].
  { revert Hbranch. unfold_M. cbn. rewrite Hc6. cbn.
    rewrite andb_false_r. cbn. now intros [= <- <-]. }
  apply bind_returns in Hrun as ([] & u5 & t5 & ? & Hstore & Hrun & ->).
  assert (this u5 = this s1 /\ t5 = []) as [Hw5 ->]
    by (revert Hstore; unfold_M; cbn; now intros [= <- <-]).
  apply bind_returns in Hrun as ([] & u6 & t6 & ? & Hurl & Hrun & ->).
  pose proof (UpdateURL_Keeps _ _ _ _ _ _ Hurl) as (Hjd6 & _ & _).
  apply UpdateURL_result in Hurl as (params & -> & _ & _ & _ & _ & Hw6).
  apply bind_returns in Hrun as ([] & u7 & t7 & ? & Hclr & Henc & ->).
  assert (page_id_ (this u7) = page_id_ (this u6)
          /\ routing_id_ (this u7) = routing_id_ (this s1) /\ t7 = [])
    as (Hjd7 & Hr7 & ->).
  { revert Hclr. unfold_M. intros [= <- <-]. cbn. rewrite Hw6, Hw5.
    destruct (this s1); repeat split; reflexivity. }
  pose proof (UpdateEncoding_Keeps _ _ _ _ _ _ _ Henc) as (Hid8 & _ & _).
  split; [congruence|]. exists params. rewrite Hw5. cbn.
  revert Henc. unfold UpdateEncoding. unfold_M. cbn. rewrite Hr7.
  destruct (same_frame _ _ && _); cbn; intros [= <- <-]; cbn; auto.
Qed.

End HistoryCommits.

(** ** Loading state *)

Section Loading.
Context `{Declarations}.

Lemma loading_messages_app tr1 tr2 :
  loading_messages (tr1 ++ tr2) = loading_messages tr1 ++ loading_messages tr2.
Proof.
  induction tr1 as [|a tr1 IH]; [reflexivity|].
  destruct a as [[]| | | |]; cbn; now rewrite ?IH.
Qed.

Lemma alternates_app b l1 l2 :
  alternates b (l1 ++ l2)
  = alternates b l1
    && alternates (if Nat.even (length l1) then b else negb b) l2.
Proof.
  revert b. induction l1 as [|m l1 IH]; intros b; [reflexivity|].
  cbn [alternates app length]. rewrite IH, andb_assoc. do 2 f_equal.
  rewrite Nat.even_succ, <- Nat.negb_even.
  destruct (Nat.even (length l1)); cbn; now rewrite ?negb_involutive.
Qed.

Lemma last_cons_default {A : Type} (l : list A) (b d d' : A) :
  List.last (b :: l) d = List.last (b :: l) d'.
Proof.
  revert b. induction l as [|c l IH]; intros b; [reflexivity|].
  change (List.last (c :: l) d = List.last (c :: l) d'). apply IH.
Qed.

Lemma DidStartLoading_step webview s :
  exists s1 tr,
    DidStartLoading webview s = Some (tt, s1, tr)
    /\ is_loading_ (this s1) = true
    /\ loading_messages tr = if is_loading_ (this s) then [] else [true].
Proof.
  unfold DidStartLoading. unfold_M. cbn.
  destruct (is_loading_ (this s)) eqn:Hl; cbn.
  - eexists _, _. split; [reflexivity|]. now split.
  - eexists _, _. split; [reflexivity|]. cbn. now destruct (this s).
Qed.

Lemma DidStopLoading_step webview main_frame fill_ok s :
  WebView.GetMainFrame webview = Some main_frame ->
  exists s1 tr,
    DidStopLoading webview fill_ok s = Some (tt, s1, tr)
    /\ is_loading_ (this s1) = false
    /\ pending_upload_data_ (this s1)
       = (if is_loading_ (this s) then None else pending_upload_data_ (this s))
    /\ loading_messages tr = if is_loading_ (this s) then [false] else [].
Proof.
  intros Hmf. unfold DidStopLoading, AddGURLSearchProvider,
    ProcessPendingUpload, ResetPendingUpload. unfold_M. cbn. rewrite Hmf.
  destruct (is_loading_ (this s)) eqn:Hl; cbn.
  - destruct (negb (is_empty (WebFrame.GetFavIconURL main_frame)));
      destruct (negb (is_empty (WebFrame.GetOSDDURL main_frame))); cbn;
      destruct (this s); cbn;
      (destruct pending_upload_data_0; cbn; [destruct fill_ok; cbn|]);
      eexists _, _; (split; [reflexivity|]); cbn; now repeat split.
  - eexists _, _. split; [reflexivity|]. now repeat split.
Qed.

(** X10. The browser sees loading start and stop in turns.  Over any
    sequence of [DidStartLoading] and [DidStopLoading] callbacks (on a
    webview with a main frame) all calls return, the DidStartLoading and
    DidStopLoading messages sent alternate, beginning with the one that
    changes the state the view was in, and [is_loading_] ends up telling
    whether the last of them was a start. *)
Theorem loading_messages_alternate (webview : WebView.t)
    (main_frame : WebFrame.t) (cbs : list LoadingCallback) (s : State) :
  WebView.GetMainFrame webview = Some main_frame ->
  exists s1 tr,
    loading_callbacks webview cbs s = Some (tt, s1, tr)
    /\ alternates (negb (is_loading_ (this s))) (loading_messages tr) = true
    /\ is_loading_ (this s1)
       = List.last (loading_messages tr) (is_loading_ (this s)).
Proof.
  intros Hmf. revert s. induction cbs as [|cb cbs IH]; intros s.
  - exists s, []. now repeat split.
  - assert (exists s1 tr,
      loading_callback webview cb s = Some (tt, s1, tr)
      /\ ((is_loading_ (this s1) = is_loading_ (this s)
           /\ loading_messages tr = [])
          \/ (is_loading_ (this s1) = negb (is_loading_ (this s))
              /\ loading_messages tr = [is_loading_ (this s1)])))
      as (s1 & tr1 & Hrun1 & Hcase).
    { destruct cb as [|fill_ok]; cbn.
      - destruct (DidStartLoading_step webview s) as (s1 & tr & Hr & Hl & Hm).
        exists s1, tr. split; [exact Hr|]. rewrite Hl, Hm.
        destruct (is_loading_ (this s)); auto.
      - destruct (DidStopLoading_step webview main_frame fill_ok s Hmf)
          as (s1 & tr & Hr & Hl & _ & Hm).
        exists s1, tr. split; [exact Hr|]. rewrite Hl, Hm.
        destruct (is_loading_ (this s)); auto. }
    destruct (IH s1) as (s2 & tr2 & Hrun2 & Halt & Hlast).
    exists s2, (tr1 ++ tr2). split.
    { cbn [loading_callbacks]. apply bind_returns.
      now exists tt, s1, tr1, tr2. }
    rewrite loading_messages_app.
    destruct Hcase as [[Hl Hm]|[Hl Hm]]; rewrite Hm.
    + cbn [app]. rewrite <- Hl. split; [exact Halt|].
      rewrite Hlast. now rewrite Hl.
    + cbn [app alternates]. rewrite Hl at 1.
      rewrite Bool.eqb_reflx. cbn [andb]. rewrite <- Hl. split; [exact Halt|].
      rewrite Hlast.
      destruct (loading_messages tr2) as [|b l]; [reflexivity|].
      change (List.last (b :: l) (is_loading_ (this s1))
              = List.last (b :: l) (is_loading_ (this s))).
      apply last_cons_default.
Qed.

(** X11. A page that has finished loading has no upload left pending:
    when [DidStopLoading] runs on a loading view whose webview has a main
    frame, it returns with [is_loading_] false and [pending_upload_data_]
    empty, whether or not the pending form could be filled, and its
    DidStopLoading message is the only loading message sent. *)
Theorem DidStopLoading_drops_pending_upload (webview : WebView.t)
    (main_frame : WebFrame.t) (fill_ok : bool) (s : State) :
  WebView.GetMainFrame webview = Some main_frame ->
  is_loading_ (this s) = true ->
  exists s1 tr,
    DidStopLoading webview fill_ok s = Some (tt, s1, tr)
    /\ is_loading_ (this s1) = false
    /\ pending_upload_data_ (this s1) = None
    /\ loading_messages tr = [false]
    /\ (forall data, FillFormToUploadFile data ∈ tr ->
        pending_upload_data_ (this s) = Some data).
Proof.
  intros Hmf Hl.
  destruct (DidStopLoading_step webview main_frame fill_ok s Hmf)
    as (s1 & tr & Hr & Hl1 & Hp & Hm).
  rewrite Hl in Hp, Hm. exists s1, tr. repeat split; try assumption.
  revert Hr. unfold DidStopLoading, AddGURLSearchProvider,
    ProcessPendingUpload, ResetPendingUpload. unfold_M. cbn.
  rewrite Hmf, Hl. cbn.
  destruct (negb (is_empty (WebFrame.GetFavIconURL main_frame)));
    destruct (negb (is_empty (WebFrame.GetOSDDURL main_frame))); cbn;
    destruct (this s); cbn;
    (destruct pending_upload_data_0; cbn; [destruct fill_ok; cbn|]);
    intros [= <- <-] data Hdata;
    repeat (apply elem_of_cons in Hdata as [Hdata|Hdata];
            [try discriminate Hdata;
             try (injection Hdata as ->; reflexivity)|]);
    now apply elem_of_nil in Hdata.
Qed.

End Loading.

(** ** Session-history counters *)

Section HistoryCounters.
Context `{Declarations}.

Lemma GoToEntryAtOffset_run (offset : Z) (s : State) :
  GoToEntryAtOffset offset s
  = Some (tt,
          mkState (process s)
            (set_history_forward_list_count_
               (Int32.sub (history_forward_list_count_ (this s)) offset)
               (set_history_back_list_count_
                  (Int32.add (history_back_list_count_ (this s)) offset)
                  (this s))),
          [Send (ViewHostMsg_GoToEntryAtOffset (routing_id_ (this s)) offset)]).
Proof. destruct s as [pr v]. now destruct v. Qed.

(** X12. Steps through the session history add up: going by [a] and then
    by [b] leaves the two counters where going by [a + b] at once leaves
    them (two messages are sent instead of one).  So going back by the
    same number of entries undoes a step forward, for counters within the
    int range. *)
Theorem GoToEntryAtOffset_steps_add_up (a b : Z) (s : State) :
  exists s2 s2',
    (GoToEntryAtOffset a;; GoToEntryAtOffset b) s
      = Some (tt, s2,
              [Send (ViewHostMsg_GoToEntryAtOffset (routing_id_ (this s)) a);
               Send (ViewHostMsg_GoToEntryAtOffset (routing_id_ (this s)) b)])
    /\ GoToEntryAtOffset (a + b) s
       = Some (tt, s2',
               [Send (ViewHostMsg_GoToEntryAtOffset (routing_id_ (this s))
                        (a + b))])
    /\ history_back_list_count_ (this s2)
       = history_back_list_count_ (this s2')
    /\ history_forward_list_count_ (this s2)
       = history_forward_list_count_ (this s2')
    /\ (a + b = 0 ->
        Int32.in_range (history_back_list_count_ (this s)) ->
        Int32.in_range (history_forward_list_count_ (this s)) ->
        s2 = s).
Proof.
  destruct s as [pr v]. destruct v.
  eexists _, _. split; [reflexivity|]. split; [reflexivity|].
  cbn -[Int32.add Int32.sub].
  unfold Int32.add, Int32.sub.
  assert (forall x, Int32.wrap (Int32.wrap (x + a) + b) = Int32.wrap (x + (a + b)))
    as Hadd.
  { intros x. rewrite Int32Facts.wrap_add_wrap_l. f_equal. lia. }
  assert (forall x, Int32.wrap (Int32.wrap (x - a) - b) = Int32.wrap (x - (a + b)))
    as Hsub.
  { intros x. replace (Int32.wrap (x - a) - b)
      with (Int32.wrap (x - a) + - b) by lia.
    rewrite Int32Facts.wrap_add_wrap_l. f_equal. lia. }
  rewrite Hadd, Hsub. split; [reflexivity|]. split; [reflexivity|].
  intros -> Hb Hf. rewrite Z.add_0_r, Z.sub_0_r.
  now rewrite !Int32Facts.wrap_id.
Qed.

End HistoryCounters.

(** ** Popup accounting *)

Section Popups.
Context `{Declarations}.

Lemma CreateWebView_creates (webview : WebView.t) (user_gesture : bool)
    (reply_routing_id data : Z) (s : State) :
  popup_counters (process s) !! shared_popup_counter_ (this s) = Some data ->
  Int32.min_value <= data <= 25 ->
  reply_routing_id <> MSG_ROUTING_NONE ->
  exists view,
    CreateWebView webview user_gesture reply_routing_id s
    = Some (Some view,
            mkState
              (set_popup_counters
                 (<[shared_popup_counter_ (this s) := data + 1]>
                    (popup_counters (process s))) (process s))
              (set_popup_notification_visible_ true (this s)),
            [Send (ViewHostMsg_CreateWindow (routing_id_ (this s))
                     user_gesture);
             AddRoute reply_routing_id])
    /\ shared_popup_counter_ view = shared_popup_counter_ (this s)
    /\ decrement_shared_popup_at_destruction_ view = true
    /\ opener_id_ view = routing_id_ (this s)
    /\ routing_id_ view = reply_routing_id
    /\ opened_by_user_gesture_ view = user_gesture.
Proof.
  intros Hd Hrange Hreply. destruct s as [pr v]. destruct v.
  cbn in Hd |- *.
  unfold CreateWebView, Create, on_object, Init, add_to_counter. unfold_M.
  cbn. rewrite Hd. cbn.
  unfold kMaximumNumberOfUnacknowledgedPopups.
  destruct (Z.gtb_spec data 25) as [|_]; [lia|].
  destruct (Z.eqb_spec reply_routing_id MSG_ROUTING_NONE) as [|_];
    [contradiction|].
  destruct (Z.eqb_spec routing_id_0 MSG_ROUTING_NONE) as [->|_]; cbn;
    rewrite Hd; cbn;
    (rewrite Int32Facts.add_small
       by (unfold Int32.in_range, Int32.min_value, Int32.max_value in *; lia));
    (eexists; split; [reflexivity|]; now repeat split).
Qed.

Lemma CreateWebView_blocked (webview : WebView.t) (user_gesture : bool)
    (reply_routing_id data : Z) (s : State) :
  popup_counters (process s) !! shared_popup_counter_ (this s) = Some data ->
  25 < data ->
  CreateWebView webview user_gesture reply_routing_id s = Some (None, s, []).
Proof.
  intros Hd Hgt. unfold CreateWebView. unfold_M. cbn. rewrite Hd. cbn.
  unfold kMaximumNumberOfUnacknowledgedPopups.
  destruct (Z.gtb_spec data 25); [reflexivity|lia].
Qed.

(** X13. At most 26 views can hang on one popup counter.  When a view
    whose shared counter stands at [data] (between 0 and 26) asks for
    popups one after the other and the browser grants each request a
    routing ID, the first [26 - data] requests create a view, each sharing
    the opener's counter and raising it by one, and all later requests
    return NULL. *)
Theorem popup_count_is_bounded (webview : WebView.t)
    (requests : list (bool * Z)) :
  Forall (fun r => snd r <> MSG_ROUTING_NONE) requests ->
  forall (s : State) (data : Z),
    popup_counters (process s) !! shared_popup_counter_ (this s) = Some data ->
    0 <= data <= 26 ->
    exists views s1 tr,
      CreateWebView_each webview requests s = Some (views, s1, tr)
      /\ length views = length requests
      /\ Z.of_nat (length (created views))
         = Z.min (Z.of_nat (length requests)) (26 - data)
      /\ Forall (fun v =>
                   shared_popup_counter_ v = shared_popup_counter_ (this s))
           (created views)
      /\ shared_popup_counter_ (this s1) = shared_popup_counter_ (this s)
      /\ popup_counters (process s1) !! shared_popup_counter_ (this s)
         = Some (data + Z.of_nat (length (created views))).
Proof.
  intros Hreq. induction Hreq as [|[ug reply] requests Hr _ IH];
    intros s data Hd Hrange.
  - exists [], s, []. cbn. repeat split; try constructor; try lia.
    now rewrite Z.add_0_r.
  - cbn in Hr. cbn [CreateWebView_each].
    destruct (Z.le_gt_cases data 25) as [Hle|Hgt].
    + destruct (CreateWebView_creates webview ug reply data s Hd)
        as (view & Hrun & Hshare & _); [unfold Int32.min_value; lia|exact Hr|].
      set (s' := mkState _ _) in Hrun.
      assert (shared_popup_counter_ (this s') = shared_popup_counter_ (this s))
        as Hc by (unfold s'; cbn; now destruct (this s)).
      destruct (IH s' (data + 1)) as (views & s1 & tr & Hrest & Hlen & Hn & Hall
                                      & Hc1 & Hd1).
      { rewrite Hc. unfold s'. cbn. apply lookup_insert_eq. }
      { lia. }
      eexists (Some view :: views), s1, _. split.
      { apply bind_returns. eexists _, _, _, _. split; [exact Hrun|].
        split; [|reflexivity]. apply bind_returns. eexists _, _, _, _.
        split; [exact Hrest|]. split; reflexivity. }
      rewrite Hc in *.
      change (created (Some view :: views)) with (view :: created views).
      cbn [length].
      split; [now rewrite Hlen|]. split; [lia|].
      split; [constructor; assumption|]. split; [exact Hc1|].
      rewrite Hd1. f_equal. lia.
    + destruct (IH s data Hd Hrange) as (views & s1 & tr & Hrest & Hlen & Hn
                                         & Hall & Hc1 & Hd1).
      eexists (None :: views), s1, _. split.
      { apply bind_returns. eexists _, _, _, _.
        split; [apply (CreateWebView_blocked _ _ _ data); [exact Hd|lia]|].
        split; [|reflexivity]. apply bind_returns. eexists _, _, _, _.
        split; [exact Hrest|]. split; reflexivity. }
      change (created (None :: views)) with (created views). cbn [length].
      split; [now rewrite Hlen|]. split; [lia|]. now repeat split.
Qed.

End Popups.

Section PopupLifetime.
Context `{Declarations}.

(** X14. Creating a popup and destroying it again leaves the popup count
    where it was: the new view raised the opener's shared counter by one
    and its destructor lowers it by one, so the process state is the one
    before the popup was asked for. *)
Theorem popup_destruction_restores_the_count (webview : WebView.t)
    (user_gesture : bool) (reply_routing_id data : Z) (s : State) :
  popup_counters (process s) !! shared_popup_counter_ (this s) = Some data ->
  Int32.min_value <= data <= 25 ->
  reply_routing_id <> MSG_ROUTING_NONE ->
  exists view s1 tr1 s2,
    CreateWebView webview user_gesture reply_routing_id s
      = Some (Some view, s1, tr1)
    /\ popup_counters (process s1) !! shared_popup_counter_ (this s)
       = Some (data + 1)
    /\ on_object view RenderView_destroy s1 = Some ((tt, view), s2, [])
    /\ process s2 = process s
    /\ this s2 = this s1.
Proof.
  intros Hd Hrange Hreply.
  destruct (CreateWebView_creates webview user_gesture reply_routing_id data s
              Hd Hrange Hreply) as (view & Hrun & Hshare & Hdec & _).
  eexists view, _, _, _. split; [exact Hrun|]. cbn.
  split; [apply lookup_insert_eq|].
  unfold on_object, RenderView_destroy, add_to_counter. unfold_M. cbn.
  rewrite Hdec, Hshare. cbn. rewrite lookup_insert_eq. cbn.
  split; [reflexivity|]. split; [|reflexivity]. cbn.
  rewrite insert_insert_eq.
  rewrite Int32Facts.add_small
    by (unfold Int32.in_range, Int32.min_value, Int32.max_value in *; lia).
  replace (data + 1 + -1) with data by lia.
  rewrite insert_id by exact Hd. now destruct (process s).
Qed.

(** X15. A view taken out of the popup count starts a count of its own.
    [OnDisassociateFromPopupCount] gives the view a new counter at 0 that no
    other view points to, lowers the old counter by one if the view was
    counted there, and the view will not lower any counter at destruction.
    However full the old counter was, the view's next [CreateWebView] is
    not stopped by the popup limit: it asks the browser for a window. *)
Theorem disassociated_view_counts_afresh (s : State) (data : Z) :
  popup_counters (process s) !! shared_popup_counter_ (this s) = Some data ->
  exists s1,
    OnDisassociateFromPopupCount s = Some (tt, s1, [])
    /\ (shared_popup_counter_ (this s1) ∉ dom (popup_counters (process s)))
    /\ popup_counters (process s1) !! shared_popup_counter_ (this s1) = Some 0
    /\ popup_counters (process s1) !! shared_popup_counter_ (this s)
       = Some (if decrement_shared_popup_at_destruction_ (this s)
               then Int32.add data (-1) else data)
    /\ decrement_shared_popup_at_destruction_ (this s1) = false
    /\ forall webview user_gesture reply_routing_id,
         exists result s2 tr,
           CreateWebView webview user_gesture reply_routing_id s1
           = Some (result, s2,
                   Send (ViewHostMsg_CreateWindow (routing_id_ (this s1))
                           user_gesture) :: tr).
Proof.
  intros Hd. destruct s as [pr v]. destruct v. cbn in Hd.
  unfold OnDisassociateFromPopupCount, add_to_counter,
    new_SharedRenderViewCounter. unfold_M. cbn.
  destruct decrement_shared_popup_at_destruction_0; cbn; rewrite ?Hd; cbn.
  - set (m := <[shared_popup_counter_0 := Int32.add data (-1)]>
                (popup_counters pr)).
    pose proof (is_fresh (dom m)) as Hfresh.
    assert (fresh (dom m) <> shared_popup_counter_0) as Hne.
    { intros E. apply Hfresh. rewrite E. unfold m. rewrite dom_insert_L.
      set_solver. }
    eexists. split; [reflexivity|]. cbn. fold m.
    split.
    { intros Hin. apply Hfresh. unfold m. rewrite dom_insert_L. set_solver. }
    split; [apply lookup_insert_eq|].
    split.
    { rewrite lookup_insert_ne by exact Hne. apply lookup_insert_eq. }
    split; [reflexivity|].
    intros webview user_gesture reply.
    unfold CreateWebView, Create, on_object, Init, add_to_counter. unfold_M.
    cbn. rewrite lookup_insert_eq. cbn.
    destruct (reply =? MSG_ROUTING_NONE); cbn; [eauto|].
    destruct (negb (routing_id_0 =? MSG_ROUTING_NONE)); cbn;
      rewrite lookup_insert_eq; cbn;
      destruct (routing_id_0 =? MSG_ROUTING_NONE); cbn; eauto.
  - set (m := popup_counters pr).
    pose proof (is_fresh (dom m)) as Hfresh.
    assert (fresh (dom m) <> shared_popup_counter_0) as Hne.
    { intros E. apply Hfresh. rewrite E.
      apply (elem_of_dom_2 (D:=gset ptr)) in Hd. exact Hd. }
    eexists. split; [reflexivity|]. cbn. fold m.
    split; [exact Hfresh|].
    split; [apply lookup_insert_eq|].
    split; [now rewrite lookup_insert_ne by exact Hne|].
    split; [reflexivity|].
    intros webview user_gesture reply.
    unfold CreateWebView, Create, on_object, Init, add_to_counter. unfold_M.
    cbn. rewrite lookup_insert_eq. cbn.
    destruct (reply =? MSG_ROUTING_NONE); cbn; [eauto|].
    destruct (negb (routing_id_0 =? MSG_ROUTING_NONE)); cbn;
      rewrite lookup_insert_eq; cbn;
      destruct (routing_id_0 =? MSG_ROUTING_NONE); cbn; eauto.
Qed.

End PopupLifetime.

(* ================================================================== *)
(** * Properties of the further methods *)

Ltac unfold_V :=
  unfold lift, get_members, modify_members, perform, post,
    mbind, V_bind, mret, V_ret in *.

Lemma V_bind_returns {A B : Type} (m : V A) (k : A -> V B) w b w2 tr :
  (m ≫= k) w = Some (b, w2, tr) <->
  exists a w1 t1 t2,
    m w = Some (a, w1, t1) /\ k a w1 = Some (b, w2, t2) /\ tr = t1 ++ t2.
Proof.
  unfold mbind, V_bind. split.
  - destruct (m w) as [[[a w1] t1]|]; [|discriminate].
    destruct (k a w1) as [[[b' w2'] t2]|] eqn:Hk; [|discriminate].
    intros [= <- <- <-]. now exists a, w1, t1, t2.
  - intros (a & w1 & t1 & t2 & -> & -> & ->). reflexivity.
Qed.

Lemma lift_returns {A : Type} (m : M A) w a w1 tr :
  lift m w = Some (a, w1, tr) <->
  exists s t,
    m (core w) = Some (a, s, t)
    /\ w1 = mkView s (members w) (message_id_counter w)
    /\ tr = map Did t.
Proof.
  unfold lift. split.
  - destruct (m (core w)) as [[[a' s] t]|]; [|discriminate].
    intros [= <- <- <-]. now exists s, t.
  - intros (s & t & -> & -> & ->). reflexivity.
Qed.

Lemma posted_app tr1 tr2 : posted (tr1 ++ tr2) = posted tr1 ++ posted tr2.
Proof.
  induction tr1 as [|e tr1 IH]; [reflexivity|].
  destruct e; simpl; now rewrite ?IH.
Qed.

Lemma View_eta w : mkView (core w) (members w) (message_id_counter w) = w.
Proof. now destruct w. Qed.

Lemma State_eta s : mkState (process s) (this s) = s.
Proof. now destruct s. Qed.

Section NavigationPolicy.
Context `{Declarations} `{Externals}.

(** X16. [DispositionForNavigationAction] always returns, and it either
    lets the navigation through untouched (the given disposition comes
    back, nothing is sent and the view is as it was) or hands it to the
    browser and returns IGNORE_ACTION.  Only a navigation aimed at the
    current tab whose request the view did not issue itself is handed
    over, and then by exactly one message: an OpenURL for the request's
    URL with an empty referrer, or the GoToEntryAtOffset of a history URL
    of the main frame, with the offset its file name spells. *)
Theorem navigation_is_diverted_only_when_unsolicited (webview : WebView.t)
    (frame : WebFrame.t) (links : FrameLinks) (request : WebRequest.t)
    (type disposition : Z) (is_redirect : bool) (w : View) :
  exists result w1 tr,
    DispositionForNavigationAction webview frame links request type
      disposition is_redirect w = Some (result, w1, tr)
    /\ ((result = disposition /\ w1 = w /\ tr = [])
        \/ (result = IGNORE_ACTION
            /\ disposition = CURRENT_TAB
            /\ WebRequest.GetExtraData request = None
            /\ ((w1 = w
                 /\ tr = [Post (ViewHostMsg_OpenURL
                                  (routing_id_ (this (core w)))
                                  (WebRequest.GetURL request) GURL_empty
                                  CURRENT_TAB)])
                \/ (exists offset,
                      same_frame (Some frame) (WebView.GetMainFrame webview)
                      = true
                      /\ SchemeIs (WebRequest.GetURL request)
                           kBackForwardNavigationScheme = true
                      /\ StringToInt
                           (ExtractFileName (WebRequest.GetURL request))
                         = Some offset
                      /\ lift (GoToEntryAtOffset offset) w
                         = Some (tt, w1, tr)
                      /\ posted tr = [])))).
Proof.
  destruct w as [[pr v] m c].
  unfold DispositionForNavigationAction, OpenURL.
  destruct (Z.eqb_spec disposition CURRENT_TAB) as [->|Hd];
    destruct (WebRequest.GetExtraData request) as [a|] eqn:Hextra;
    destruct (SchemeIs (WebRequest.GetURL request) kAboutScheme);
    destruct (same_frame (Some frame) (WebView.GetMainFrame webview))
      eqn:Hmain;
    destruct (SchemeIs (WebRequest.GetURL request)
                kBackForwardNavigationScheme) eqn:Hhist;
    destruct (StringToInt (ExtractFileName (WebRequest.GetURL request)))
      as [offset|] eqn:Hint;
    unfold GetHistoryBackListCount, GetHistoryForwardListCount;
    unfold_V; unfold_M; cbn -[GoToEntryAtOffset];
    rewrite ?andb_false_r; cbn -[GoToEntryAtOffset];
    repeat match goal with
           | |- context [if ?b then _ else _] =>
               destruct b; cbn -[GoToEntryAtOffset]
           end;
    try (eexists _, _, _; (split; [reflexivity|]); auto 8; fail).
  unfold GoToEntryAtOffset. unfold_M. cbn.
  eexists _, _, _. split; [reflexivity|]. right.
  repeat (split; [reflexivity|]). right. exists offset.
  repeat (split; [reflexivity|]). reflexivity.
Qed.

End NavigationPolicy.

Section Showing.
Context `{Declarations} `{Externals}.

Lemma Show_run (disposition : Z) (w : View) :
  Show disposition w
  = Some (tt,
          (if did_show_ (this (core w)) then w
           else mkView
                  (mkState (process (core w))
                     (set_did_show_ true (this (core w))))
                  (members w) (message_id_counter w)),
          (if did_show_ (this (core w)) then []
           else [Post (ViewHostMsg_ShowView (opener_id_ (this (core w)))
                         (routing_id_ (this (core w))) disposition
                         (initial_pos_ (members w))
                         (disable_popup_blocking_ (members w)
                          || opened_by_user_gesture_ (this (core w))))])).
Proof.
  destruct w as [[pr v] m c]. unfold Show, WasOpenedByUserGestureHelper.
  unfold_V. unfold_M. cbn.
  destruct (did_show_ v) eqn:Hshown; [reflexivity|]. cbn.
  destruct (disable_popup_blocking_ m); cbn; [reflexivity|].
  now destruct v.
Qed.

(** X17. A view is shown at most once.  Over any sequence of [Show] calls
    only the first one can send a ShowView message, and only when the view
    has not been shown before; the message carries the view's opener and
    routing IDs, the disposition of that call and, as the gesture flag,
    whether popup blocking is disabled or the view was opened by a user
    gesture.  Afterwards [did_show_] is set. *)
Theorem view_is_shown_once (dispositions : list Z) (w : View) :
  exists w1 tr,
    Show_each dispositions w = Some (tt, w1, tr)
    /\ posted tr
       = match dispositions with
         | [] => []
         | disposition :: _ =>
             if did_show_ (this (core w)) then []
             else [ViewHostMsg_ShowView (opener_id_ (this (core w)))
                     (routing_id_ (this (core w))) disposition
                     (initial_pos_ (members w))
                     (disable_popup_blocking_ (members w)
                      || opened_by_user_gesture_ (this (core w)))]
         end
    /\ (dispositions <> [] -> did_show_ (this (core w1)) = true)
    /\ members w1 = members w.
Proof.
  assert (forall ds w0,
            did_show_ (this (core w0)) = true ->
            Show_each ds w0 = Some (tt, w0, [])) as Hshown.
  { induction ds as [|d ds IH]; intros w0 Hw0; [reflexivity|].
    cbn. unfold mbind, V_bind. rewrite Show_run, Hw0, (IH w0 Hw0).
    reflexivity. }
  destruct dispositions as [|d ds].
  - exists w, []. repeat split. intros []. reflexivity.
  - cbn. unfold mbind, V_bind. rewrite Show_run.
    destruct (did_show_ (this (core w))) eqn:Hw.
    + rewrite (Hshown ds w Hw). exists w, []. repeat split. now intros _.
    + rewrite Hshown by (cbn; now destruct (this (core w))).
      eexists _, _. split; [reflexivity|]. repeat split.
      intros _. cbn. now destruct (this (core w)).
Qed.

Lemma CreateWebView_new_view (webview : WebView.t) (user_gesture : bool)
    (reply_routing_id : Z) (s s1 : State) (view : RenderView)
    (tr : list Action) :
  CreateWebView webview user_gesture reply_routing_id s
  = Some (Some view, s1, tr) ->
  routing_id_ (this s) <> MSG_ROUTING_NONE ->
  did_show_ view = false
  /\ opener_id_ view = routing_id_ (this s)
  /\ routing_id_ view = reply_routing_id
  /\ opened_by_user_gesture_ view = user_gesture.
Proof.
  destruct s as [pr v]. cbn.
  unfold CreateWebView, Create, on_object, Init, add_to_counter. unfold_M.
  cbn. intros Hrun Hid.
  destruct (popup_counters pr !! shared_popup_counter_ v) as [data|] eqn:Hd;
    cbn in Hrun; [|discriminate].
  destruct (data >? kMaximumNumberOfUnacknowledgedPopups); [discriminate|].
  cbn in Hrun.
  destruct (reply_routing_id =? MSG_ROUTING_NONE); [discriminate|].
  destruct (Z.eqb_spec (routing_id_ v) MSG_ROUTING_NONE) as [|_];
    [contradiction|].
  cbn in Hrun. rewrite Hd in Hrun. cbn in Hrun.
  injection Hrun as <- _ _. now repeat split.
Qed.

(** X18. A popup is shown under its opener.  When [CreateWebView] of a
    view with a routing ID has made a new view, the first [Show] on the new
    view sends one ShowView message that names the creating view as opener
    and the routing ID the browser granted, and whose gesture flag is the
    one given to [CreateWebView] unless popup blocking is disabled for the
    new view. *)
Theorem popup_is_shown_under_its_opener (webview : WebView.t)
    (user_gesture : bool) (reply_routing_id disposition : Z) (s s1 : State)
    (view : RenderView) (tr : list Action) (m : Members) (counter : Z) :
  CreateWebView webview user_gesture reply_routing_id s
  = Some (Some view, s1, tr) ->
  routing_id_ (this s) <> MSG_ROUTING_NONE ->
  exists w1,
    Show disposition (mkView (mkState (process s1) view) m counter)
    = Some (tt, w1,
            [Post (ViewHostMsg_ShowView (routing_id_ (this s))
                     reply_routing_id disposition (initial_pos_ m)
                     (disable_popup_blocking_ m || user_gesture))])
    /\ did_show_ (this (core w1)) = true.
Proof.
  intros Hrun Hid.
  destruct (CreateWebView_new_view _ _ _ _ _ _ _ Hrun Hid)
    as (Hshown & Hopener & Hrouting & Hgesture).
  rewrite Show_run. cbn. rewrite Hshown, Hopener, Hrouting, Hgesture.
  eexists. split; [reflexivity|]. cbn. now destruct view.
Qed.

(** X19. A view does not close while its popup notification may be
    showing.  Once [CreateWebView] has asked the browser for a window,
    [CloseWidgetSoon] does nothing, whatever the browser answered, until
    [OnPopupNotificationVisiblityChanged] reports the notification gone;
    from then on it closes the widget. *)
Theorem popup_notification_defers_closing (webview : WebView.t)
    (user_gesture : bool) (reply_routing_id : Z) (w w1 : View)
    (result : option RenderView) (tr : list Effect) :
  lift (CreateWebView webview user_gesture reply_routing_id) w
  = Some (result, w1, tr) ->
  tr <> [] ->
  CloseWidgetSoon w1 = Some (tt, w1, [])
  /\ exists w2,
       OnPopupNotificationVisiblityChanged false w1 = Some (tt, w2, [])
       /\ CloseWidgetSoon w2 = Some (tt, w2, [RenderWidget_CloseWidgetSoon]).
Proof.
  intros Hrun Htr.
  assert (popup_notification_visible_ (this (core w1)) = true) as Hvisible.
  { apply lift_returns in Hrun as (s1 & t & Hrun & -> & ->). cbn.
    destruct w as [[pr v] m c]. cbn in Hrun. revert Hrun.
    unfold CreateWebView, Create, on_object. unfold_M. cbn.
    destruct (popup_counters pr !! shared_popup_counter_ v) as [data|];
      cbn; [|discriminate].
    destruct (data >? kMaximumNumberOfUnacknowledgedPopups).
    { intros [= <- <- <-]. now contradiction Htr. }
    cbn. destruct (reply_routing_id =? MSG_ROUTING_NONE).
    { intros [= <- <- <-]. cbn. now destruct v. }
    destruct (Init _ _ _ _) as [[[[] s'] t']|]; cbn; [|discriminate].
    intros [= <- <- <-]. cbn. now destruct v. }
  destruct w1 as [[pr1 v1] m1 c1]. cbn in Hvisible.
  unfold CloseWidgetSoon, OnPopupNotificationVisiblityChanged.
  unfold_V. unfold_M. cbn. rewrite Hvisible. cbn. split; [reflexivity|].
  eexists. split; [reflexivity|]. cbn.
  now destruct v1.
Qed.

End Showing.

Section Plugins.
Context `{Declarations} `{Externals}.

Lemma plugin_events_with_first_plugin (es : list PluginEvent) (w : View)
    (delegate : ptr) :
  first_default_plugin_ (this (core w)) = Some delegate ->
  exists tr k,
    plugin_events es w = Some (tt, w, tr)
    /\ statuses tr = replicate k MISSING_PLUGIN_USER_STARTED_DOWNLOAD
    /\ Forall (fun d => d = delegate) (installs tr).
Proof.
  intros Hfirst. induction es as [|e es (tr & k & IH & Hst & Hin)].
  - exists [], 0%nat. repeat split. constructor.
  - cbn. unfold mbind, V_bind.
    assert (exists t,
              plugin_event e w = Some (tt, w, t)
              /\ (statuses t = []
                  \/ statuses t = [MISSING_PLUGIN_USER_STARTED_DOWNLOAD])
              /\ Forall (fun d => d = delegate) (installs t))
      as (t & -> & Ht & Hi).
    { destruct w as [[pr v] m c]. cbn in Hfirst.
      destruct e as [d status|]; cbn;
        unfold OnMissingPluginStatus, OnInstallMissingPlugin;
        unfold_V; unfold_M; cbn; rewrite Hfirst; cbn.
      - destruct (Z.eqb_spec status MISSING_PLUGIN_USER_STARTED_DOWNLOAD)
          as [->|_]; cbn; eexists; (split; [reflexivity|]); cbn;
          (split; [auto|constructor]).
      - eexists. split; [reflexivity|]. cbn. split; [auto|].
        repeat constructor. }
    rewrite IH. exists (t ++ tr).
    unfold statuses, installs in *. rewrite !bind_app.
    destruct Ht as [Ht|Ht]; rewrite Ht, Hst.
    + exists k. repeat split. apply Forall_app. now split.
    + exists (S k). repeat split. apply Forall_app. now split.
Qed.

(** X20. While a page is loaded the browser hears of one missing plugin
    only, and installs that one.  Starting with no default plugin (as
    [DidStartLoading] leaves the view), over any sequence of plugin status
    reports and install requests: the view remembers the first plugin that
    reported itself available; the statuses it sent are one
    MISSING_PLUGIN_AVAILABLE, if a plugin was available, followed only by
    MISSING_PLUGIN_USER_STARTED_DOWNLOAD; and every install request that
    did anything went to that first plugin. *)
Theorem first_available_plugin_is_the_one_installed (es : list PluginEvent)
    (w : View) :
  first_default_plugin_ (this (core w)) = None ->
  exists w1 tr k,
    plugin_events es w = Some (tt, w1, tr)
    /\ first_default_plugin_ (this (core w1)) = first_available es
    /\ members w1 = members w
    /\ statuses tr
       = match first_available es with
         | Some _ => [MISSING_PLUGIN_AVAILABLE]
         | None => []
         end ++ replicate k MISSING_PLUGIN_USER_STARTED_DOWNLOAD
    /\ Forall (fun d => first_available es = Some d) (installs tr).
Proof.
  intros Hfirst. induction es as [|e es IH].
  - exists w, [], 0%nat. cbn. repeat split; [assumption|constructor].
  - cbn. unfold mbind, V_bind. destruct e as [d status|]; cbn.
    + destruct (Z.eqb_spec status MISSING_PLUGIN_AVAILABLE) as [->|Hst].
      * (* the first available plugin *)
        destruct w as [[pr v] m c]. cbn in Hfirst.
        unfold OnMissingPluginStatus. unfold_V. unfold_M. cbn.
        rewrite Hfirst. cbn. rewrite Z.eqb_refl. cbn.
        edestruct (plugin_events_with_first_plugin es) as (tr & k & -> & Hs & Hi);
          [|eexists _, _, k; split; [reflexivity|]].
        { cbn. destruct v; reflexivity. }
        cbn. split; [now destruct v|]. split; [reflexivity|].
        unfold statuses, installs in *. cbn. rewrite Hs. split; [reflexivity|].
        eapply Forall_impl; [exact Hi|]. now intros ? ->.
      * destruct IH as (w1 & tr & k & IH & Hf & Hm & Hs & Hi).
        assert (OnMissingPluginStatus (Some d) status w = Some (tt, w, []))
          as ->.
        { destruct w as [[pr v] m c]. cbn in Hfirst.
          unfold OnMissingPluginStatus. unfold_V. unfold_M. cbn.
          rewrite Hfirst. cbn.
          destruct (Z.eqb_spec status MISSING_PLUGIN_AVAILABLE);
            [contradiction|reflexivity]. }
        rewrite IH. now exists w1, tr, k.
    + destruct IH as (w1 & tr & k & IH & Hf & Hm & Hs & Hi).
      assert (OnInstallMissingPlugin w = Some (tt, w, [])) as ->.
      { destruct w as [[pr v] m c]. cbn in Hfirst.
        unfold OnInstallMissingPlugin. unfold_V. unfold_M. cbn.
        now rewrite Hfirst. }
      rewrite IH. now exists w1, tr, k.
Qed.

End Plugins.

Section Autofill.
Context `{Declarations} `{Externals}.

Lemma Int32_succ_neq (z : Z) : Int32.add z 1 <> z.
Proof.
  unfold Int32.add, Int32.wrap, Int32.modulus, Int32.min_value.
  intros Heq.
  pose proof (Z.mod_pos_bound (z + 1 - - 2 ^ 31) (2 ^ 32) ltac:(lia)) as Hb.
  pose proof (Z.div_mod (z + 1 - - 2 ^ 31) (2 ^ 32) ltac:(lia)) as Hdm.
  lia.
Qed.

(** X21. Only the latest autofill query is answered.  Two queries in a row
    get different request IDs (the second is the first plus one, in int
    arithmetic); once the second is out, suggestions that come back for
    the first are dropped and suggestions for the second are handed to
    the WebView.  Without a WebView nothing is handed on. *)
Theorem only_the_latest_autofill_query_is_answered (webview : WebView.t)
    (field1 text1 field2 text2 : string) (node1 node2 : Z) (w : View) :
  exists w1 w2 id1 id2,
    QueryFormFieldAutofill field1 text1 node1 w
    = Some (tt, w1,
            [Post (ViewHostMsg_QueryFormFieldAutofill
                     (routing_id_ (this (core w))) field1 text1 node1 id1)])
    /\ QueryFormFieldAutofill field2 text2 node2 w1
       = Some (tt, w2,
               [Post (ViewHostMsg_QueryFormFieldAutofill
                        (routing_id_ (this (core w))) field2 text2 node2
                        id2)])
    /\ id1 = message_id_counter w
    /\ id2 = Int32.add id1 1
    /\ id1 <> id2
    /\ forall node suggestions index,
         OnReceivedAutofillSuggestions (Some webview) node id1 suggestions
           index w2 = Some (tt, w2, [])
         /\ OnReceivedAutofillSuggestions (Some webview) node id2 suggestions
              index w2
            = Some (tt, w2,
                    [AutofillSuggestionsForNode node suggestions index])
         /\ OnReceivedAutofillSuggestions None node id2 suggestions index w2
            = Some (tt, w2, []).
Proof.
  destruct w as [[pr v] m c].
  unfold QueryFormFieldAutofill, OnReceivedAutofillSuggestions.
  unfold_V. unfold_M. cbn.
  eexists _, _, _, _. split; [reflexivity|]. split; [reflexivity|].
  split; [reflexivity|]. split; [reflexivity|].
  pose proof (Int32_succ_neq c) as Hne.
  split; [intros Heq; apply Hne; symmetry; exact Heq|].
  intros node suggestions index. cbn.
  destruct (Z.eqb_spec c (Int32.add c 1)) as [Heq|_];
    [contradiction Hne; symmetry; exact Heq|].
  rewrite Z.eqb_refl. cbn. repeat split.
Qed.

End Autofill.

Section FileChooser.
Context `{Declarations} `{Externals}.

(** X22. One file chooser at a time.  With no chooser pending,
    [RunFileChooser] keeps the callback object and asks the browser; a
    further request while the first is pending only deletes its own
    callback object, without a message; the browser's response goes to
    the first callback, which is then deleted, and the view is as it was
    before the first request; a response with no chooser pending does
    nothing. *)
Theorem one_file_chooser_at_a_time (multi_select multi_select2 : bool)
    (title default_filename title2 default_filename2 : string)
    (chooser chooser2 : ptr) (file_names file_names2 : list string)
    (w : View) :
  file_chooser_ (members w) = None ->
  exists w1,
    RunFileChooser multi_select title default_filename chooser w
    = Some (tt, w1,
            [Post (ViewHostMsg_RunFileChooser (routing_id_ (this (core w)))
                     multi_select title default_filename)])
    /\ RunFileChooser multi_select2 title2 default_filename2 chooser2 w1
       = Some (tt, w1, [Delete chooser2])
    /\ OnFileChooserResponse file_names w1
       = Some (tt, w, [OnFileChoose chooser file_names; Delete chooser])
    /\ OnFileChooserResponse file_names2 w = Some (tt, w, []).
Proof.
  destruct w as [[pr v] m c]. destruct m. cbn. intros ->.
  unfold RunFileChooser, OnFileChooserResponse. unfold_V. unfold_M. cbn.
  eexists. repeat split.
Qed.

End FileChooser.

Section ExtensionCallbacks.
Context `{Declarations} `{Externals}.

(** X23. An extension callback runs once, in the frame that asked.  A
    request with a callback ID other than -1 is sent to the browser and
    its frame remembered under the ID; the response runs the callback in
    that frame and forgets it, so a second response with the same ID runs
    nothing.  If the ID was not in use before, the view is then as it was
    before the request.  A request with the ID -1 only sends the
    message. *)
Theorem extension_callback_runs_once (name args response response2 : string)
    (callback_id : Z) (web_frame : ptr) (w : View) :
  callback_id <> -1 ->
  exists w1 w2,
    SendExtensionRequest name args callback_id (Some web_frame) w
    = Some (tt, w1,
            [Post (ViewHostMsg_ExtensionRequest (routing_id_ (this (core w)))
                     name args callback_id)])
    /\ OnExtensionResponse callback_id response w1
       = Some (tt, w2,
               [ExecuteCallbackInFrame web_frame callback_id response])
    /\ OnExtensionResponse callback_id response2 w2 = Some (tt, w2, [])
    /\ (pending_extension_callbacks_ (members w) !! callback_id = None ->
        w2 = w)
    /\ SendExtensionRequest name args (-1) (Some web_frame) w
       = Some (tt, w,
               [Post (ViewHostMsg_ExtensionRequest
                        (routing_id_ (this (core w))) name args (-1))]).
Proof.
  intros Hid. destruct w as [[pr v] m c]. destruct m as [b d p a f q cbs].
  unfold SendExtensionRequest, OnExtensionResponse, Lookup.
  unfold_V. unfold_M. cbn -[lookup insert delete].
  destruct (Z.eqb_spec callback_id (-1)) as [|_]; [contradiction|].
  cbn -[lookup insert delete].
  eexists _, _. split; [reflexivity|].
  cbn -[lookup insert delete]. rewrite lookup_insert_eq.
  cbn -[lookup insert delete]. split; [reflexivity|].
  cbn -[lookup insert delete]. rewrite lookup_delete_eq.
  cbn -[lookup insert delete]. split; [reflexivity|].
  split; [|reflexivity].
  intros Hfree. rewrite delete_insert_eq, delete_id by exact Hfree.
  reflexivity.
Qed.

Lemma foldl_delete_lookup (ids : list Z) (cbs : gmap Z (option ptr))
    (id : Z) :
  foldl (fun callbacks i => delete i callbacks) cbs ids !! id
  = if bool_decide (id ∈ ids) then None else cbs !! id.
Proof.
  revert cbs. induction ids as [|i ids IH]; intros cbs; cbn.
  - rewrite bool_decide_eq_false_2 by apply not_elem_of_nil. reflexivity.
  - rewrite IH. destruct (decide (id ∈ ids)) as [Hin|Hin].
    + rewrite !bool_decide_eq_true_2 by (try right; exact Hin). reflexivity.
    + rewrite (bool_decide_eq_false_2 (id ∈ ids)) by exact Hin.
      destruct (decide (id = i)) as [->|Hne].
      * rewrite lookup_delete_eq, bool_decide_eq_true_2 by left.
        reflexivity.
      * rewrite lookup_delete_ne by congruence.
        rewrite bool_decide_eq_false_2; [reflexivity|].
        intros [?|?]%elem_of_cons; contradiction.
Qed.

(** X24. Closing a frame drops its callbacks and no others.
    [WillCloseFrame] sends nothing and takes out of
    [pending_extension_callbacks_] exactly the IDs registered for the
    closing frame: a later response for one of them runs nothing, while a
    response for an ID registered by another frame still runs in that
    frame. *)
Theorem closed_frame_callbacks_are_dropped (frame : ptr) (w : View) :
  exists w1,
    WillCloseFrame (Some frame) w = Some (tt, w1, [])
    /\ core w1 = core w
    /\ (forall id,
          Lookup (pending_extension_callbacks_ (members w1)) id
          = if bool_decide (Lookup (pending_extension_callbacks_ (members w))
                              id = Some frame)
            then None
            else Lookup (pending_extension_callbacks_ (members w)) id)
    /\ (forall id response,
          Lookup (pending_extension_callbacks_ (members w)) id = Some frame ->
          OnExtensionResponse id response w1 = Some (tt, w1, []))
    /\ (forall id response other,
          Lookup (pending_extension_callbacks_ (members w)) id = Some other ->
          other <> frame ->
          exists w2,
            OnExtensionResponse id response w1
            = Some (tt, w2, [ExecuteCallbackInFrame other id response])).
Proof.
  destruct w as [[pr v] m c]. destruct m as [b d p a f q cbs]. cbn.
  assert (exists cbs1,
            WillCloseFrame (Some frame)
              (mkView (mkState pr v) (mkMembers b d p a f q cbs) c)
            = Some (tt, mkView (mkState pr v) (mkMembers b d p a f q cbs1) c,
                    [])
            /\ forall id,
                 Lookup cbs1 id
                 = if bool_decide (Lookup cbs id = Some frame)
                   then None else Lookup cbs id) as (cbs1 & Hrun & Hcbs).
  { unfold WillCloseFrame. unfold_V. cbn.
    destruct (bool_decide_reflect (cbs = ∅)) as [->|Hne]; cbn.
    - exists ∅. split; [reflexivity|]. intros id. unfold Lookup.
      rewrite lookup_empty. cbn. now rewrite bool_decide_eq_false_2.
    - eexists. split; [reflexivity|]. intros id. unfold Lookup.
      rewrite foldl_delete_lookup.
      set (orphaned := list_bind _ _ _ _).
      assert (id ∈ orphaned <-> cbs !! id = Some (Some frame)) as Hin.
      { unfold orphaned.
        change (list_bind ?A ?B ?g ?l) with (l ≫= g).
        rewrite list_elem_of_bind. split.
        - intros ([i x] & Hi & Hx). cbn in Hi.
          apply elem_of_map_to_list in Hx.
          destruct (bool_decide_reflect (x = Some frame)) as [Heq|_];
            [|now apply elem_of_nil in Hi].
          apply list_elem_of_singleton in Hi. now subst.
        - intros Hx. exists (id, Some frame). split.
          + cbn. rewrite bool_decide_eq_true_2 by reflexivity.
            apply list_elem_of_singleton. reflexivity.
          + now apply elem_of_map_to_list. }
      destruct (cbs !! id) as [[x|]|] eqn:Hx; cbn.
      + destruct (decide (x = frame)) as [->|Hxf].
        * rewrite !bool_decide_eq_true_2; [reflexivity|reflexivity|].
          now apply Hin.
        * rewrite !bool_decide_eq_false_2; [reflexivity|congruence|].
          rewrite Hin. congruence.
      + rewrite (bool_decide_eq_false_2 (None = Some frame)) by discriminate.
        now destruct (bool_decide _).
      + rewrite (bool_decide_eq_false_2 (None = Some frame)) by discriminate.
        now destruct (bool_decide _). }
  exists (mkView (mkState pr v) (mkMembers b d p a f q cbs1) c).
  split; [exact Hrun|]. split; [reflexivity|]. split; [exact Hcbs|]. split.
  - intros id response Hid. unfold OnExtensionResponse. unfold_V. cbn.
    rewrite Hcbs, Hid, bool_decide_eq_true_2 by reflexivity. reflexivity.
  - intros id response other Hid Hother. unfold OnExtensionResponse.
    unfold_V. cbn. rewrite Hcbs, Hid, bool_decide_eq_false_2 by congruence.
    eexists. reflexivity.
Qed.

End ExtensionCallbacks.

Section FindInPage.
Context `{Declarations} `{Externals}.

(** X25. No find reply is held back.  Nothing in these two methods ever
    puts a message in an empty [queued_find_reply_message_]: starting
    with none queued, over any sequence of reported match counts and
    browser ACKs every match count is sent at once as a Find_Reply with an
    empty rectangle and the ordinal -1, in the order reported, an ACK
    sends nothing, and the view does not change. *)
Theorem find_replies_are_sent_at_once (es : list FindEvent) (w : View) :
  queued_find_reply_message_ (members w) = None ->
  exists tr,
    find_events es w = Some (tt, w, tr)
    /\ posted tr = replies (routing_id_ (this (core w))) es
    /\ length tr = length (posted tr).
Proof.
  intros Hq. induction es as [|e es (tr & IH & Hp & Hl)].
  - now exists [].
  - cbn. unfold mbind, V_bind.
    assert (exists t,
              find_event e w = Some (tt, w, t)
              /\ posted t
                 = replies (routing_id_ (this (core w))) [e]
              /\ length t = length (posted t)) as (t & -> & Ht & Hlt).
    { destruct w as [[pr v] m c]. cbn in Hq.
      destruct e as [count request_id final_update|]; cbn;
        unfold ReportFindInPageMatchCount, OnFindReplyAck;
        unfold_V; unfold_M; cbn; rewrite Hq; cbn;
        eexists; repeat split. }
    rewrite IH. exists (t ++ tr). split; [reflexivity|].
    rewrite posted_app. split.
    + rewrite Ht, Hp. unfold replies. cbn. now rewrite app_nil_r.
    + rewrite !length_app. congruence.
Qed.

End FindInPage.

Section ApplicationInfo.
Context `{Declarations} `{Externals}.

Lemma prune_data_urls_spec (n i : nat)
    (icons : list WebApplicationInfo.IconInfo) :
  (length icons - i <= n)%nat ->
  prune_data_urls n i icons
  = take i icons ++ List.filter not_data_url (drop i icons).
Proof.
  revert i icons. induction n as [|n IH]; intros i icons Hn; cbn.
  - rewrite drop_ge by lia. rewrite take_ge by lia. cbn.
    now rewrite app_nil_r.
  - destruct (icons !! i) as [icon|] eqn:Hi.
    + pose proof (lookup_lt_Some _ _ _ Hi) as Hlt.
      rewrite (drop_S _ _ _ Hi). cbn [List.filter].
      replace (not_data_url icon)
        with (negb (SchemeIs (WebApplicationInfo.url icon) kDataScheme))
        by reflexivity.
      destruct (SchemeIs (WebApplicationInfo.url icon) kDataScheme);
        cbn [negb].
      * rewrite IH by (rewrite length_delete by eauto; lia).
        rewrite delete_take_drop.
        rewrite take_app_length', drop_app_length'
          by (rewrite length_take; lia).
        reflexivity.
      * rewrite IH by lia. rewrite (take_S_r _ _ _ Hi), <- app_assoc.
        reflexivity.
    + apply lookup_ge_None in Hi.
      rewrite drop_ge by lia. rewrite take_ge by lia. cbn.
      now rewrite app_nil_r.
Qed.

(** X26. No icon with a data URL reaches the browser.
    [OnGetApplicationInfo] always answers with one DidGetApplicationInfo
    message for the page ID asked about and does not change the view.
    The icons in it are those of the page's application info whose URL is
    not a data URL, in their order, and the other fields are the page's;
    when the page ID is not the view's current one the info sent is
    empty. *)
Theorem data_url_icons_are_pruned (page_info : WebApplicationInfo.t)
    (page_id : Z) (w : View) :
  exists app_info,
    OnGetApplicationInfo page_info page_id w
    = Some (tt, w,
            [Post (ViewHostMsg_DidGetApplicationInfo
                     (routing_id_ (this (core w))) page_id app_info)])
    /\ Forall (fun icon =>
                 SchemeIs (WebApplicationInfo.url icon) kDataScheme = false)
         (WebApplicationInfo.icons app_info)
    /\ (page_id = page_id_ (this (core w)) ->
        app_info
        = WebApplicationInfo.set_icons
            (List.filter not_data_url (WebApplicationInfo.icons page_info))
            page_info)
    /\ (page_id <> page_id_ (this (core w)) ->
        app_info = WebApplicationInfo.empty).
Proof.
  destruct w as [[pr v] m c]. unfold OnGetApplicationInfo.
  unfold_V. unfold_M. cbn -[prune_data_urls].
  eexists. split; [reflexivity|].
  rewrite prune_data_urls_spec by lia. rewrite take_0, drop_0. cbn.
  split.
  - apply Forall_forall. intros icon Hin. apply list_elem_of_In in Hin.
    apply filter_In in Hin as [_ Hnot]. unfold not_data_url in Hnot.
    now apply negb_true_iff in Hnot.
  - destruct (Z.eqb_spec page_id (page_id_ v)) as [Heq|Hne]; split;
      intros ?; try contradiction; reflexivity.
Qed.

End ApplicationInfo.

Section ClientRedirects.
Context `{Declarations} `{Externals}.


(** The referrer and the redirect qualifier of a main-frame report. *)
Lemma UpdateURL_main_frame_referrer webview frame ds s a s1 tr :
  same_frame (WebView.GetMainFrame webview) (Some frame) = true ->
  WebFrame.GetDataSource frame = Some ds ->
  UpdateURL webview frame s = Some (a, s1, tr) ->
  exists params,
    tr = [Send (ViewHostMsg_FrameNavigate (routing_id_ (this s)) params)]
    /\ params_gesture params = navigation_gesture_ (this s)
    /\ (if is_valid (completed_client_redirect_src_ (this s))
        then params_referrer params = completed_client_redirect_src_ (this s)
             /\ exists t, params_transition params = Z.lor t CLIENT_REDIRECT
        else params_referrer params
             = WebRequest.GetHttpReferrer (WebDataSource.GetInitialRequest ds)).
Proof.
  unfold UpdateURL. intros Hmain Hds Hrun. rewrite Hds in Hrun.
  apply bind_returns in Hrun as (? & s2 & t2 & ? & Hd & Hrun & ->).
  apply deref_returns in Hd as ([= <-] & -> & ->).
  apply bind_returns in Hrun as (extra & s3 & t3 & ? & Hload & Hrun & ->).
  apply load_extra_data_result in Hload as (-> & -> & _).
  revert Hrun. unfold_M. cbn. rewrite Hmain. cbn.
  destruct extra as [[p e]|]; cbn; intros [= <- <- <-]; cbn;
    (eexists; split; [reflexivity|]; cbn; split; [reflexivity|]);
    destruct (is_valid (completed_client_redirect_src_ (this s))); eauto.
Qed.





(** X28. The start of a provisional load in the main frame sets what the
    next report says about it.  [DidStartProvisionalLoadForFrame] sends
    one DidStartProvisionalLoadForFrame message with the URL of the
    provisional request; for the main frame it records the gesture and
    forgets any completed client redirect, so that the following
    main-frame [UpdateURL] reports this gesture and the referrer of the
    initial request; for another frame both are left as they were. *)
Theorem provisional_load_start_sets_the_gesture (webview : WebView.t)
    (frame : WebFrame.t) (provisional : option WebDataSource.t)
    (gesture : NavigationGesture) (w w1 : View) (tr : list Effect) :
  is_valid GURL_empty = false ->
  DidStartProvisionalLoadForFrame webview frame provisional gesture w
  = Some (tt, w1, tr) ->
  (exists ds,
     provisional = Some ds
     /\ posted tr
        = [ViewHostMsg_DidStartProvisionalLoadForFrame
             (routing_id_ (this (core w)))
             (same_frame (WebView.GetMainFrame webview) (Some frame))
             (WebRequest.GetURL (WebDataSource.GetRequest ds))])
  /\ process (core w1) = process (core w)
  /\ (same_frame (WebView.GetMainFrame webview) (Some frame) = false ->
      w1 = w)
  /\ (same_frame (WebView.GetMainFrame webview) (Some frame) = true ->
      forall ds s2 tr2,
        WebFrame.GetDataSource frame = Some ds ->
        UpdateURL webview frame (core w1) = Some (tt, s2, tr2) ->
        exists params,
          tr2 = [Send (ViewHostMsg_FrameNavigate
                         (routing_id_ (this (core w))) params)]
          /\ params_gesture params = gesture
          /\ params_referrer params
             = WebRequest.GetHttpReferrer
                 (WebDataSource.GetInitialRequest ds)).
Proof.
  intros Hempty Hrun. destruct w as [[pr v] m c].
  unfold DidStartProvisionalLoadForFrame in Hrun.
  destruct provisional as [pds|].
  2:{ revert Hrun. unfold_V. unfold_M. cbn.
      destruct (same_frame _ _); cbn; discriminate. }
  set (main := same_frame (WebView.GetMainFrame webview) (Some frame)) in *.
  assert (exists v1 t,
            w1 = mkView (mkState pr v1) m c
            /\ tr = t ++ [Post (ViewHostMsg_DidStartProvisionalLoadForFrame
                                  (routing_id_ v) main
                                  (WebRequest.GetURL
                                     (WebDataSource.GetRequest pds)))]
            /\ posted t = []
            /\ v1 = (if main
                     then set_completed_client_redirect_src_ GURL_empty
                            (set_navigation_gesture_ gesture v)
                     else v)) as (v1 & t & -> & -> & Ht & Hv1).
  { revert Hrun. destruct v. unfold_V. unfold_M. cbn.
    destruct main; cbn;
      (destruct (WebRequest.GetExtraData (WebDataSource.GetRequest pds))
         as [a|]; cbn;
       [destruct (request_extra_data pr !! a) as [e|]; cbn;
        [|discriminate]|]);
      intros [= <- <-];
      first [ eexists _, []; split; [reflexivity|]; split; [reflexivity|];
              split; reflexivity
            | eexists _, [_]; split; [reflexivity|]; split; [reflexivity|];
              split; reflexivity ]. }
  split.
  { exists pds. split; [reflexivity|]. rewrite posted_app, Ht. reflexivity. }
  split; [reflexivity|]. split.
  - intros Hsub. rewrite Hsub in Hv1. now subst v1.
  - intros Hmain ds s2 tr2 Hds Hurl. rewrite Hmain in Hv1. cbn in Hurl.
    destruct (UpdateURL_main_frame_referrer _ _ _ _ _ _ _ Hmain Hds Hurl)
      as (params & -> & Hg & Href).
    cbn in Hg, Href. subst v1.
    assert (completed_client_redirect_src_
              (set_completed_client_redirect_src_ GURL_empty
                 (set_navigation_gesture_ gesture v)) = GURL_empty) as Hc
      by now destruct v.
    rewrite Hc, Hempty in Href. exists params. split.
    + now destruct v.
    + split; [|exact Href]. rewrite Hg. now destruct v.
Qed.

End ClientRedirects.

(* ------------------------------------------------------------------ *)
(** ** The layout tests named on stdin *)

Module LayoutTestsFacts.
Import LayoutTests.

Lemma strrchr_None (s : string) (c : Ascii.ascii) :
strrchr s c = None -> in_set s c = false.
Proof.
induction s as [|a s IH]; cbn; [reflexivity|].
destruct (strrchr s c); [discriminate|].
rewrite (Ascii.eqb_sym c a).
destruct (Ascii.eqb a c); [discriminate|]. intros _. now apply IH.
Qed.

Lemma strrchr_Some (s r : string) (c : Ascii.ascii) :
strrchr s c = Some r ->
exists before after,
  s = String.append before r
  /\ r = String c after
  /\ in_set after c = false.
Proof.
revert r. induction s as [|a s IH]; intros r; cbn; [discriminate|].
destruct (strrchr s c) as [r'|] eqn:Hs.
- intros [= <-]. destruct (IH r' eq_refl) as (b & after & -> & -> & Hn).
  exists (String a b), after. rewrite append_cons. now repeat split.
- destruct (Ascii.eqb_spec a c) as [->|]; [|discriminate].
  intros [= <-]. exists EmptyString, s. repeat split.
  now apply strrchr_None.
Qed.

Lemma cut_at_strchr (s tail : string) :
strchr s newline = Some tail -> cut_at s tail = before_newline s.
Proof.
induction s as [|a s IH]; cbn [strchr cut_at before_newline];
  [discriminate|].
destruct (Ascii.eqb a newline).
- intros [= <-]. now rewrite Nat.eqb_refl.
- intros Hs. assert (String.length tail <= String.length s)%nat as Hle.
  { clear IH. revert Hs. induction s as [|b s IH]; cbn; [discriminate|].
    destruct (Ascii.eqb b newline); [intros [= <-]; cbn; lia|].
    intros Hs. specialize (IH Hs). lia. }
  destruct (Nat.eqb_spec (String.length (String a s)) (String.length tail))
    as [Heq|_]; [cbn in Heq; lia|].
  now rewrite IH.
Qed.

Lemma before_newline_no_newline (s : string) :
strchr s newline = None -> before_newline s = s.
Proof.
induction s as [|a s IH]; cbn; [reflexivity|].
destruct (Ascii.eqb a newline); [discriminate|]. intros Hs.
now rewrite IH.
Qed.

End LayoutTestsFacts.

Section LayoutTestRuns.
Import LayoutTests.
Variable UTF8ToWide : string -> string.
Variable MAX_PATH : nat.

(** X29. The test name kept for crash dumps is the last component of the
    path, when it fits.  The path splits into a directory part, empty or
    ending in a slash, and a name without any slash; [SetCurrentTestName]
    stores the wide form of that name in [g_currentTestName] when it has
    fewer than MAX_PATH characters, and otherwise the store fails and
    nothing is stored. *)
Theorem test_name_is_the_last_path_component (path : string) :
  exists directory name,
    path = String.append directory name
    /\ in_set name slash = false
    /\ (directory = EmptyString
        \/ exists parent, directory = String.append parent (String slash ""))
    /\ SetCurrentTestName UTF8ToWide MAX_PATH path
       = if (String.length (UTF8ToWide name) <? MAX_PATH)%nat
         then Some (UTF8ToWide name) else None.
Proof.
  unfold SetCurrentTestName, wcscpy_s, test_name_of.
  destruct (strrchr path slash) as [r|] eqn:Hr.
  - apply LayoutTestsFacts.strrchr_Some in Hr
      as (before & after & -> & -> & Hn).
    exists (String.append before (String slash "")), after.
    split.
    { clear. induction before as [|a b IH]; [reflexivity|].
      rewrite !append_cons. now rewrite IH. }
    split; [exact Hn|]. split; [|reflexivity]. right. now exists before.
  - exists EmptyString, path. split; [reflexivity|].
    split; [now apply LayoutTestsFacts.strrchr_None|].
    split; [now left|reflexivity].
Qed.

(** X30. The loop over stdin runs the named tests in order and stops at
    the first one that fails or whose name cannot be stored.  Empty lines
    are skipped.  The named tests split into those the loop ran and those
    it left out; the completed calls are, for each test run, the store of
    its name followed by the test itself; the name of every test run fits
    [g_currentTestName]; every test run but the last one passed.  When no
    test is left out the loop ends normally.  When tests are left out,
    either the last test run failed and the loop ends normally, or every
    test run passed, the name of the first test left out does not fit,
    and the loop is left through the failed store. *)
Theorem layout_tests_stop_at_the_first_failure
    (input : list (string * bool)) :
  let result := watch_stdin UTF8ToWide MAX_PATH input in
  exists run left_out,
    tests_named input = run ++ left_out
    /\ fst result
       = run ≫= (fun t =>
                   [Call_SetCurrentTestName
                      (UTF8ToWide (test_name_of (fst t)));
                    Call_RunFileTest (fst t)])
    /\ tests_run (fst result) = map fst run
    /\ Forall (fun t => name_fits UTF8ToWide MAX_PATH t = true) run
    /\ (forall i t,
          run !! i = Some t -> (S i < length run)%nat -> snd t = true)
    /\ match head left_out with
       | None => snd result = EndOfLoop
       | Some t =>
           (snd result = EndOfLoop
            /\ exists l, last run = Some l /\ snd l = false)
           \/ (snd result = InvalidParameter
               /\ name_fits UTF8ToWide MAX_PATH t = false
               /\ Forall (fun r => snd r = true) run)
       end.
Proof.
  cbv zeta.
  induction input
    as [|[buffer test_ok] rest
          (run & left_out & IH & IHc & IHr & IHfit & IHok & IHend)].
  - exists [], []. split; [reflexivity|]. split; [reflexivity|].
    split; [reflexivity|]. split; [constructor|]. split; [|reflexivity].
    intros i t Hi. now rewrite lookup_nil in Hi.
  - cbn [watch_stdin].
    assert (match strchr buffer newline with
            | Some newLine => cut_at buffer newLine
            | None => buffer
            end = before_newline buffer) as ->.
    { destruct (strchr buffer newline) eqn:Hs.
      - now apply LayoutTestsFacts.cut_at_strchr.
      - symmetry. now apply LayoutTestsFacts.before_newline_no_newline. }
    unfold tests_named in *. cbn [map List.filter fst snd].
    destruct (before_newline buffer) as [|a name] eqn:Hname.
    + cbn [String.eqb negb]. exists run, left_out.
      split; [exact IH|]. split; [exact IHc|]. split; [exact IHr|].
      split; [exact IHfit|]. split; [exact IHok|exact IHend].
    + cbn [String.eqb negb]. rewrite IH.
      unfold SetCurrentTestName, wcscpy_s.
      destruct (String.length (UTF8ToWide (test_name_of (String a name)))
                <? MAX_PATH)%nat eqn:Hfit.
      * destruct test_ok.
        -- exists ((String a name, true) :: run), left_out.
           cbn [fst snd]. split; [reflexivity|].
           split; [cbn; now rewrite IHc|].
           split; [unfold tests_run in *; cbn; now rewrite IHr|].
           split; [constructor; [exact Hfit|exact IHfit]|]. split.
           ++ intros [|i] t Hi Hlen; cbn in Hi; [now injection Hi as <-|].
              apply (IHok i t Hi). cbn in Hlen. lia.
           ++ destruct (head left_out) as [h|]; [|exact IHend].
              destruct IHend as [(Hend & l & Hlast & Hfail)|(Hend & Hh & Hall)].
              ** left. split; [exact Hend|]. exists l. split; [|exact Hfail].
                 destruct run as [|r run']; [discriminate|]. exact Hlast.
              ** right. split; [exact Hend|]. split; [exact Hh|].
                 now constructor.
        -- exists [(String a name, false)], (run ++ left_out).
           cbn [fst snd]. split; [reflexivity|]. split; [reflexivity|].
           split; [reflexivity|].
           split; [constructor; [exact Hfit|constructor]|]. split.
           ++ intros i t Hi Hlen. cbn in Hlen. lia.
           ++ destruct (head (run ++ left_out)); [|reflexivity].
              left. split; [reflexivity|]. eexists. split; reflexivity.
      * exists [], ((String a name, test_ok) :: run ++ left_out).
        cbn [fst snd]. split; [reflexivity|]. split; [reflexivity|].
        split; [reflexivity|]. split; [constructor|]. split.
        -- intros i t Hi. now rewrite lookup_nil in Hi.
        -- cbn. right. split; [reflexivity|]. split; [exact Hfit|constructor].
Qed.

End LayoutTestRuns.

(* ------------------------------------------------------------------ *)
(** ** Concrete runs of the further properties *)

Lemma CaptureText_is_a_prefix_witness :
  CaptureText (Some sample_frame) = "hello world".
Proof.
  destruct (CaptureText_is_a_prefix sample_frame) as (_ & Hshort & _).
  apply Hshort; vm_compute; [reflexivity|discriminate].
Defined.

Lemma CapturePageInfo_indexes_a_load_once_witness :
  exists s1 tr1,
    CapturePageInfo (Some sample_webview) 5 false navigated_state
    = Some (tt, s1, tr1)
    /\ last_indexed_page_id_ (this s1) = 5
    /\ CapturePageInfo (Some sample_webview) 5 true s1 = Some (tt, s1, []).
Proof.
  assert (exists s1 tr1,
            CapturePageInfo (Some sample_webview) 5 false navigated_state
            = Some (tt, s1, tr1) /\ tr1 <> []) as (s1 & tr1 & Hrun & Hne)
    by (eexists _, _; split; [vm_compute; reflexivity|discriminate]).
  destruct (CapturePageInfo_indexes_a_load_once (Some sample_webview) 5
              navigated_state s1 tr1) as [Hreg _].
  destruct (Hreg Hrun Hne) as [Hidx Hagain].
  exists s1, tr1. split; [exact Hrun|]. split; [exact Hidx|apply Hagain].
Defined.

Lemma stale_capture_is_dropped_witness :
  exists s1 tr1 s2 tr2,
    DidCommitLoadForFrame sample_webview sample_frame true sample_state
    = Some (tt, s1, tr1)
    /\ DidCommitLoadForFrame sample_webview sample_frame true s1
       = Some (tt, s2, tr2)
    /\ CapturePageInfo (Some sample_webview) (page_id_ (this s1)) true s2
       = Some (tt, s2, []).
Proof.
  assert (exists s1 tr1 s2 tr2,
            DidCommitLoadForFrame sample_webview sample_frame true sample_state
            = Some (tt, s1, tr1)
            /\ DidCommitLoadForFrame sample_webview sample_frame true s1
               = Some (tt, s2, tr2)) as (s1 & tr1 & s2 & tr2 & Hrun1 & Hrun2)
    by (eexists _, _, _, _; split; [vm_compute; reflexivity|];
        vm_compute; reflexivity).
  assert (Int32.in_range (next_page_id_ (process sample_state))) as Hr
    by (vm_compute; split; discriminate).
  destruct (stale_capture_is_dropped sample_webview sample_frame sample_state
              s1 tr1 Hrun1 Hr) as [_ Hdrop].
  exists s1, tr1, s2, tr2. split; [exact Hrun1|]. split; [exact Hrun2|].
  apply (Hdrop _ _ _ _ Hrun2).
Defined.

Lemma UpdateEncoding_reports_once_witness :
  exists s1,
    UpdateEncoding sample_webview sample_frame "UTF-8" sample_state
    = Some (tt, s1, [Send (ViewHostMsg_UpdateEncoding 7 "UTF-8")])
    /\ UpdateEncoding sample_webview sample_frame "UTF-8" s1
       = Some (tt, s1, []).
Proof.
  assert (exists s1,
            UpdateEncoding sample_webview sample_frame "UTF-8" sample_state
            = Some (tt, s1, [Send (ViewHostMsg_UpdateEncoding 7 "UTF-8")]))
    as (s1 & Hrun) by (eexists; vm_compute; reflexivity).
  destruct (UpdateEncoding_reports_once sample_webview sample_frame "UTF-8"
              sample_state s1 _ Hrun) as (_ & Hagain & _).
  exists s1. split; [exact Hrun|exact Hagain].
Defined.

Lemma UpdateURL_second_report_is_automatic_witness :
  exists s1 tr1 s2 params,
    UpdateURL sample_webview sample_subframe navigated_state
    = Some (tt, s1, tr1)
    /\ UpdateURL sample_webview sample_subframe s1
       = Some (tt, s2, [Send (ViewHostMsg_FrameNavigate 7 params)])
    /\ params_transition params = AUTO_SUBFRAME.
Proof.
  assert (exists s1 tr1 s2 tr2,
            UpdateURL sample_webview sample_subframe navigated_state
            = Some (tt, s1, tr1)
            /\ UpdateURL sample_webview sample_subframe s1
               = Some (tt, s2, tr2)
            /\ routing_id_ (this s1) = 7)
    as (s1 & tr1 & s2 & tr2 & Hrun1 & Hrun2 & Hid)
    by (eexists _, _, _, _; split; [vm_compute; reflexivity|];
        split; [vm_compute; reflexivity|]; vm_compute; reflexivity).
  destruct (UpdateURL_second_report_is_automatic sample_webview sample_webview
              sample_subframe sample_subframe navigated_state s1 s2 tr1 tr2
              Hrun1 eq_refl Hrun2) as (_ & _ & params & Htr & Ht).
  exists s1, tr1, s2, params. split; [exact Hrun1|].
  split; [|exact Ht]. rewrite Hrun2, Htr, Hid. reflexivity.
Defined.

Lemma UpdateURL_main_frame_transition_witness :
  exists s1 params,
    UpdateURL history_webview history_frame history_state
    = Some (tt, s1, [Send (ViewHostMsg_FrameNavigate 7 params)])
    /\ IsMainFrame (params_transition params) = true.
Proof.
  assert (exists s1 tr,
            UpdateURL history_webview history_frame history_state
            = Some (tt, s1, tr)) as (s1 & tr & Hrun)
    by (eexists _, _; vm_compute; reflexivity).
  assert (forall t, IsMainFrame (Z.lor t CLIENT_REDIRECT) = IsMainFrame t)
    as Hq.
  { intros t. cbn. rewrite Z.land_lor_distr_l.
    change (Z.land 1073741824 255) with 0. now rewrite Z.lor_0_r. }
  assert (IsMainFrame LINK = true) as Hl by (vm_compute; reflexivity).
  assert (IsMainFrame FORM_SUBMIT = true) as Hf by (vm_compute; reflexivity).
  destruct (UpdateURL_main_frame_transition history_webview history_frame
              history_state s1 tr Hl Hf Hq eq_refl Hrun)
    as (params & Htr & Hmain).
  exists s1, params. split; [|exact Hmain]. rewrite Hrun, Htr. reflexivity.
Defined.

Lemma UpdateURL_consumes_the_gesture_witness :
  exists s1 s2 params1 params2,
    UpdateURL sample_webview sample_frame
      (mkState sample_process
         (set_navigation_gesture_ NavigationGestureUser sample_view))
    = Some (tt, s1, [Send (ViewHostMsg_FrameNavigate 7 params1)])
    /\ UpdateURL sample_webview sample_frame s1
       = Some (tt, s2, [Send (ViewHostMsg_FrameNavigate 7 params2)])
    /\ params_gesture params1 = NavigationGestureUser
    /\ params_gesture params2 = NavigationGestureUnknown.
Proof.
  set (s := mkState sample_process
              (set_navigation_gesture_ NavigationGestureUser sample_view)).
  assert (exists s1 tr1 s2 tr2,
            UpdateURL sample_webview sample_frame s = Some (tt, s1, tr1)
            /\ UpdateURL sample_webview sample_frame s1 = Some (tt, s2, tr2)
            /\ routing_id_ (this s1) = 7)
    as (s1 & tr1 & s2 & tr2 & Hrun1 & Hrun2 & Hid)
    by (eexists _, _, _, _; split; [vm_compute; reflexivity|];
        split; [vm_compute; reflexivity|]; vm_compute; reflexivity).
  destruct (UpdateURL_consumes_the_gesture sample_webview sample_webview
              sample_frame sample_frame s s1 s2 tr1 tr2 Hrun1 Hrun2)
    as (params1 & params2 & Htr1 & Htr2 & Hg1 & Hg2).
  exists s1, s2, params1, params2.
  split; [rewrite Hrun1, Htr1; reflexivity|].
  split; [rewrite Hrun2, Htr2, Hid; reflexivity|].
  split; [exact Hg1|exact Hg2].
Defined.

Lemma history_commit_is_processed_once_witness :
  exists s1 tr1 s2 tr2,
    DidCommitLoadForFrame history_webview history_frame false history_state
    = Some (tt, s1, tr1)
    /\ page_id_ (this s1) = 4
    /\ DidCommitLoadForFrame history_webview history_frame false s1
       = Some (tt, s2, tr2)
    /\ page_id_ (this s2) = page_id_ (this s1).
Proof.
  assert (exists s1 tr1 s2 tr2,
            DidCommitLoadForFrame history_webview history_frame false
              history_state = Some (tt, s1, tr1)
            /\ page_id_ (this s1) = 4
            /\ DidCommitLoadForFrame history_webview history_frame false s1
               = Some (tt, s2, tr2))
    as (s1 & tr1 & s2 & tr2 & Hrun1 & Hid & Hrun2)
    by (eexists _, _, _, _; split; [vm_compute; reflexivity|];
        split; [vm_compute; reflexivity|]; vm_compute; reflexivity).
  destruct (history_commit_is_processed_once history_webview history_frame
              history_frame history_data_source 0%nat history_state s1 tr1
              eq_refl eq_refl eq_refl Hrun1) as (_ & _ & Hsecond).
  destruct (Hsecond _ _ _ Hrun2) as [Hsame _].
  exists s1, tr1, s2, tr2.
  split; [exact Hrun1|]. split; [exact Hid|]. split; [exact Hrun2|exact Hsame].
Defined.

Lemma loading_messages_alternate_witness :
  exists s1 tr,
    loading_callbacks sample_webview
      [Started; Started; Stopped true; Stopped false; Started] sample_state
    = Some (tt, s1, tr)
    /\ alternates true (loading_messages tr) = true
    /\ is_loading_ (this s1) = List.last (loading_messages tr) false.
Proof.
  apply (loading_messages_alternate sample_webview sample_frame
           [Started; Started; Stopped true; Stopped false; Started]
           sample_state eq_refl).
Defined.

Lemma DidStopLoading_drops_pending_upload_witness :
  exists s1 tr,
    DidStopLoading sample_webview false uploading_state = Some (tt, s1, tr)
    /\ is_loading_ (this s1) = false
    /\ pending_upload_data_ (this s1) = None.
Proof.
  destruct (DidStopLoading_drops_pending_upload sample_webview sample_frame
              false uploading_state eq_refl eq_refl)
    as (s1 & tr & Hrun & Hl & Hu & _).
  exists s1, tr. split; [exact Hrun|]. split; [exact Hl|exact Hu].
Defined.

Lemma GoToEntryAtOffset_steps_add_up_witness :
  exists s2,
    (GoToEntryAtOffset 2;; GoToEntryAtOffset (-2)) sample_state
    = Some (tt, s2,
            [Send (ViewHostMsg_GoToEntryAtOffset 7 2);
             Send (ViewHostMsg_GoToEntryAtOffset 7 (-2))])
    /\ s2 = sample_state.
Proof.
  destruct (GoToEntryAtOffset_steps_add_up 2 (-2) sample_state)
    as (s2 & s2' & Hrun & _ & _ & _ & Hback).
  exists s2. split; [exact Hrun|].
  apply Hback; [reflexivity|vm_compute; split; discriminate ..].
Defined.

Lemma popup_count_is_bounded_witness :
  exists views s1 tr,
    CreateWebView_each sample_webview [(true, 8); (false, 9)]
      (mkState (mkRenderer 1 {[ 0%nat := 25 ]} ∅) sample_view)
    = Some (views, s1, tr)
    /\ Z.of_nat (length (created views)) = 1
    /\ popup_counters (process s1) !! 0%nat = Some 26.
Proof.
  destruct (popup_count_is_bounded sample_webview [(true, 8); (false, 9)])
    with (s := mkState (mkRenderer 1 {[ 0%nat := 25 ]} ∅) sample_view)
         (data := 25)
    as (views & s1 & tr & Hrun & _ & Hn & _ & _ & Hc);
    [repeat constructor; vm_compute; discriminate|reflexivity|lia|].
  exists views, s1, tr. split; [exact Hrun|]. split; [exact Hn|].
  rewrite Hn in Hc. exact Hc.
Defined.

Lemma popup_destruction_restores_the_count_witness :
  exists view s1 tr1 s2,
    CreateWebView sample_webview true 9 sample_state
    = Some (Some view, s1, tr1)
    /\ popup_counters (process s1) !! 0%nat = Some 1
    /\ on_object view RenderView_destroy s1 = Some ((tt, view), s2, [])
    /\ process s2 = process sample_state.
Proof.
  destruct (popup_destruction_restores_the_count sample_webview true 9 0
              sample_state)
    as (view & s1 & tr1 & s2 & Hrun & Hc & Hd & Hp & _);
    [reflexivity|vm_compute; split; discriminate|vm_compute; discriminate|].
  exists view, s1, tr1, s2.
  split; [exact Hrun|]. split; [exact Hc|]. split; [exact Hd|exact Hp].
Defined.

Lemma disassociated_view_counts_afresh_witness :
  exists s1 result s2 tr,
    OnDisassociateFromPopupCount counted_state = Some (tt, s1, [])
    /\ popup_counters (process s1) !! 0%nat = Some 25
    /\ CreateWebView sample_webview true 9 s1
       = Some (result, s2, Send (ViewHostMsg_CreateWindow 7 true) :: tr).
Proof.
  destruct (disassociated_view_counts_afresh counted_state 26 eq_refl)
    as (s1 & Hrun & _ & _ & Hold & _ & Hnext).
  destruct (Hnext sample_webview true 9) as (result & s2 & tr & Hcreate).
  assert (routing_id_ (this s1) = 7) as Hid.
  { revert Hrun. vm_compute. now intros [= <-]. }
  exists s1, result, s2, tr. split; [exact Hrun|]. split; [exact Hold|].
  rewrite Hcreate, Hid. reflexivity.
Defined.
Lemma CaptureText_clips_at_last_whitespace_witness :
  exists ws rest,
    WebFrame.GetContentAsPlainText long_text_frame kMaxIndexChars
    = String.append (CaptureText (Some long_text_frame)) (String ws rest)
    /\ in_set kWhitespaceWide ws = true.
Proof.
  destruct (CaptureText_clips_at_last_whitespace long_text_frame)
    as (ws & rest & Hc & Hws & _); [vm_compute; reflexivity ..|].
  exists ws, rest. split; [exact Hc|exact Hws].
Defined.


Lemma navigation_is_diverted_only_when_unsolicited_witness :
  exists w1,
    DispositionForNavigationAction sample_webview sample_frame top_level_links
      history_link_request 0 CURRENT_TAB false sample_full_view
    = Some (IGNORE_ACTION, w1,
            [Did (Send (ViewHostMsg_GoToEntryAtOffset 7 (-2)))])
    /\ history_back_list_count_ (this (core w1)) = -2
    /\ history_forward_list_count_ (this (core w1)) = 2.
Proof.
  destruct (navigation_is_diverted_only_when_unsolicited sample_webview
              sample_frame top_level_links history_link_request 0 CURRENT_TAB
              false sample_full_view) as (result & w1 & tr & Hrun & _).
  exists w1. rewrite Hrun. revert Hrun. vm_compute. intros [= <- <- <-].
  repeat split.
Defined.

Lemma view_is_shown_once_witness :
  exists w1 tr,
    Show_each [5; 3]
      (mkView (mkState sample_process
                 (set_opener_id_ 4 (set_did_show_ false sample_view)))
         Members_new 0)
    = Some (tt, w1, tr)
    /\ posted tr = [ViewHostMsg_ShowView 4 7 5 (0, 0, 0, 0) true]
    /\ did_show_ (this (core w1)) = true.
Proof.
  destruct (view_is_shown_once [5; 3]
              (mkView (mkState sample_process
                         (set_opener_id_ 4 (set_did_show_ false sample_view)))
                 Members_new 0)) as (w1 & tr & Hrun & Hposted & Hshown & _).
  exists w1, tr. split; [exact Hrun|]. split; [exact Hposted|].
  apply Hshown. discriminate.
Defined.

Lemma popup_is_shown_under_its_opener_witness :
  exists view s1 tr w1,
    CreateWebView sample_webview true 9 sample_state
    = Some (Some view, s1, tr)
    /\ Show 5 (mkView (mkState (process s1) view) Members_new 0)
       = Some (tt, w1, [Post (ViewHostMsg_ShowView 7 9 5 (0, 0, 0, 0) true)]).
Proof.
  assert (exists view s1 tr,
            CreateWebView sample_webview true 9 sample_state
            = Some (Some view, s1, tr)) as (view & s1 & tr & Hrun)
    by (eexists _, _, _; vm_compute; reflexivity).
  assert (routing_id_ (this sample_state) <> MSG_ROUTING_NONE) as Hid
    by (vm_compute; discriminate).
  destruct (popup_is_shown_under_its_opener sample_webview true 9 5
              sample_state s1 view tr Members_new 0 Hrun Hid)
    as (w1 & Hshow & _).
  exists view, s1, tr, w1. split; [exact Hrun|exact Hshow].
Defined.

Lemma popup_notification_defers_closing_witness :
  exists result w1 tr w2,
    lift (CreateWebView sample_webview true MSG_ROUTING_NONE) sample_full_view
    = Some (result, w1, tr)
    /\ CloseWidgetSoon w1 = Some (tt, w1, [])
    /\ OnPopupNotificationVisiblityChanged false w1 = Some (tt, w2, [])
    /\ CloseWidgetSoon w2 = Some (tt, w2, [RenderWidget_CloseWidgetSoon]).
Proof.
  assert (exists result w1 tr,
            lift (CreateWebView sample_webview true MSG_ROUTING_NONE)
              sample_full_view = Some (result, w1, tr) /\ tr <> [])
    as (result & w1 & tr & Hrun & Htr)
    by (eexists _, _, _; split; [vm_compute; reflexivity|discriminate]).
  destruct (popup_notification_defers_closing sample_webview true
              MSG_ROUTING_NONE sample_full_view w1 result tr Hrun Htr)
    as (Hstay & w2 & Hgone & Hclose).
  exists result, w1, tr, w2. split; [exact Hrun|]. split; [exact Hstay|].
  split; [exact Hgone|exact Hclose].
Defined.

Lemma first_available_plugin_is_the_one_installed_witness :
  exists w1 tr,
    plugin_events
      [InstallRequest; PluginStatus 3%nat 0; PluginStatus 4%nat 0;
       PluginStatus 4%nat 1; InstallRequest] sample_full_view
    = Some (tt, w1, tr)
    /\ first_default_plugin_ (this (core w1)) = Some 3%nat
    /\ Forall (fun d => Some 3%nat = Some d) (installs tr).
Proof.
  destruct (first_available_plugin_is_the_one_installed
              [InstallRequest; PluginStatus 3%nat 0; PluginStatus 4%nat 0;
               PluginStatus 4%nat 1; InstallRequest] sample_full_view)
    as (w1 & tr & k & Hrun & Hfirst & _ & _ & Hinstalls); [reflexivity|].
  exists w1, tr. split; [exact Hrun|]. split; [exact Hfirst|exact Hinstalls].
Defined.

Lemma only_the_latest_autofill_query_is_answered_witness :
  exists w2,
    (QueryFormFieldAutofill "name" "A" 1;;
     QueryFormFieldAutofill "name" "An" 1) sample_full_view
    = Some (tt, w2,
            [Post (ViewHostMsg_QueryFormFieldAutofill 7 "name" "A" 1 0);
             Post (ViewHostMsg_QueryFormFieldAutofill 7 "name" "An" 1 1)])
    /\ OnReceivedAutofillSuggestions (Some sample_webview) 1 0 ["Ann"] 0 w2
       = Some (tt, w2, [])
    /\ OnReceivedAutofillSuggestions (Some sample_webview) 1 1 ["Ann"] 0 w2
       = Some (tt, w2, [AutofillSuggestionsForNode 1 ["Ann"] 0]).
Proof.
  destruct (only_the_latest_autofill_query_is_answered sample_webview
              "name" "A" "name" "An" 1 1 sample_full_view)
    as (w1 & w2 & id1 & id2 & Hq1 & Hq2 & -> & -> & _ & Hanswer).
  destruct (Hanswer 1 ["Ann"] 0) as (Hstale & Hlatest & _).
  exists w2. split.
  - unfold mbind, V_bind. rewrite Hq1, Hq2. reflexivity.
  - split; [exact Hstale|exact Hlatest].
Defined.

Lemma one_file_chooser_at_a_time_witness :
  exists w1,
    RunFileChooser false "Open" "" 5%nat sample_full_view
    = Some (tt, w1, [Post (ViewHostMsg_RunFileChooser 7 false "Open" "")])
    /\ RunFileChooser true "Other" "" 6%nat w1
       = Some (tt, w1, [Delete 6%nat])
    /\ OnFileChooserResponse ["a.txt"] w1
       = Some (tt, sample_full_view,
               [OnFileChoose 5%nat ["a.txt"]; Delete 5%nat]).
Proof.
  destruct (one_file_chooser_at_a_time false true "Open" "" "Other" ""
              5%nat 6%nat ["a.txt"] [] sample_full_view eq_refl)
    as (w1 & Hrun & Hsecond & Hresponse & _).
  exists w1. split; [exact Hrun|]. split; [exact Hsecond|exact Hresponse].
Defined.

Lemma extension_callback_runs_once_witness :
  exists w1,
    SendExtensionRequest "tabs.get" "[1]" 10 (Some 1%nat) sample_full_view
    = Some (tt, w1, [Post (ViewHostMsg_ExtensionRequest 7 "tabs.get" "[1]" 10)])
    /\ OnExtensionResponse 10 "{}" w1
       = Some (tt, sample_full_view, [ExecuteCallbackInFrame 1%nat 10 "{}"])
    /\ OnExtensionResponse 10 "{}" sample_full_view
       = Some (tt, sample_full_view, []).
Proof.
  destruct (extension_callback_runs_once "tabs.get" "[1]" "{}" "{}" 10 1%nat
              sample_full_view)
    as (w1 & w2 & Hsend & Hfirst & Hsecond & Hback & _); [lia|].
  rewrite (Hback eq_refl) in Hfirst, Hsecond.
  exists w1. split; [exact Hsend|]. split; [exact Hfirst|exact Hsecond].
Defined.

Lemma closed_frame_callbacks_are_dropped_witness :
  exists w1 w2,
    WillCloseFrame (Some 1%nat) extension_view = Some (tt, w1, [])
    /\ OnExtensionResponse 10 "{}" w1 = Some (tt, w1, [])
    /\ OnExtensionResponse 11 "{}" w1
       = Some (tt, w2, [ExecuteCallbackInFrame 2%nat 11 "{}"]).
Proof.
  destruct (closed_frame_callbacks_are_dropped 1%nat extension_view)
    as (w1 & Hrun & _ & _ & Hdropped & Hkept).
  destruct (Hkept 11 "{}" 2%nat) as (w2 & Hother);
    [vm_compute; reflexivity|lia|].
  exists w1, w2. split; [exact Hrun|]. split; [|exact Hother].
  apply Hdropped. vm_compute. reflexivity.
Defined.

Lemma find_replies_are_sent_at_once_witness :
  exists tr,
    find_events [MatchCount 3 1 false; ReplyAck; MatchCount 5 1 true]
      sample_full_view
    = Some (tt, sample_full_view, tr)
    /\ posted tr
       = [ViewHostMsg_Find_Reply 7 1 3 (0, 0, 0, 0) (-1) false;
          ViewHostMsg_Find_Reply 7 1 5 (0, 0, 0, 0) (-1) true].
Proof.
  destruct (find_replies_are_sent_at_once
              [MatchCount 3 1 false; ReplyAck; MatchCount 5 1 true]
              sample_full_view eq_refl) as (tr & Hrun & Hposted & _).
  exists tr. split; [exact Hrun|exact Hposted].
Defined.

Lemma data_url_icons_are_pruned_witness :
  exists app_info,
    OnGetApplicationInfo sample_app_info (-1) sample_full_view
    = Some (tt, sample_full_view,
            [Post (ViewHostMsg_DidGetApplicationInfo 7 (-1) app_info)])
    /\ map WebApplicationInfo.url (WebApplicationInfo.icons app_info)
       = ["http://a.test/icon.png"; "http://a.test/big.png"].
Proof.
  destruct (data_url_icons_are_pruned sample_app_info (-1) sample_full_view)
    as (app_info & Hrun & _ & Hsame & _).
  exists app_info. split; [exact Hrun|].
  rewrite (Hsame eq_refl). vm_compute. reflexivity.
Defined.


Lemma provisional_load_start_sets_the_gesture_witness :
  exists w1 tr s2 params,
    DidStartProvisionalLoadForFrame sample_webview sample_frame
      (Some sample_data_source) NavigationGestureUser sample_full_view
    = Some (tt, w1, tr)
    /\ UpdateURL sample_webview sample_frame (core w1)
       = Some (tt, s2, [Send (ViewHostMsg_FrameNavigate 7 params)])
    /\ params_gesture params = NavigationGestureUser.
Proof.
  assert (exists w1 tr s2 tr2,
            DidStartProvisionalLoadForFrame sample_webview sample_frame
              (Some sample_data_source) NavigationGestureUser sample_full_view
            = Some (tt, w1, tr)
            /\ UpdateURL sample_webview sample_frame (core w1)
               = Some (tt, s2, tr2))
    as (w1 & tr & s2 & tr2 & Hrun & Hurl)
    by (eexists _, _, _, _; split; [vm_compute; reflexivity|];
        vm_compute; reflexivity).
  assert (is_valid GURL_empty = false) as Hempty by (vm_compute; reflexivity).
  destruct (provisional_load_start_sets_the_gesture sample_webview
              sample_frame (Some sample_data_source) NavigationGestureUser
              sample_full_view w1 tr Hempty Hrun) as (_ & _ & _ & Hnext).
  destruct (Hnext eq_refl sample_data_source s2 tr2 eq_refl Hurl)
    as (params & Htr & Hgesture & _).
  exists w1, tr, s2, params. split; [exact Hrun|].
  split; [rewrite Hurl, Htr; reflexivity|exact Hgesture].
Defined.

Lemma test_name_is_the_last_path_component_witness :
  exists directory,
    "LayoutTests/fast/b.html" = String.append directory "b.html"
    /\ LayoutTests.SetCurrentTestName id 260 "LayoutTests/fast/b.html"
       = Some "b.html"
    /\ LayoutTests.SetCurrentTestName id 260 long_test_path = None.
Proof.
  destruct (test_name_is_the_last_path_component id 260
              "LayoutTests/fast/b.html")
    as (directory & name & Hpath & _ & _ & Hname).
  assert (name = "b.html") as ->.
  { assert (LayoutTests.test_name_of "LayoutTests/fast/b.html" = "b.html")
      as Hlast by (vm_compute; reflexivity).
    revert Hname. unfold LayoutTests.SetCurrentTestName, LayoutTests.wcscpy_s.
    rewrite Hlast. unfold id.
    destruct (String.length name <? 260)%nat; [|discriminate].
    now intros [= <-]. }
  exists directory. split; [exact Hpath|]. split; [exact Hname|].
  destruct (test_name_is_the_last_path_component id 260 long_test_path)
    as (directory2 & name2 & _ & _ & _ & Hname2).
  vm_compute. reflexivity.
Defined.

Lemma layout_tests_stop_at_the_first_failure_witness :
  (exists run left_out,
     LayoutTests.tests_named sample_stdin = run ++ left_out
     /\ map fst run = ["a.html"; "fast/b.html"]
     /\ snd (LayoutTests.watch_stdin id 260 sample_stdin)
        = LayoutTests.EndOfLoop)
  /\ LayoutTests.watch_stdin id 260 [(line "a.html", true);
                                     (line long_test_path, true);
                                     (line "c.html", true)]
     = ([LayoutTests.Call_SetCurrentTestName "a.html";
         LayoutTests.Call_RunFileTest "a.html"],
        LayoutTests.InvalidParameter).
Proof.
  split.
  - destruct (layout_tests_stop_at_the_first_failure id 260 sample_stdin)
      as (run & left_out & Hnamed & _ & Hrun & _).
    exists run, left_out. split; [exact Hnamed|]. split.
    + rewrite <- Hrun. vm_compute. reflexivity.
    + vm_compute. reflexivity.
  - vm_compute. reflexivity.
Defined.
